(** * wandb launch: docker image helpers

    A shallow embedding of [wandb/sdk/launch/docker.py]: the image tag
    derivation, the generated Dockerfile, the build-context packaging and the
    image build, together with the properties stated for them.

    Python text is a [string]; a Python value that is either text or [None]
    is an [option string]; a dictionary keyed by text is a [gmap string _].
    Code that touches the file system, the git repository or the docker
    engine runs in a state-and-exception monad over a [world]. *)

From Stdlib Require Import Ascii String.
From stdpp Require Import gmap strings list fin_maps stringmap pretty.

Set Default Proof Using "Type".

Open Scope string_scope.
Open Scope list_scope.
Open Scope stdpp_scope.

(** ** Python text operations *)

Module Py.

(** The line feed, written [\n] in the source. *)
Definition nl : string := String "010"%char "".

(** Truth value of a text: only the empty text is false. *)
Definition truthy (s : string) : bool :=
  match s with
  | "" => false
  | String _ _ => true
  end.

(** Truth value of a text-or-[None]. *)
Definition truthy_opt (o : option string) : bool :=
  match o with
  | None => false
  | Some s => truthy s
  end.

(** [s.replace(old, new)] for one-character [old] and [new]. *)
Fixpoint replace (old new : ascii) (s : string) : string :=
  match s with
  | "" => ""
  | String c s' =>
      String (if Ascii.eqb c old then new else c) (replace old new s')
  end.

(** [s[:n]]: the first [n] characters, all of [s] when it is shorter. *)
Fixpoint take (n : nat) (s : string) : string :=
  match n, s with
  | S n', String c s' => String c (take n' s')
  | _, _ => ""
  end.

(** [s.split(sep)] for a one-character separator: the pieces between the
    separators, in order; a text without separator is its only piece. *)
Fixpoint split (sep : ascii) (s : string) : list string :=
  match s with
  | "" => [""]
  | String c s' =>
      if Ascii.eqb c sep then "" :: split sep s'
      else match split sep s' with
           | piece :: pieces => String c piece :: pieces
           | [] => [String c ""]
           end
  end.

(** Number of occurrences of a character. *)
Fixpoint count (c : ascii) (s : string) : nat :=
  match s with
  | "" => 0
  | String a s' => (if Ascii.eqb a c then 1 else 0) + count c s'
  end.

(** [c in s] for a character. *)
Definition mem (c : ascii) (s : string) : bool :=
  negb (Nat.eqb (count c s) 0).

(** [s.startswith(p)], returning what follows the prefix. *)
Fixpoint strip_prefix (p s : string) : option string :=
  match p, s with
  | "", _ => Some s
  | String a p', String b s' =>
      if Ascii.eqb a b then strip_prefix p' s' else None
  | String _ _, "" => None
  end.

Definition startswith (p s : string) : bool :=
  match strip_prefix p s with Some _ => true | None => false end.

End Py.

(** ** Exceptions and the world *)

(** The exceptions the module raises or lets through. *)
Inductive exn :=
  | ExecutionException (msg : string)  (* wandb.errors.ExecutionException *)
  | KeyError (key : string)            (* d[key] on a missing key *)
  | ValueError (msg : string)          (* tuple unpacking of the wrong size *)
  | OSError (msg : string)             (* file system failures *)
  | Exception (msg : string)           (* raise Exception(msg) *)
  | DockerError (msg : string).        (* errors of the docker SDK *)

Inductive result (A : Type) :=
  | Ok (a : A)
  | Raise (e : exn).
Arguments Ok {A} a.
Arguments Raise {A} e.

Definition is_ok {A} (r : result A) : bool :=
  match r with Ok _ => true | Raise _ => false end.

(** A path is the list of its components below the root. *)
Abbreviation path := (list string).

(** A file system node.  A regular file holds text; an archive is a regular
    file whose content is a tar archive, kept as the tree it extracts to. *)
#[warnings="-register-all"] Inductive node :=
  | File (content : string)
  | Tarball (extracted : node)
  | Dir (entries : gmap string node).

(** [lookup_at p n]: the node reached from [n] along [p]. *)
Fixpoint lookup_at (p : path) (n : node) : option node :=
  match p with
  | [] => Some n
  | x :: p' =>
      match n with
      | Dir m => m !! x ≫= lookup_at p'
      | _ => None
      end
  end.

(** [update_dir p f n]: rewrite the entries of the directory at [p] with
    [f]; fails when [p] is not a directory or [f] refuses. *)
Fixpoint update_dir (p : path) (f : gmap string node → option (gmap string node))
    (n : node) {struct p} : option node :=
  match n with
  | Dir m =>
      match p with
      | [] => Dir <$> f m
      | x :: p' =>
          c ← m !! x;
          c' ← update_dir p' f c;
          Some (Dir (<[x := c']> m))
      end
  | _ => None
  end.

(** Create or replace the entry [x] of the directory at [p]. *)
Definition put (p : path) (x : string) (t : node) (n : node) : option node :=
  update_dir p (λ m, Some (<[x := t]> m)) n.

(** Remove the entry [x] of the directory at [p]. *)
Definition del (p : path) (x : string) (n : node) : option node :=
  update_dir p (λ m, Some (delete x m)) n.

(** [os.path.split]: the parent directory and the last component. *)
Fixpoint parent_and_name (p : path) : option (path * string) :=
  match p with
  | [] => None
  | [x] => Some ([], x)
  | y :: p' =>
      match parent_and_name p' with
      | Some (q, x) => Some (y :: q, x)
      | None => None
      end
  end.

Definition is_dir (o : option node) : bool :=
  match o with Some (Dir _) => true | _ => false end.

Definition is_regular (o : option node) : bool :=
  match o with Some (File _) | Some (Tarball _) => true | _ => false end.

(** The arguments of one [client.images.build] call. *)
Record build_request := {
  tag : string;
  forcerm : bool;
  dockerfile : string;
  fileobj : node;
  custom_context : bool;
  encoding : string;
}.

(** What the code can observe and change. *)
Record world := {
  fs : node;                          (* the file system, from its root *)
  tmpdir : path;                      (* tempfile.gettempdir() *)
  git_head : path → option string;    (* GitRepo(d).last_commit *)
  builds : list build_request;        (* calls the docker engine received *)
}.

Definition set_fs (n : node) (w : world) : world :=
  {| fs := n; tmpdir := tmpdir w; git_head := git_head w; builds := builds w |}.

Definition log_build (r : build_request) (w : world) : world :=
  {| fs := fs w; tmpdir := tmpdir w; git_head := git_head w;
     builds := builds w ++ [r] |}.

(** Failures that do not follow from the state of the world (a full disk, a
    permission, a broken daemon), and what a failed step leaves behind. *)
Record oracle := {
  mkdtemp_error : option exn;
  copytree_error : option exn;
  copytree_debris : option node;       (* left at the destination *)
  write_error : option exn;
  write_debris : option string;        (* left in the file being written *)
  mkstemp_error : option exn;
  make_tarfile_error : option exn;
  make_tarfile_debris : option string; (* left in the output file *)
  rmtree_error : option exn;
  rmtree_debris : option (gmap string node);  (* left of the tree *)
  open_error : option exn;
  remove_error : option exn;
  from_env_error : option exn;
  engine : build_request → result string;  (* the image the engine builds *)
  subprocess_stderr : list string → result string;  (* decoded stderr of a run *)
}.

(** ** The monad *)

Definition M (A : Type) : Type := world → result A * world.

#[global] Instance M_ret : MRet M := λ A a w, (Ok a, w).

#[global] Instance M_bind : MBind M := λ A B f m w,
  match m w with
  | (Ok a, w') => f a w'
  | (Raise e, w') => (Raise e, w')
  end.

Definition raise {A} (e : exn) : M A := λ w, (Raise e, w).

(** A pure computation that may raise. *)
Definition lift {A} (r : result A) : M A := λ w, (r, w).

(** [try: body finally: cleanup]: the cleanup runs on both exits; an
    exception of the cleanup replaces the outcome of the body. *)
Definition try_finally {A} (body : M A) (cleanup : M unit) : M A := λ w,
  match body w with
  | (r, w1) =>
      match cleanup w1 with
      | (Ok _, w2) => (r, w2)
      | (Raise e, w2) => (Raise e, w2)
      end
  end.

(** [try: body except Exception: handler]. *)
Definition try_except {A} (body : M A) (handler : exn → M A) : M A := λ w,
  match body w with
  | (Ok a, w1) => (Ok a, w1)
  | (Raise e, w1) => handler e w1
  end.

(** [d[key]]. *)
Definition getitem (d : gmap string string) (key : string) : result string :=
  match d !! key with
  | Some v => Ok v
  | None => Raise (KeyError key)
  end.

(** [template.format] with keyword arguments [kw], for a template whose
    replacement fields are plain names in braces and which has no doubled
    brace: each field is replaced by the value given for it, copied as it
    is. *)
Fixpoint format_from (kw : list (string * string)) (field : option string)
    (template : string) : result string :=
  match template with
  | "" =>
      match field with
      | None => Ok ""
      | Some _ => Raise (ValueError "expected '}' before end of string")
      end
  | String c rest =>
      match field with
      | None =>
          if Ascii.eqb c "{" then format_from kw (Some "") rest
          else if Ascii.eqb c "}" then
            Raise (ValueError "Single '}' encountered in format string")
          else match format_from kw None rest with
               | Ok s => Ok (String c s)
               | Raise e => Raise e
               end
      | Some name =>
          if Ascii.eqb c "}" then
            match List.find (λ kv, String.eqb (fst kv) name) kw with
            | Some kv =>
                match format_from kw None rest with
                | Ok s => Ok (snd kv +:+ s)
                | Raise e => Raise e
                end
            | None => Raise (KeyError name)
            end
          else format_from kw (Some (name +:+ String c "")) rest
      end
  end.

Definition format (template : string) (kw : list (string * string)) : result string :=
  format_from kw None template.

(** ** Regular expressions of the form [before(.+)after]

    Both patterns of the module are a literal, one group [(.+)] and a
    literal.  [.] is any character but the line feed, [+] is greedy. *)

Module Re.

Record pattern := { before : string; after : string }.

(** The group [(.+)] followed by [after], tried at the start of [r]: the
    longest run of characters without line feed that [after] follows.
    Returns the group. *)
Fixpoint group (after r : string) : option string :=
  match r with
  | "" => None
  | String c r' =>
      if Ascii.eqb c "010" then None
      else match group after r' with
           | Some g => Some (String c g)
           | None =>
               if Py.startswith after r' then Some (String c "") else None
           end
  end.

(** The pattern tried at the start of [s]: the group and the length of the
    match. *)
Definition match_at (p : pattern) (s : string) : option (string * nat) :=
  match Py.strip_prefix (before p) s with
  | Some r =>
      match group (after p) r with
      | Some g =>
          Some (g, String.length (before p) + String.length g
                     + String.length (after p))
      | None => None
      end
  | None => None
  end.

(** [re.findall]: the groups of the matches found from left to right, each
    search resuming where the previous match ended.  [skip] counts the
    characters of the previous match still to pass. *)
Fixpoint findall_skipping (p : pattern) (skip : nat) (s : string) : list string :=
  match skip with
  | S k =>
      match s with
      | "" => []
      | String _ s' => findall_skipping p k s'
      end
  | 0 =>
      match match_at p s with
      | Some (g, len) =>
          g :: match s with
               | "" => []
               | String _ s' => findall_skipping p (len - 1) s'
               end
      | None =>
          match s with
          | "" => []
          | String _ s' => findall_skipping p 0 s'
          end
      end
  end.

Definition findall (p : pattern) (s : string) : list string :=
  findall_skipping p 0 s.

End Re.

(** ** The module *)

Definition _GENERATED_DOCKERFILE_NAME : string := "Dockerfile.wandb-autogenerated".
Definition _PROJECT_TAR_ARCHIVE_NAME : string := "wandb-project-docker-build-context".

(** [_project_spec.Project], as far as the module reads it. *)
Record Project := {
  dir : path;
  name : option string;
  docker_env : gmap string string;
}.

(** The [api] argument, as far as the module reads it. *)
Record Api := {
  settings : string → string;
  api_key : string;
}.

(** [r"Successfully tagged (.+):latest"] *)
Definition tagged_pattern : Re.pattern :=
  {| Re.before := "Successfully tagged "; Re.after := ":latest" |}.

(** [r"Reusing existing image \((.+)\)"] *)
Definition reusing_pattern : Re.pattern :=
  {| Re.before := "Reusing existing image ("; Re.after := ")" |}.

(** The message of [a, b, c = parts] when [parts] has not three items. *)
Definition unpack3_message (got : nat) : string :=
  if decide (got < 3) then
    "not enough values to unpack (expected 3, got " +:+ pretty got +:+ ")"
  else "too many values to unpack (expected 3)".

(** [a, b, c = parts], keeping [c]. *)
Definition unpack3_last (parts : list string) : result string :=
  match parts with
  | [_; _; c] => Ok c
  | _ => Raise (ValueError (unpack3_message (length parts)))
  end.

Section Docker.

(** From [wandb/sdk/launch/utils.py]: the two patterns of tracking URLs and
    the working directory inside the image. *)
Variable _is_wandb_local_uri : string → bool.
Variable _is_wandb_dev_uri : string → bool.
Variable WANDB_DOCKER_WORKDIR_PATH : string.

Variable φ : oracle.

(** *** File system and engine calls *)

Definition fs_get (p : path) : M (option node) := λ w,
  (Ok (lookup_at p (fs w)), w).

Definition fs_put (p : path) (t : node) : M unit := λ w,
  match parent_and_name p with
  | Some (d, x) =>
      match put d x t (fs w) with
      | Some n => (Ok (), set_fs n w)
      | None => (Raise (OSError "FileNotFoundError"), w)
      end
  | None => (Raise (OSError "IsADirectoryError"), w)
  end.

Definition fs_del (p : path) : M unit := λ w,
  match parent_and_name p with
  | Some (d, x) =>
      match del d x (fs w) with
      | Some n => (Ok (), set_fs n w)
      | None => (Raise (OSError "FileNotFoundError"), w)
      end
  | None => (Raise (OSError "PermissionError"), w)
  end.

(** What a failed step leaves at [p]. *)
Definition leave (p : path) (debris : option node) : M unit :=
  match debris with
  | Some t => try_except (fs_put p t) (λ _, mret ())
  | None => mret ()
  end.

(** [tempfile.gettempdir()] *)
Definition gettempdir : M path := λ w, (Ok (tmpdir w), w).

(** A name that no entry of the temporary directory has. *)
Definition fresh_tmp_name : M string :=
  t ← gettempdir;
  d ← fs_get t;
  match d with
  | Some (Dir m) => mret (fresh_string_of_set "tmp" (dom m))
  | _ => raise (OSError "FileNotFoundError")
  end.

(** [tempfile.mkdtemp()] *)
Definition mkdtemp : M path :=
  match mkdtemp_error φ with
  | Some e => raise e
  | None =>
      x ← fresh_tmp_name;
      t ← gettempdir;
      fs_put (t ++ [x]) (Dir ∅);;
      mret (t ++ [x])
  end.

(** [tempfile.mkstemp()], keeping the path. *)
Definition mkstemp : M path :=
  match mkstemp_error φ with
  | Some e => raise e
  | None =>
      x ← fresh_tmp_name;
      t ← gettempdir;
      fs_put (t ++ [x]) (File "");;
      mret (t ++ [x])
  end.

(** [shutil.copytree(src, dst)]: [src] must be a directory and [dst] must
    not exist; the directory that is to hold [dst] is taken to exist, as it
    does for the one caller.  A copy into the tree being copied descends into
    itself until a name is too long, and leaves what it has made. *)
Definition copytree (src dst : path) : M unit :=
  match copytree_error φ with
  | Some e => leave dst (copytree_debris φ);; raise e
  | None =>
      s ← fs_get src;
      match s with
      | Some (Dir m) =>
          d ← fs_get dst;
          match d with
          | Some _ => raise (OSError "FileExistsError")
          | None =>
              if bool_decide (src `prefix_of` dst) then
                leave dst (copytree_debris φ);;
                raise (OSError "File name too long")
              else fs_put dst (Dir m)
          end
      | Some _ => raise (OSError "NotADirectoryError")
      | None => raise (OSError "FileNotFoundError")
      end
  end.

(** [with open(p, "w") as handle: handle.write(contents)] *)
Definition write_text (p : path) (contents : string) : M unit :=
  old ← fs_get p;
  if is_dir old then raise (OSError "IsADirectoryError")
  else match write_error φ with
       | Some e => leave p (File <$> write_debris φ);; raise e
       | None => fs_put p (File contents)
       end.

(** Modelled from the spec: [wandb.util.make_tarfile], which is not among
    the sources: it archives [source_dir] into the single file
    [output_filename], under the one top-level entry [archive_name]. *)
Definition make_tarfile (output_filename source_dir : path)
    (archive_name : string) : M unit :=
  src ← fs_get source_dir;
  old ← fs_get output_filename;
  match src with
  | None => raise (OSError "FileNotFoundError")
  | Some t =>
      if is_dir old then raise (OSError "IsADirectoryError")
      else match make_tarfile_error φ with
           | Some e =>
               leave output_filename (File <$> make_tarfile_debris φ);;
               raise e
           | None =>
               fs_put output_filename (Tarball (Dir {[archive_name := t]}))
           end
  end.

(** [shutil.rmtree(p)], without [ignore_errors]: a removal that fails
    raises, and the directory stays with what had not been removed yet. *)
Definition rmtree (p : path) : M unit :=
  old ← fs_get p;
  match old with
  | Some (Dir _) =>
      match rmtree_error φ with
      | Some e => leave p (Dir <$> rmtree_debris φ);; raise e
      | None => fs_del p
      end
  | Some _ => raise (OSError "NotADirectoryError")
  | None => raise (OSError "FileNotFoundError")
  end.

(** [os.remove(p)] *)
Definition os_remove (p : path) : M unit :=
  match remove_error φ with
  | Some e => raise e
  | None =>
      old ← fs_get p;
      match old with
      | Some (Dir _) => raise (OSError "IsADirectoryError")
      | Some _ => fs_del p
      | None => raise (OSError "FileNotFoundError")
      end
  end.

(** [open(p, "rb")]: the content of a regular file. *)
Definition open_rb (p : path) : M node :=
  match open_error φ with
  | Some e => raise e
  | None =>
      old ← fs_get p;
      match old with
      | Some (Dir _) => raise (OSError "IsADirectoryError")
      | Some t => mret t
      | None => raise (OSError "FileNotFoundError")
      end
  end.

(** [docker.from_env()] *)
Definition docker_from_env : M unit :=
  match from_env_error φ with
  | Some e => raise e
  | None => mret ()
  end.

(** [client.images.build(...)], keeping the image. *)
Definition images_build (r : build_request) : M string := λ w,
  (engine φ r, log_build r w).

(** [GitRepo(work_dir).last_commit] *)
Definition last_commit (work_dir : path) : M (option string) := λ w,
  (Ok (git_head w work_dir), w).

(** [subprocess.run(cmd, ...).stderr.decode("utf-8")] *)
Definition run_stderr (cmd : list string) : M string :=
  lift (subprocess_stderr φ cmd).

(** *** The functions of [docker.py] *)

Definition validate_docker_env (project : Project) : M unit :=
  if negb (Py.truthy_opt (docker_env project !! "image")) then
    raise (ExecutionException
      ("Project with docker environment must specify the docker image "
       +:+ "to use via an 'image' field under the 'docker_env' field."))
  else mret ().

(** The command line of [generate_docker_image]; the entry command goes
    between double quotes. *)
Definition repo2docker_cmd (project : Project) (entry_cmd : string)
    : list string :=
  let path := dir project in
  [ "jupyter-repo2docker"; "--no-run"; String.concat "/" path;
    String "034" "" +:+ entry_cmd +:+ String "034" "" ].

Definition generate_docker_image (project : Project) (entry_cmd : string)
    : M string :=
  let cmd := repo2docker_cmd project entry_cmd in
  stderr ← run_stderr cmd;
  let image_id := Re.findall tagged_pattern stderr in
  let image_id :=
    if bool_decide (image_id = []) then Re.findall reusing_pattern stderr
    else image_id in
  match image_id with
  | [] => raise (Exception "error running repo2docker")
  | first :: _ => mret first
  end.

Definition _get_docker_image_uri (repository_uri : option string)
    (work_dir : path) : M string :=
  let repository_uri :=
    match repository_uri with
    | Some s => if Py.truthy s then Py.replace " " "-" s else "docker-project"
    | None => "docker-project"
    end in
  git_commit ← last_commit work_dir;
  let version_string :=
    match git_commit with
    | Some c => if Py.truthy c then ":" +:+ Py.take 7 c else ""
    | None => ""
    end in
  mret (repository_uri +:+ version_string).

Definition _create_docker_build_ctx (work_dir : path)
    (dockerfile_contents : string) : M path :=
  directory ← mkdtemp;
  try_finally
    (let dst_path := directory ++ ["wandb-project-contents"] in
     copytree work_dir dst_path;;
     write_text (dst_path ++ [_GENERATED_DOCKERFILE_NAME]) dockerfile_contents;;
     result_path ← mkstemp;
     make_tarfile result_path dst_path _PROJECT_TAR_ARCHIVE_NAME;;
     mret result_path)
    (rmtree directory).

(** Lines 76 to 82 of [build_docker_image]: the base URL for the image. *)
Definition resolve_base_url (api : Api) : result string :=
  if _is_wandb_local_uri (settings api "base_url") then
    match unpack3_last (Py.split ":" (settings api "base_url")) with
    | Ok port => Ok ("http://host.docker.internal:" +:+ port)
    | Raise e => Raise e
    end
  else if _is_wandb_dev_uri (settings api "base_url") then
    Ok "http://host.docker.internal:9002"
  else Ok (settings api "base_url").

(** The template of lines 93 to 103. *)
Definition dockerfile_template : string :=
  "FROM {imagename}" +:+ Py.nl
  +:+ "COPY {build_context_path}/ {workdir}" +:+ Py.nl
  +:+ "WORKDIR {workdir}" +:+ Py.nl
  +:+ "ENV WANDB_BASE_URL={base_url}" +:+ Py.nl
  +:+ "ENV WANDB_API_KEY={api_key}" +:+ Py.nl
  +:+ "ENV WANDB_PROJECT={wandb_project}" +:+ Py.nl
  +:+ "ENV WANDB_ENTITY={wandb_entity}" +:+ Py.nl
  +:+ "{name_env}"
  +:+ "ENV WANDB_LAUNCH=True" +:+ Py.nl
  +:+ "USER root" +:+ Py.nl.

(** Lines 87 to 113 of [build_docker_image]: the text of the Dockerfile. *)
Definition render_dockerfile (project : Project) (base_image : string)
    (api : Api) (base_url : string) : result string :=
  match getitem (docker_env project) "WANDB_PROJECT" with
  | Raise e => Raise e
  | Ok wandb_project =>
  match getitem (docker_env project) "WANDB_ENTITY" with
  | Raise e => Raise e
  | Ok wandb_entity =>
      let name_env :=
        match name project with
        | Some n =>
            if Py.truthy n then "ENV WANDB_NAME=" +:+ n +:+ Py.nl else ""
        | None => ""
        end in
      format dockerfile_template
        [ ("imagename", base_image);
          ("build_context_path", _PROJECT_TAR_ARCHIVE_NAME);
          ("workdir", WANDB_DOCKER_WORKDIR_PATH);
          ("base_url", base_url);
          ("api_key", api_key api);
          ("wandb_project", wandb_project);
          ("wandb_entity", wandb_entity);
          ("name_env", name_env) ]
  end end.

Definition build_docker_image (project : Project)
    (docker_repository_uri : option string) (base_image : string) (api : Api)
    : M string :=
  image_uri ← _get_docker_image_uri docker_repository_uri (dir project);
  base_url ← lift (resolve_base_url api);
  image_uri ← _get_docker_image_uri docker_repository_uri (dir project);
  dockerfile ← lift (render_dockerfile project base_image api base_url);
  build_ctx_path ← _create_docker_build_ctx (dir project) dockerfile;
  docker_build_ctx ← open_rb build_ctx_path;
  let dockerfile :=
    _PROJECT_TAR_ARCHIVE_NAME +:+ "/" +:+ _GENERATED_DOCKERFILE_NAME in
  docker_from_env;;
  image ← images_build
    {| tag := image_uri; forcerm := true; dockerfile := dockerfile;
       fileobj := docker_build_ctx; custom_context := true;
       encoding := "gzip" |};
  try_except (os_remove build_ctx_path) (λ _, mret ());;
  mret image.

(** The Dockerfile that [build_docker_image] writes, when it gets that far. *)
Definition generated_dockerfile (project : Project) (base_image : string)
    (api : Api) : result string :=
  match resolve_base_url api with
  | Ok base_url => render_dockerfile project base_image api base_url
  | Raise e => Raise e
  end.

End Docker.

(** ** Sample inputs *)

(** Modelled from the spec: the "local" pattern of tracking URLs, whose
    definition ([wandb/sdk/launch/utils.py]) is not among the sources: a URL
    of the machine itself, [http://localhost...] or [https://localhost...]. *)
Definition local_uri_pattern (uri : string) : bool :=
  Py.startswith "http://localhost" uri || Py.startswith "https://localhost" uri.

(** Modelled from the spec: the "development" pattern of tracking URLs, not
    among the sources either: a URL of the development host. *)
Definition dev_uri_pattern (uri : string) : bool :=
  Py.startswith "http://api.wandb.test" uri
  || Py.startswith "https://api.wandb.test" uri.

Definition sample_workdir : string := "/wandb/projects/code/".

(** No failure from outside; the engine builds an image called after the tag. *)
Definition calm : oracle :=
  {| mkdtemp_error := None; copytree_error := None; copytree_debris := None;
     write_error := None; write_debris := None; mkstemp_error := None;
     make_tarfile_error := None; make_tarfile_debris := None;
     rmtree_error := None; rmtree_debris := None;
     open_error := None; remove_error := None; from_env_error := None;
     engine := λ r, Ok ("image of " +:+ tag r);
     subprocess_stderr := λ _, Ok "Successfully tagged r2d-demo:latest" |}.

(** The archiving step fails, leaving a truncated output file. *)
Definition tar_breaks : oracle :=
  {| mkdtemp_error := None; copytree_error := None; copytree_debris := None;
     write_error := None; write_debris := None; mkstemp_error := None;
     make_tarfile_error := Some (OSError "No space left on device");
     make_tarfile_debris := Some "truncated";
     rmtree_error := None; rmtree_debris := None;
     open_error := None; remove_error := None; from_env_error := None;
     engine := λ r, Ok ("image of " +:+ tag r);
     subprocess_stderr := λ _, Ok "" |}.


(** A project with one script. *)
Definition sample_fs : node :=
  Dir {[ "tmp" := Dir ∅;
         "home" := Dir {[ "proj" := Dir {[ "train.py" := File "print(1)" ]} ]} ]}.


Definition world_of (root : node) (head : option string) : world :=
  {| fs := root; tmpdir := ["tmp"]; git_head := λ _, head; builds := [] |}.

Definition sample_world : world := world_of sample_fs (Some "abc1234567").

Definition sample_project : Project :=
  {| dir := ["home"; "proj"]; name := Some "run-1";
     docker_env := {[ "WANDB_PROJECT" := "demo"; "WANDB_ENTITY" := "team";
                      "image" := "python:3.9" ]} |}.

(** The same project without its [WANDB_PROJECT]. *)
Definition unconfigured_project : Project :=
  {| dir := ["home"; "proj"]; name := Some "run-1";
     docker_env := {[ "WANDB_ENTITY" := "team" ]} |}.

Definition api_at (base_url : string) : Api :=
  {| settings := λ _, base_url; api_key := "local-key" |}.

(** ** The wording of the specification *)

(** The repository part of a tag: the placeholder when the URI is empty,
    then every space replaced by a hyphen. *)
Definition spec_repository (repository_uri : option string) : string :=
  let uri := default "" repository_uri in
  let substituted := if bool_decide (uri = "") then "docker-project" else uri in
  Py.replace " " "-" substituted.

(** The lines of the build recipe, in order. *)
Definition recipe_lines (base_image workdir base_url key project entity : string)
    (run_name : option string) : list string :=
  [ "FROM " +:+ base_image;
    "COPY " +:+ _PROJECT_TAR_ARCHIVE_NAME +:+ "/ " +:+ workdir;
    "WORKDIR " +:+ workdir;
    "ENV WANDB_BASE_URL=" +:+ base_url;
    "ENV WANDB_API_KEY=" +:+ key;
    "ENV WANDB_PROJECT=" +:+ project;
    "ENV WANDB_ENTITY=" +:+ entity ]
  ++ match run_name with
     | Some n => [ "ENV WANDB_NAME=" +:+ n ]
     | None => []
     end
  ++ [ "ENV WANDB_LAUNCH=True"; "USER root" ].

(** A text made of lines, each ended by a line feed. *)
Definition unlines (ls : list string) : string :=
  foldr (λ l acc, l +:+ Py.nl +:+ acc) "" ls.

(** The name of a descriptor when it is set: present and not empty. *)
Definition name_if_set (project : Project) : option string :=
  match name project with
  | Some (String c n) => Some (String c n)
  | _ => None
  end.

(** ** Reasoning about computations *)

(** [triple P m Q]: run from a world where [P] holds, [m] ends with an
    outcome and a world that [Q] relates. *)
Definition triple {A} (P : world → Prop) (m : M A)
    (Q : result A → world → Prop) : Prop :=
  ∀ w r w', P w → m w = (r, w') → Q r w'.

(** [m] keeps [P], whatever its outcome. *)
Definition keeps {A} (P : world → Prop) (m : M A) : Prop :=
  triple P m (λ _, P).

(** The scratch directory [x] of the temporary directory [t] is there. *)
Definition scratch_alive (t : path) (x : string) (w : world) : Prop :=
  tmpdir w = t ∧ is_dir (lookup_at (t ++ [x]) (fs w)) = true.

(** A path beside the scratch directory, or inside it. *)
Definition beside_or_below (t : path) (x : string) (p : path) : Prop :=
  (∃ z, p = t ++ [z] ∧ z ≠ x) ∨ (∃ r y, p = t ++ x :: r ++ [y]).

(** The first key that [build_docker_image] looks up and does not find. *)
Definition first_missing_key (project : Project) : string :=
  match docker_env project !! "WANDB_PROJECT" with
  | None => "WANDB_PROJECT"
  | Some _ => "WANDB_ENTITY"
  end.

(** The output [s] has a marker of the pattern [p]: the text before the
    group, a name that is not empty and stays on one line, and the text
    after the group. *)
Definition marker (p : Re.pattern) (s : string) : Prop :=
  ∃ a g b,
    s = a +:+ Re.before p +:+ g +:+ Re.after p +:+ b
    ∧ g ≠ "" ∧ Py.count "010" g = 0.

(** ** Further notions *)

(** Line 155 of the source: what a commit adds to the repository part. *)
Definition version_string_of (git_commit : option string) : string :=
  match git_commit with
  | Some c => if Py.truthy c then ":" +:+ Py.take 7 c else ""
  | None => ""
  end.

(** Line feeds carried by the values that go into the Dockerfile. *)
Definition carried_line_feeds (values : list string) : nat :=
  foldr (λ v acc, Py.count "010" v + acc) 0 values.

(** The path [q] is neither in the directory [t] nor above it. *)
Definition apart (t q : path) : Prop :=
  ¬ t `prefix_of` q ∧ ¬ q `prefix_of` t.

(** The node at [q], which is outside the temporary directory [t]. *)
Definition outside_kept (t q : path) (v : option node) (w : world) : Prop :=
  tmpdir w = t ∧ lookup_at q (fs w) = v.

(** The calls the engine has received and the repositories. *)
Definition quiet (t : path) (b : list build_request)
    (g : path → option string) (w : world) : Prop :=
  tmpdir w = t ∧ builds w = b ∧ git_head w = g.

(** [P] speaks of the temporary directory [t] and holds on through any
    change made in it. *)
Definition local_inv (t : path) (P : world → Prop) : Prop :=
  (∀ w, P w → tmpdir w = t)
  ∧ (∀ p v, t `prefix_of` p → keeps P (fs_put p v))
  ∧ (∀ p, t `prefix_of` p → keeps P (fs_del p)).

(** The temporary directory [t] holds [entries]. *)
Definition tmp_holds (t : path) (entries : gmap string node) (w : world) : Prop :=
  tmpdir w = t ∧ lookup_at t (fs w) = Some (Dir entries).

(** Besides [m], the temporary directory holds the scratch directory [x]. *)
Definition scratch_only (t : path) (m : gmap string node) (x : string)
    (w : world) : Prop :=
  ∃ c, tmp_holds t (<[x := Dir c]> m) w.

(** Besides [m], it holds the scratch directory [x] and a regular file [z]. *)
Definition scratch_and_output (t : path) (m : gmap string node)
    (x z : string) (w : world) : Prop :=
  ∃ c v, is_regular (Some v) = true
         ∧ tmp_holds t (<[z := v]> (<[x := Dir c]> m)) w.

(** The request that [build_docker_image] sends for a tag and a context. *)
Definition request_for (image_uri : string) (docker_build_ctx : node)
    : build_request :=
  {| tag := image_uri; forcerm := true;
     dockerfile :=
       _PROJECT_TAR_ARCHIVE_NAME +:+ "/" +:+ _GENERATED_DOCKERFILE_NAME;
     fileobj := docker_build_ctx; custom_context := true;
     encoding := "gzip" |}.

(** Lines 115 to 138 of [build_docker_image]: the build from the archive
    and the removal of the archive. *)
Definition build_from_context (φ : oracle) (image_uri : string)
    (build_ctx_path : path) : M string :=
  docker_build_ctx ← open_rb φ build_ctx_path;
  docker_from_env φ;;
  image ← images_build φ (request_for image_uri docker_build_ctx);
  try_except (os_remove φ build_ctx_path) (λ _, mret ());;
  mret image.

(** A text that is empty or whose last character is a line feed. *)
Definition complete_lines (s : string) : Prop :=
  s = "" ∨ ∃ s', s = s' +:+ Py.nl.

(** The end of a line: the end of the text or a line feed. *)
Definition line_end (tail : string) : Prop :=
  tail = "" ∨ ∃ tail', tail = String "010" tail'.

(** The two literals of a pattern have no line feed. *)
Definition one_line_pattern (p : Re.pattern) : Prop :=
  Py.count "010" (Re.before p) = 0 ∧ Py.count "010" (Re.after p) = 0.

(** ** Further sample inputs *)

(** No failure from outside, and the given output of repo2docker. *)
Definition with_stderr (s : string) : oracle :=
  {| mkdtemp_error := None; copytree_error := None; copytree_debris := None;
     write_error := None; write_debris := None; mkstemp_error := None;
     make_tarfile_error := None; make_tarfile_debris := None;
     rmtree_error := None; rmtree_debris := None;
     open_error := None; remove_error := None; from_env_error := None;
     engine := λ r, Ok ("image of " +:+ tag r);
     subprocess_stderr := λ _, Ok s |}.

(** The engine refuses every build. *)
Definition engine_breaks : oracle :=
  {| mkdtemp_error := None; copytree_error := None; copytree_debris := None;
     write_error := None; write_debris := None; mkstemp_error := None;
     make_tarfile_error := None; make_tarfile_debris := None;
     rmtree_error := None; rmtree_debris := None;
     open_error := None; remove_error := None; from_env_error := None;
     engine := λ _, Raise (DockerError "build failed");
     subprocess_stderr := λ _, Ok "" |}.

(** A project in which [Dockerfile.wandb-autogenerated] is a directory. *)
Definition dir_clash_fs : node :=
  Dir {[ "tmp" := Dir ∅;
         "home" := Dir {[ "proj" :=
           Dir {[ "train.py" := File "print(1)";
                  _GENERATED_DOCKERFILE_NAME := Dir ∅ ]} ]} ]}.

(** Outputs of repo2docker: a build, and an image found again. *)
Definition build_log : string :=
  "Step 1/2 : FROM buildpack-deps" +:+ Py.nl
  +:+ "Successfully built 0123abcd" +:+ Py.nl
  +:+ "Successfully tagged r2d-demo:latest" +:+ Py.nl.

Definition reuse_log : string :=
  "Picked Git content provider." +:+ Py.nl
  +:+ "Reusing existing image (r2d-demo)" +:+ Py.nl.

(** ** Facts about the text operations *)

Module PyFacts.

Lemma replace_count old new s :
  old ≠ new → Py.count old (Py.replace old new s) = 0.
Proof.
  intros Hne. induction s as [|c s IH]; simpl; [done|].
  rewrite IH. destruct (Ascii.eqb_spec c old) as [->|Hc].
  - destruct (Ascii.eqb_spec new old); [congruence|done].
  - destruct (Ascii.eqb_spec c old); [congruence|done].
Qed.

Lemma replace_get old new s i :
  String.get i (Py.replace old new s)
  = (λ c, if Ascii.eqb c old then new else c) <$> String.get i s.
Proof.
  revert i. induction s as [|c s IH]; intros [|i]; simpl; auto.
Qed.


Lemma take_all n s : (String.length s ≤ n)%nat → Py.take n s = s.
Proof.
  revert n. induction s as [|c s IH]; intros [|n] H; simpl in *; try done; try lia.
  f_equal. apply IH. lia.
Qed.

Lemma take_length n s :
  String.length (Py.take n s) = (n `min` String.length s)%nat.
Proof.
  revert n. induction s as [|c s IH]; intros [|n]; simpl; auto.
Qed.

Lemma app_cons c (a b : string) : String c a +:+ b = String c (a +:+ b).
Proof. reflexivity. Qed.

Lemma app_nil_l (b : string) : "" +:+ b = b.
Proof. reflexivity. Qed.

Lemma take_prefix n s : ∃ r, s = Py.take n s +:+ r.
Proof.
  revert n. induction s as [|c s IH]; intros [|n]; simpl; eauto.
  destruct (IH n) as [r Hr]. exists r. rewrite app_cons. by f_equal.
Qed.

Lemma split_nonempty sep s : Py.split sep s ≠ [].
Proof.
  destruct s as [|c s]; simpl; [done|].
  destruct (Ascii.eqb c sep); [done|]. by destruct (Py.split sep s).
Qed.

Lemma split_length sep s : length (Py.split sep s) = S (Py.count sep s).
Proof.
  induction s as [|c s IH]; simpl; [done|].
  destruct (Ascii.eqb c sep); simpl; [by rewrite IH|].
  destruct (Py.split sep s) eqn:E; simpl in *; [done|]. done.
Qed.

Lemma split_no_sep sep s : Py.count sep s = 0 → Py.split sep s = [s].
Proof.
  induction s as [|c s IH]; simpl; [done|].
  destruct (Ascii.eqb c sep); simpl; [done|]. intros H. by rewrite IH.
Qed.

Lemma split_app sep a s :
  Py.count sep a = 0 →
  Py.split sep (a +:+ String sep s) = a :: Py.split sep s.
Proof.
  induction a as [|c a IH]; rewrite ?app_cons, ?app_nil_l; simpl.
  - intros _. by rewrite Ascii.eqb_refl.
  - destruct (Ascii.eqb c sep); simpl; [done|]. intros H. by rewrite IH.
Qed.

Lemma strip_prefix_app p s : Py.strip_prefix p (p +:+ s) = Some s.
Proof.
  induction p as [|c p IH]; rewrite ?app_cons, ?app_nil_l; simpl.
  - by destruct s.
  - by rewrite Ascii.eqb_refl.
Qed.

Lemma strip_prefix_Some p s r : Py.strip_prefix p s = Some r → s = p +:+ r.
Proof.
  revert s. induction p as [|c p IH]; intros s; simpl.
  - rewrite app_nil_l. congruence.
  - destruct s as [|b s]; [done|].
    destruct (Ascii.eqb_spec c b) as [->|]; [|done].
    intros H. rewrite app_cons. f_equal. by apply IH.
Qed.

Lemma app_assoc (a b c : string) : (a +:+ b) +:+ c = a +:+ (b +:+ c).
Proof.
  induction a as [|x a IH]; rewrite ?app_cons, ?app_nil_l; [done|].
  by rewrite IH.
Qed.

Lemma app_length (a b : string) :
  String.length (a +:+ b) = String.length a + String.length b.
Proof.
  induction a as [|x a IH]; rewrite ?app_cons, ?app_nil_l; simpl; [done|].
  by rewrite IH.
Qed.

Lemma count_app c (a b : string) :
  Py.count c (a +:+ b) = Py.count c a + Py.count c b.
Proof.
  induction a as [|x a IH]; rewrite ?app_cons, ?app_nil_l; simpl; [done|].
  rewrite IH. lia.
Qed.

End PyFacts.

(** ** The image tag *)

Section Tag.

Lemma run_bind {A B} (m : M A) (f : A → M B) w :
  (m ≫= f) w = match m w with
               | (Ok a, w') => f a w'
               | (Raise e, w') => (Raise e, w')
               end.
Proof. reflexivity. Qed.

Lemma string_app_nil_r (s : string) : s +:+ "" = s.
Proof.
  induction s as [|c s IH]; [done|]. rewrite PyFacts.app_cons. by rewrite IH.
Qed.

Lemma repository_part_spec (repository_uri : option string) :
  match repository_uri with
  | Some s => if Py.truthy s then Py.replace " " "-" s else "docker-project"
  | None => "docker-project"
  end = spec_repository repository_uri.
Proof. by destruct repository_uri as [[|c s]|]. Qed.

(** Deriving a tag reads the repository and changes nothing. *)
Lemma image_uri_total repository_uri work_dir w :
  ∃ uri, _get_docker_image_uri repository_uri work_dir w = (Ok uri, w).
Proof. unfold _get_docker_image_uri. rewrite run_bind. simpl. eauto. Qed.

(** C2: whatever the repository URI and the working directory, the tag
    starts with the repository part the specification describes: the
    placeholder [docker-project] for an empty URI, and otherwise the URI, each
    space of which has become a hyphen and each other character is kept; the
    repository part of [my repo] is [my-repo]. *)
Theorem tag_repository_normalized (repository_uri : option string)
    (work_dir : path) (w : world) :
  (∃ version_string,
     _get_docker_image_uri repository_uri work_dir w
     = (Ok (spec_repository repository_uri +:+ version_string), w))
  ∧ spec_repository None = "docker-project"
  ∧ spec_repository (Some "") = "docker-project"
  ∧ (∀ s i, s ≠ "" →
       String.get i (spec_repository (Some s))
       = (λ c, if Ascii.eqb c " " then "-"%char else c) <$> String.get i s)
  ∧ Py.count " " (spec_repository repository_uri) = 0
  ∧ spec_repository (Some "my repo") = "my-repo".
Proof.
  split_and!; try reflexivity.
  - unfold _get_docker_image_uri. rewrite run_bind. simpl.
    rewrite repository_part_spec. eauto.
  - intros s i Hs. unfold spec_repository. simpl.
    rewrite bool_decide_eq_false_2 by done. apply PyFacts.replace_get.
  - apply PyFacts.replace_count. done.
Qed.

(** C3: without a commit the tag is the repository part alone, nothing
    after it; with a commit [c] it is the repository part, a colon and the
    first seven characters of [c], which are all of [c] when it has fewer. *)
Theorem tag_version_suffix (repository_uri : option string)
    (work_dir : path) (w : world) :
  (git_head w work_dir = None →
     _get_docker_image_uri repository_uri work_dir w
     = (Ok (spec_repository repository_uri), w))
  ∧ (∀ c, git_head w work_dir = Some c → c ≠ "" →
       _get_docker_image_uri repository_uri work_dir w
       = (Ok (spec_repository repository_uri +:+ ":" +:+ Py.take 7 c), w)
       ∧ String.length (Py.take 7 c) = (7 `min` String.length c)%nat
       ∧ (∃ rest, c = Py.take 7 c +:+ rest)
       ∧ ((String.length c ≤ 7)%nat → Py.take 7 c = c)).
Proof.
  split.
  - intros Hg. unfold _get_docker_image_uri. rewrite run_bind.
    unfold last_commit. rewrite Hg. simpl.
    by rewrite repository_part_spec, string_app_nil_r.
  - intros c Hg Hc. split_and!.
    + unfold _get_docker_image_uri. rewrite run_bind.
      unfold last_commit. rewrite Hg. simpl.
      rewrite repository_part_spec. by destruct c.
    + apply PyFacts.take_length.
    + apply PyFacts.take_prefix.
    + apply PyFacts.take_all.
Qed.

End Tag.

(** ** The base URL and the Dockerfile *)

Section Recipe.

Context (_is_wandb_local_uri _is_wandb_dev_uri : string → bool).
Context (WANDB_DOCKER_WORKDIR_PATH : string).

Local Abbreviation resolve := (resolve_base_url _is_wandb_local_uri _is_wandb_dev_uri).
Local Abbreviation render := (render_dockerfile WANDB_DOCKER_WORKDIR_PATH).

(** A URL of three parts is split at its two colons. *)
Lemma split_three scheme host port :
  Py.count ":" scheme = 0 → Py.count ":" host = 0 → Py.count ":" port = 0 →
  Py.split ":" (scheme +:+ ":" +:+ host +:+ ":" +:+ port) = [scheme; host; port].
Proof.
  intros Hs Hh Hp.
  change (":" +:+ host +:+ ":" +:+ port)
    with (String ":" (host +:+ String ":" port)).
  rewrite PyFacts.split_app by done. rewrite PyFacts.split_app by done.
  by rewrite PyFacts.split_no_sep.
Qed.

Lemma unpack3_last_length parts :
  length parts ≠ 3 →
  unpack3_last parts = Raise (ValueError (unpack3_message (length parts))).
Proof. destruct parts as [|a [|b [|c [|d parts]]]]; simpl; done. Qed.

(** The template with its eight fields filled in. *)
Lemma format_dockerfile_template imagename build_context_path workdir base_url
    key wandb_project wandb_entity name_env :
  format dockerfile_template
    [ ("imagename", imagename); ("build_context_path", build_context_path);
      ("workdir", workdir); ("base_url", base_url); ("api_key", key);
      ("wandb_project", wandb_project); ("wandb_entity", wandb_entity);
      ("name_env", name_env) ]
  = Ok ("FROM " +:+ imagename +:+ Py.nl
        +:+ "COPY " +:+ build_context_path +:+ "/ " +:+ workdir +:+ Py.nl
        +:+ "WORKDIR " +:+ workdir +:+ Py.nl
        +:+ "ENV WANDB_BASE_URL=" +:+ base_url +:+ Py.nl
        +:+ "ENV WANDB_API_KEY=" +:+ key +:+ Py.nl
        +:+ "ENV WANDB_PROJECT=" +:+ wandb_project +:+ Py.nl
        +:+ "ENV WANDB_ENTITY=" +:+ wandb_entity +:+ Py.nl
        +:+ name_env
        +:+ "ENV WANDB_LAUNCH=True" +:+ Py.nl
        +:+ "USER root" +:+ Py.nl).
Proof. reflexivity. Qed.

(** The Dockerfile of a descriptor that has its project and its entity. *)
Lemma render_dockerfile_lines project base_image api base_url p e :
  docker_env project !! "WANDB_PROJECT" = Some p →
  docker_env project !! "WANDB_ENTITY" = Some e →
  render project base_image api base_url
  = Ok (unlines (recipe_lines base_image WANDB_DOCKER_WORKDIR_PATH base_url
                   (api_key api) p e (name_if_set project))).
Proof.
  intros Hp He. unfold render_dockerfile, getitem. rewrite Hp, He.
  rewrite format_dockerfile_template. f_equal.
  unfold name_if_set.
  destruct (name project) as [[|c n]|]; simpl; try reflexivity.
  unfold unlines, recipe_lines. simpl.
  rewrite !PyFacts.app_assoc. reflexivity.
Qed.

(** C7: for a descriptor that has its project and its entity, the
    Dockerfile is the sequence of lines FROM, COPY, WORKDIR, the four ENV
    lines of base URL, API key, project and entity, the ENV WANDB_NAME line
    when and only when the name of the descriptor is set (present and not
    empty), ENV WANDB_LAUNCH=True and USER root, each value copied as it
    is. *)
Theorem recipe_is_line_sequence project base_image api base_url p e :
  docker_env project !! "WANDB_PROJECT" = Some p →
  docker_env project !! "WANDB_ENTITY" = Some e →
  render project base_image api base_url
  = Ok (unlines
          ([ "FROM " +:+ base_image;
             "COPY " +:+ _PROJECT_TAR_ARCHIVE_NAME +:+ "/ "
               +:+ WANDB_DOCKER_WORKDIR_PATH;
             "WORKDIR " +:+ WANDB_DOCKER_WORKDIR_PATH;
             "ENV WANDB_BASE_URL=" +:+ base_url;
             "ENV WANDB_API_KEY=" +:+ api_key api;
             "ENV WANDB_PROJECT=" +:+ p;
             "ENV WANDB_ENTITY=" +:+ e ]
           ++ match name_if_set project with
              | Some n => [ "ENV WANDB_NAME=" +:+ n ]
              | None => []
              end
           ++ [ "ENV WANDB_LAUNCH=True"; "USER root" ]))
  ∧ (∀ n, name_if_set project = Some n ↔ name project = Some n ∧ n ≠ "")
  ∧ (name_if_set project = None
     ↔ name project = None ∨ name project = Some "").
Proof.
  intros Hp He. split_and!.
  - by apply render_dockerfile_lines.
  - intros n. unfold name_if_set.
    destruct (name project) as [[|c s]|];
      (split;
       [ intros H; (discriminate H || (injection H as <-; by split))
       | intros [H Hn]; (discriminate H || (injection H as <-; done)) ]).
  - unfold name_if_set.
    destruct (name project) as [[|c s]|];
      (split; [intros H; (discriminate H || auto)
              |intros [H|H]; (discriminate H || done)]).
Qed.

End Recipe.

(** ** Validation *)

(** C8: the validation of a descriptor fails exactly when the [image] entry
    of its docker environment is absent or empty, with the
    [ExecutionException] of the module; it changes nothing in the world,
    and the descriptor, which it only reads, is the one it was given. *)
Theorem validate_docker_env_spec (project : Project) (w : world) :
  snd (validate_docker_env project w) = w
  ∧ (is_ok (fst (validate_docker_env project w)) = false
     ↔ docker_env project !! "image" = None
       ∨ docker_env project !! "image" = Some "")
  ∧ (is_ok (fst (validate_docker_env project w)) = false
     → ∃ msg, fst (validate_docker_env project w)
              = Raise (ExecutionException msg))
  ∧ (is_ok (fst (validate_docker_env project w)) = true
     → fst (validate_docker_env project w) = Ok ()).
Proof.
  unfold validate_docker_env.
  destruct (docker_env project !! "image") as [[|c s]|]; simpl;
    split_and!; try done; try (intuition congruence); eauto.
Qed.

(** ** Facts about the file system *)

Section Tree.

Implicit Types (p q d : path) (n t : node) (m : gmap string node).

Lemma lookup_at_app p q n : lookup_at (p ++ q) n = lookup_at p n ≫= lookup_at q.
Proof.
  revert n. induction p as [|x p IH]; intros n; simpl; [done|].
  destruct n as [| |m]; try done.
  destruct (m !! x) as [c|]; simpl; [apply IH|done].
Qed.

(** A path that leads somewhere goes through directories only. *)
Lemma lookup_at_through p q n v :
  lookup_at (p ++ q) n = Some v → q ≠ [] →
  ∃ m, lookup_at p n = Some (Dir m).
Proof.
  rewrite lookup_at_app. destruct (lookup_at p n) as [c|]; [|done]. simpl.
  destruct q as [|y q]; [done|]. destruct c; simpl; try done. eauto.
Qed.

Lemma update_dir_spec p f n n' :
  update_dir p f n = Some n' →
  ∃ m m', lookup_at p n = Some (Dir m) ∧ f m = Some m'
          ∧ lookup_at p n' = Some (Dir m').
Proof.
  revert n n'. induction p as [|x p IH]; intros n n'; destruct n as [| |m];
    simpl; try done.
  - destruct (f m) as [m'|] eqn:Hf; simpl; [|done].
    intros [= <-]. eauto.
  - destruct (m !! x) as [c|] eqn:Hx; simpl; [|done].
    destruct (update_dir p f c) as [c'|] eqn:Hc; simpl; [|done].
    intros [= <-]. destruct (IH _ _ Hc) as (m0 & m0' & H1 & H2 & H3).
    exists m0, m0'. simpl. by rewrite lookup_insert_eq.
Qed.

Lemma update_dir_is_Some p f n m m' :
  lookup_at p n = Some (Dir m) → f m = Some m' → is_Some (update_dir p f n).
Proof.
  revert n. induction p as [|x p IH]; intros n; destruct n as [| |m0];
    simpl; try done.
  - intros [= ->] ->. by eexists.
  - destruct (m0 !! x) as [c|]; simpl; [|done]. intros Hc Hf.
    destruct (IH _ Hc Hf) as [c' ->]. by eexists.
Qed.

(** An update of the entry [x] of the directory [p] is not seen from a path
    that neither leads to that entry nor goes through it. *)
Lemma update_dir_other p f x n n' q :
  (∀ m m', f m = Some m' → ∀ y, y ≠ x → m' !! y = m !! y) →
  update_dir p f n = Some n' →
  ¬ (p ++ [x]) `prefix_of` q → ¬ q `prefix_of` (p ++ [x]) →
  lookup_at q n' = lookup_at q n.
Proof.
  intros Hf. revert n n' q.
  induction p as [|a p IH]; intros n n' q; destruct n as [| |m];
    simpl; try done.
  - destruct (f m) as [m'|] eqn:E; simpl; [|done]. intros [= <-] H1 H2.
    destruct q as [|y q]; [by destruct H2; apply prefix_nil|]. simpl.
    rewrite (Hf _ _ E); [done|]. intros ->. apply H1.
    by apply prefix_cons, prefix_nil.
  - destruct (m !! a) as [c|] eqn:Ha; simpl; [|done].
    destruct (update_dir p f c) as [c'|] eqn:Hc; simpl; [|done].
    intros [= <-] H1 H2.
    destruct q as [|b q]; [by destruct H2; apply prefix_nil|]. simpl.
    destruct (decide (a = b)) as [<-|Hab].
    + rewrite lookup_insert_eq, Ha. simpl. apply (IH _ _ _ Hc).
      * intros H. apply H1. by apply prefix_cons.
      * intros H. apply H2. by apply prefix_cons.
    + by rewrite lookup_insert_ne.
Qed.

Lemma put_spec d x t n n' :
  put d x t n = Some n' →
  ∃ m, lookup_at d n = Some (Dir m)
       ∧ lookup_at d n' = Some (Dir (<[x := t]> m)).
Proof.
  intros H. apply update_dir_spec in H as (m & m' & H1 & [= <-] & H3). eauto.
Qed.

Lemma put_is_Some d x t n m :
  lookup_at d n = Some (Dir m) → is_Some (put d x t n).
Proof. intros H. by eapply update_dir_is_Some. Qed.

Lemma put_lookup d x t n n' q :
  put d x t n = Some n' → lookup_at (d ++ x :: q) n' = lookup_at q t.
Proof.
  intros H. apply put_spec in H as (m & _ & H).
  rewrite lookup_at_app, H. simpl. by rewrite lookup_insert_eq.
Qed.

Lemma put_lookup_sibling d x t n n' y q :
  put d x t n = Some n' → y ≠ x →
  lookup_at (d ++ y :: q) n' = lookup_at (d ++ y :: q) n.
Proof.
  intros H Hy. apply put_spec in H as (m & H0 & H).
  rewrite !lookup_at_app, H, H0. simpl. by rewrite lookup_insert_ne.
Qed.

Lemma put_lookup_other d x t n n' q :
  put d x t n = Some n' →
  ¬ (d ++ [x]) `prefix_of` q → ¬ q `prefix_of` (d ++ [x]) →
  lookup_at q n' = lookup_at q n.
Proof.
  intros H. eapply update_dir_other; [|exact H].
  intros m m' [= <-] y Hy. by rewrite lookup_insert_ne.
Qed.

Lemma del_spec d x n n' :
  del d x n = Some n' →
  ∃ m, lookup_at d n = Some (Dir m)
       ∧ lookup_at d n' = Some (Dir (delete x m)).
Proof.
  intros H. apply update_dir_spec in H as (m & m' & H1 & [= <-] & H3). eauto.
Qed.

Lemma del_is_Some d x n m :
  lookup_at d n = Some (Dir m) → is_Some (del d x n).
Proof. intros H. by eapply update_dir_is_Some. Qed.


Lemma del_lookup_sibling d x n n' y q :
  del d x n = Some n' → y ≠ x →
  lookup_at (d ++ y :: q) n' = lookup_at (d ++ y :: q) n.
Proof.
  intros H Hy. apply del_spec in H as (m & H0 & H).
  rewrite !lookup_at_app, H, H0. simpl. by rewrite lookup_delete_ne.
Qed.

Lemma parent_and_name_snoc d x : parent_and_name (d ++ [x]) = Some (d, x).
Proof.
  induction d as [|y d IH]; simpl; [done|]. rewrite IH.
  by destruct d.
Qed.

Lemma parent_and_name_Some p d x : parent_and_name p = Some (d, x) → p = d ++ [x].
Proof.
  revert d. induction p as [|y p IH]; intros d; simpl; [done|].
  destruct p as [|z p]; [by intros [= <- <-]|].
  destruct (parent_and_name (z :: p)) as [[q x']|]; [|done].
  intros [= <- <-]. simpl. f_equal. by apply IH.
Qed.

End Tree.

(** ** The build context *)

Section Packager.

Context (φ : oracle).

Implicit Types (p q d t : path) (w : world).

Lemma keeps_ret {A} P (a : A) : keeps P (mret a).
Proof. intros w r w' HP [= <- <-]. done. Qed.

Lemma keeps_raise {A} P e : keeps P (raise (A:=A) e).
Proof. intros w r w' HP [= <- <-]. done. Qed.

Lemma triple_bind {A B} P (m : M A) (f : A → M B) Q1 Q :
  triple P m Q1 →
  (∀ a, triple (Q1 (Ok a)) (f a) Q) →
  (∀ e w, Q1 (Raise e) w → Q (Raise e) w) →
  triple P (m ≫= f) Q.
Proof.
  intros Hm Hf He w r w' HP. rewrite run_bind.
  destruct (m w) as [[a|e] w1] eqn:E.
  - intros H. eapply Hf; [|exact H]. by eapply Hm.
  - intros [= <- <-]. apply He. by eapply Hm.
Qed.

Lemma keeps_bind {A B} P (m : M A) (f : A → M B) :
  keeps P m → (∀ a, keeps P (f a)) → keeps P (m ≫= f).
Proof. intros Hm Hf. eapply triple_bind; [exact Hm|exact Hf|done]. Qed.

Lemma keeps_try_except {A} P (m : M A) h :
  keeps P m → (∀ e, keeps P (h e)) → keeps P (try_except m h).
Proof.
  intros Hm Hh w r w' HP. unfold try_except.
  destruct (m w) as [[a|e] w1] eqn:E.
  - intros [= <- <-]. by eapply Hm.
  - intros H. eapply Hh; [|exact H]. by eapply Hm.
Qed.

Lemma keeps_fs_get P p : keeps P (fs_get p).
Proof. intros w r w' HP [= <- <-]. done. Qed.

Lemma keeps_gettempdir P : keeps P gettempdir.
Proof. intros w r w' HP [= <- <-]. done. Qed.

Lemma keeps_fs_put t x p v :
  beside_or_below t x p → keeps (scratch_alive t x) (fs_put p v).
Proof.
  intros Hp w r w' [Ht Hd]. unfold fs_put.
  destruct (parent_and_name p) as [[d y]|] eqn:E; [|by intros [= <- <-]].
  apply parent_and_name_Some in E.
  destruct (put d y v (fs w)) as [n|] eqn:Hput; [|by intros [= <- <-]].
  intros [= <- <-]. split; [done|]. simpl.
  destruct Hp as [(z & -> & Hz)|(r & y' & ->)].
  - apply app_inj_tail in E as [<- <-].
    by rewrite (put_lookup_sibling _ _ _ _ _ _ [] Hput).
  - change (t ++ x :: r ++ [y']) with (t ++ (x :: r) ++ [y']) in E.
    rewrite app_assoc in E. apply app_inj_tail in E as [<- <-].
    apply put_spec in Hput as (m & _ & H).
    destruct r as [|a r]; [by rewrite H|].
    change (t ++ x :: a :: r) with (t ++ [x] ++ a :: r) in H.
    rewrite app_assoc in H.
    apply lookup_at_through in H as [m' ->]; done.
Qed.

Lemma keeps_leave t x p debris :
  beside_or_below t x p → keeps (scratch_alive t x) (leave p debris).
Proof.
  intros Hp. destruct debris as [v|]; simpl; [|apply keeps_ret].
  apply keeps_try_except; [by apply keeps_fs_put|intros; apply keeps_ret].
Qed.

Lemma keeps_copytree t x src c :
  keeps (scratch_alive t x) (copytree φ src ((t ++ [x]) ++ [c])).
Proof.
  assert (beside_or_below t x ((t ++ [x]) ++ [c])) as Hp.
  { right. exists [], c. by rewrite <- app_assoc. }
  unfold copytree. destruct (copytree_error φ).
  { apply keeps_bind; [by apply keeps_leave|intros; apply keeps_raise]. }
  apply keeps_bind; [apply keeps_fs_get|]. intros [[| |m]|];
    try apply keeps_raise.
  apply keeps_bind; [apply keeps_fs_get|]. intros [v|]; [apply keeps_raise|].
  case_bool_decide.
  - apply keeps_bind; [by apply keeps_leave|intros; apply keeps_raise].
  - by apply keeps_fs_put.
Qed.

Lemma keeps_write_text t x c f contents :
  keeps (scratch_alive t x) (write_text φ (((t ++ [x]) ++ [c]) ++ [f]) contents).
Proof.
  assert (beside_or_below t x (((t ++ [x]) ++ [c]) ++ [f])) as Hp.
  { right. exists [c], f. by rewrite <- !app_assoc. }
  unfold write_text. apply keeps_bind; [apply keeps_fs_get|]. intros old.
  destruct (is_dir old); [apply keeps_raise|].
  destruct (write_error φ).
  - apply keeps_bind; [by apply keeps_leave|intros; apply keeps_raise].
  - by apply keeps_fs_put.
Qed.


(** What a successful allocation in the temporary directory gives: a name
    that was free, and the new node under it. *)
Lemma fresh_tmp_name_run w r w' :
  fresh_tmp_name w = (r, w') →
  w' = w
  ∧ ∀ x, r = Ok x →
      ∃ m, lookup_at (tmpdir w) (fs w) = Some (Dir m) ∧ m !! x = None.
Proof.
  unfold fresh_tmp_name. rewrite run_bind. simpl. rewrite run_bind. simpl.
  destruct (lookup_at (tmpdir w) (fs w)) as [[| |m]|] eqn:E;
    intros [= <- <-]; split; try done.
  intros x [= <-]. exists m. split; [done|].
  apply not_elem_of_dom. apply fresh_string_of_set_fresh.
Qed.

Lemma mkstemp_run t x :
  triple (scratch_alive t x) (mkstemp φ)
    (λ r w, scratch_alive t x w
            ∧ ∀ p, r = Ok p → ∃ z, p = t ++ [z] ∧ z ≠ x).
Proof.
  intros w r w' [Ht Hd]. unfold mkstemp.
  destruct (mkstemp_error φ); [by intros [= <- <-]|].
  rewrite run_bind.
  destruct (fresh_tmp_name w) as [[z|e] w1] eqn:E;
    apply fresh_tmp_name_run in E as [-> Hz]; [|by intros [= <- <-]].
  destruct (Hz z eq_refl) as (m & Hm & Hfree).
  assert (z ≠ x) as Hzx.
  { intros ->. rewrite <- Ht, lookup_at_app, Hm in Hd. simpl in Hd.
    by rewrite Hfree in Hd. }
  rewrite run_bind. simpl. rewrite run_bind. rewrite Ht.
  destruct (fs_put (t ++ [z]) (File "") w) as [[[]|e] w1] eqn:E.
  - intros [= <- <-]. split.
    + eapply (keeps_fs_put t x); [|done|exact E]. left; eauto.
    + intros p [= <-]. eauto.
  - intros [= <- <-]. split; [|done].
    eapply (keeps_fs_put t x); [|done|exact E]. left; eauto.
Qed.



Lemma mkdtemp_run w r w' :
  mkdtemp φ w = (r, w') →
  match r with
  | Ok p =>
      ∃ x, p = tmpdir w ++ [x] ∧ lookup_at p (fs w) = None
           ∧ lookup_at p (fs w') = Some (Dir ∅)
           ∧ scratch_alive (tmpdir w) x w'
           ∧ ∃ n, put (tmpdir w) x (Dir ∅) (fs w) = Some n ∧ w' = set_fs n w
  | Raise _ => w' = w
  end.
Proof.
  unfold mkdtemp. destruct (mkdtemp_error φ); [by intros [= <- <-]|].
  rewrite run_bind.
  destruct (fresh_tmp_name w) as [[x|e] w1] eqn:E;
    apply fresh_tmp_name_run in E as [-> Hx]; [|by intros [= <- <-]].
  destruct (Hx x eq_refl) as (m & Hm & Hfree).
  rewrite run_bind. simpl. rewrite run_bind. unfold fs_put.
  rewrite parent_and_name_snoc.
  destruct (put_is_Some (tmpdir w) x (Dir ∅) _ _ Hm) as [n Hn]. rewrite Hn.
  intros [= <- <-]. exists x. split; [done|].
  assert (lookup_at (tmpdir w ++ [x]) n = Some (Dir ∅)) as Hnew
    by apply (put_lookup _ _ _ _ _ [] Hn).
  split_and!; simpl; eauto.
  - by rewrite lookup_at_app, Hm; simpl; rewrite Hfree.
  - split; [done|]. simpl. by rewrite Hnew.
Qed.


End Packager.

(** ** The archive *)

Section Archive.

Context (φ : oracle).

Implicit Types (p q d t : path) (w : world).

Lemma bind_Ok {A B} (m : M A) (f : A → M B) w b w' :
  (m ≫= f) w = (Ok b, w') →
  ∃ a w1, m w = (Ok a, w1) ∧ f a w1 = (Ok b, w').
Proof.
  rewrite run_bind. destruct (m w) as [[a|e] w1]; [eauto|done].
Qed.

Lemma try_finally_Ok {A} (body : M A) cleanup w a w' :
  try_finally body cleanup w = (Ok a, w') →
  ∃ w1, body w = (Ok a, w1) ∧ cleanup w1 = (Ok (), w').
Proof.
  unfold try_finally. destruct (body w) as [r w1].
  destruct (cleanup w1) as [[[]|e] w2] eqn:E; [|done].
  intros [= -> ->]. eauto.
Qed.

Lemma fs_put_Ok d x v w u w' :
  fs_put (d ++ [x]) v w = (Ok u, w') →
  ∃ n, put d x v (fs w) = Some n ∧ w' = set_fs n w.
Proof.
  unfold fs_put. rewrite parent_and_name_snoc.
  destruct (put d x v (fs w)) as [n|]; [|done]. intros [= _ <-]. eauto.
Qed.

Lemma fs_del_Ok d x w u w' :
  fs_del (d ++ [x]) w = (Ok u, w') →
  ∃ n, del d x (fs w) = Some n ∧ w' = set_fs n w.
Proof.
  unfold fs_del. rewrite parent_and_name_snoc.
  destruct (del d x (fs w)) as [n|]; [|done]. intros [= _ <-]. eauto.
Qed.

Lemma leave_raise_not_Ok {A} p debris e w (a : A) w' :
  (leave p debris;; raise e) w ≠ (Ok a, w').
Proof.
  rewrite run_bind. destruct (leave p debris w) as [[u|e'] w1]; done.
Qed.

Lemma copytree_Ok src dst w u w' :
  copytree φ src dst w = (Ok u, w') →
  ∃ m, lookup_at src (fs w) = Some (Dir m)
       ∧ ¬ src `prefix_of` dst
       ∧ fs_put dst (Dir m) w = (Ok u, w').
Proof.
  unfold copytree. destruct (copytree_error φ).
  { intros H. by apply leave_raise_not_Ok in H. }
  rewrite run_bind. simpl.
  destruct (lookup_at src (fs w)) as [[| |m]|]; try done.
  rewrite run_bind. simpl. destruct (lookup_at dst (fs w)); [done|].
  case_bool_decide.
  { intros H'. by apply leave_raise_not_Ok in H'. }
  eauto.
Qed.

Lemma write_text_Ok p contents w u w' :
  write_text φ p contents w = (Ok u, w') →
  is_dir (lookup_at p (fs w)) = false
  ∧ fs_put p (File contents) w = (Ok u, w').
Proof.
  unfold write_text. rewrite run_bind. simpl.
  destruct (is_dir (lookup_at p (fs w))); [done|].
  destruct (write_error φ); [|done].
  intros H. by apply leave_raise_not_Ok in H.
Qed.

Lemma mkstemp_Ok w p w' :
  mkstemp φ w = (Ok p, w') →
  ∃ z, p = tmpdir w ++ [z] ∧ fs_put (tmpdir w ++ [z]) (File "") w = (Ok (), w').
Proof.
  unfold mkstemp. destruct (mkstemp_error φ); [done|].
  intros H. apply bind_Ok in H as (z & w1 & Hz & H).
  apply fresh_tmp_name_run in Hz as [-> _].
  apply bind_Ok in H as (t & w1 & [= <- <-] & H).
  apply bind_Ok in H as ([] & w1 & Hput & [= <- <-]). eauto.
Qed.

Lemma make_tarfile_Ok out src archive_name w u w' :
  make_tarfile φ out src archive_name w = (Ok u, w') →
  ∃ v, lookup_at src (fs w) = Some v
       ∧ fs_put out (Tarball (Dir {[archive_name := v]})) w = (Ok u, w').
Proof.
  unfold make_tarfile. rewrite run_bind. simpl. rewrite run_bind. simpl.
  destruct (lookup_at src (fs w)) as [v|]; [|done].
  destruct (is_dir (lookup_at out (fs w))); [done|].
  destruct (make_tarfile_error φ); [|eauto].
  intros H. by apply leave_raise_not_Ok in H.
Qed.

Lemma rmtree_Ok p w u w' :
  rmtree φ p w = (Ok u, w') →
  rmtree_error φ = None ∧ fs_del p w = (Ok u, w').
Proof.
  unfold rmtree. rewrite run_bind. simpl.
  destruct (lookup_at p (fs w)) as [[| |m]|]; try done.
  destruct (rmtree_error φ); [|done].
  intros H. by apply leave_raise_not_Ok in H.
Qed.

(** The archive of a successful call, in terms of the project directory as
    it was before the call. *)
Lemma build_ctx_Ok work_dir contents w p w' :
  _create_docker_build_ctx φ work_dir contents w = (Ok p, w') →
  ∃ m, lookup_at work_dir (fs w) = Some (Dir m)
       ∧ is_dir (m !! _GENERATED_DOCKERFILE_NAME) = false
       ∧ lookup_at p (fs w')
         = Some (Tarball (Dir {[ _PROJECT_TAR_ARCHIVE_NAME :=
             Dir (<[ _GENERATED_DOCKERFILE_NAME := File contents ]> m) ]})).
Proof.
  unfold _create_docker_build_ctx. intros H.
  apply bind_Ok in H as (scratch & w1 & Hmk & H).
  apply mkdtemp_run in Hmk as (x & -> & _ & _ & Halive & n1 & Hn1 & ->).
  set (t := tmpdir w) in *.
  apply try_finally_Ok in H as (w5 & H & Hrm). simpl in H.
  apply bind_Ok in H as ([] & w2 & Hcopy & H).
  apply bind_Ok in H as ([] & w3 & Hwrite & H).
  apply bind_Ok in H as (rp & w4 & Hstemp & H).
  apply bind_Ok in H as ([] & w5' & Htar & [= <- <-]).
  (* the scratch directory stays, so the archive is beside it *)
  pose proof (keeps_copytree φ t x work_dir _ _ _ _ Halive Hcopy) as Halive2.
  pose proof (keeps_write_text φ t x _ _ contents _ _ _ Halive2 Hwrite)
    as Halive3.
  destruct (mkstemp_run φ t x _ _ _ Halive3 Hstemp) as [Halive4 Hrp].
  destruct (Hrp _ eq_refl) as (z & -> & Hz).
  (* the steps, one put each *)
  apply copytree_Ok in Hcopy as (m & Hsrc & Hnotin & Hcopy).
  apply fs_put_Ok in Hcopy as (n2 & Hn2 & ->).
  apply write_text_Ok in Hwrite as (Hnodir & Hwrite).
  apply fs_put_Ok in Hwrite as (n3 & Hn3 & ->).
  apply mkstemp_Ok in Hstemp as (z' & Hz' & Hstemp).
  apply fs_put_Ok in Hstemp as (n4 & Hn4 & ->).
  simpl in Hz'. fold t in Hz'. apply app_inj_tail in Hz' as [_ <-].
  apply make_tarfile_Ok in Htar as (v & Hv & Htar).
  apply fs_put_Ok in Htar as (n5 & Hn5 & ->).
  apply rmtree_Ok in Hrm as [_ Hrm].
  apply fs_del_Ok in Hrm as (n6 & Hn6 & ->).
  simpl in *. subst t.
  (* the copy is the project directory *)
  assert (lookup_at ((tmpdir w ++ [x]) ++ ["wandb-project-contents"]) n2
          = Some (Dir m)) as Hdst2 by apply (put_lookup _ _ _ _ _ [] Hn2).
  assert (lookup_at ((tmpdir w ++ [x]) ++ ["wandb-project-contents"]) n3
          = Some (Dir (<[_GENERATED_DOCKERFILE_NAME := File contents]> m)))
    as Hdst3.
  { apply put_spec in Hn3 as (m' & H1 & H2). congruence. }
  assert (v = Dir (<[_GENERATED_DOCKERFILE_NAME := File contents]> m)) as ->.
  { rewrite <- app_assoc in Hv, Hdst3. simpl in Hv, Hdst3.
    rewrite (put_lookup_sibling _ _ _ _ _ _ _ Hn4) in Hv by done.
    congruence. }
  exists m. split_and!.
  - rewrite <- Hsrc. symmetry. apply (put_lookup_other _ _ _ _ _ _ Hn1).
    + intros [r ->]. destruct r as [|y r].
      * apply Hnotin. rewrite app_nil_r. by apply prefix_app_r.
      * rewrite <- app_assoc in Hsrc. simpl in Hsrc.
        by rewrite (put_lookup _ _ _ _ _ _ Hn1) in Hsrc.
    + intros Hpre. apply Hnotin. by apply prefix_app_r.
  - rewrite lookup_at_app, Hdst2 in Hnodir. simpl in Hnodir.
    by destruct (m !! _GENERATED_DOCKERFILE_NAME).
  - rewrite (del_lookup_sibling _ _ _ _ _ [] Hn6) by done.
    apply (put_lookup _ _ _ _ _ [] Hn5).
Qed.


End Archive.

(** ** Building the image *)

Section Build.

Context (_is_wandb_local_uri _is_wandb_dev_uri : string → bool).
Context (WANDB_DOCKER_WORKDIR_PATH : string).
Context (φ : oracle).

Local Abbreviation resolve :=
  (resolve_base_url _is_wandb_local_uri _is_wandb_dev_uri).
Local Abbreviation render := (render_dockerfile WANDB_DOCKER_WORKDIR_PATH).
Local Abbreviation build :=
  (build_docker_image _is_wandb_local_uri _is_wandb_dev_uri
     WANDB_DOCKER_WORKDIR_PATH φ).

(** A base URL that cannot be resolved ends the call at once. *)
Lemma build_resolve_fails project uri base_image api w e :
  resolve api = Raise e → build project uri base_image api w = (Raise e, w).
Proof.
  intros He. unfold build_docker_image. rewrite run_bind.
  destruct (image_uri_total uri (dir project) w) as [tag1 ->].
  rewrite run_bind. unfold lift. by rewrite He.
Qed.

(** So does a Dockerfile that cannot be rendered. *)
Lemma build_render_fails project uri base_image api w base_url e :
  resolve api = Ok base_url →
  render project base_image api base_url = Raise e →
  build project uri base_image api w = (Raise e, w).
Proof.
  intros Hb He. unfold build_docker_image. rewrite run_bind.
  destruct (image_uri_total uri (dir project) w) as [tag1 ->].
  rewrite run_bind. unfold lift. rewrite Hb. rewrite run_bind.
  destruct (image_uri_total uri (dir project) w) as [tag2 ->].
  rewrite run_bind. by rewrite He.
Qed.

Lemma render_missing_key project base_image api base_url :
  docker_env project !! "WANDB_PROJECT" = None
  ∨ docker_env project !! "WANDB_ENTITY" = None →
  render project base_image api base_url
  = Raise (KeyError (first_missing_key project)).
Proof.
  unfold render_dockerfile, getitem, first_missing_key.
  intros [H|H]; rewrite H; [done|].
  by destruct (docker_env project !! "WANDB_PROJECT").
Qed.

(** C5, as the code has it: for a descriptor without [WANDB_PROJECT] or
    without [WANDB_ENTITY] the call fails and leaves the world as it was, so
    that no scratch directory is made, no archive written and the engine not
    called; when the base URL resolves, the failure is the failed lookup of
    the first of the two keys that is missing. *)
Theorem missing_configuration_gate project uri base_image api w :
  docker_env project !! "WANDB_PROJECT" = None
  ∨ docker_env project !! "WANDB_ENTITY" = None →
  (∃ e, build project uri base_image api w = (Raise e, w))
  ∧ (∀ base_url, resolve api = Ok base_url →
       build project uri base_image api w
       = (Raise (KeyError (first_missing_key project)), w)).
Proof.
  intros Hmiss.
  assert (∀ base_url, resolve api = Ok base_url →
            build project uri base_image api w
            = (Raise (KeyError (first_missing_key project)), w)) as Hkey.
  { intros base_url Hb. eapply build_render_fails; [exact Hb|].
    by apply render_missing_key. }
  split; [|exact Hkey].
  destruct (resolve api) as [base_url|e] eqn:Hb; [eauto|].
  exists e. by apply build_resolve_fails.
Qed.

(** C10: for a local base URL the port is the last of the three pieces that
    the colons of the URL delimit; there are three pieces exactly when there
    are two colons, and with any other number of colons the call ends on the
    [ValueError] of the unpacking, the world being as it was: nothing is
    packaged and the engine is not called. *)
Theorem local_port_unpacking project uri base_image api w :
  _is_wandb_local_uri (settings api "base_url") = true →
  (∀ a b port,
     Py.split ":" (settings api "base_url") = [a; b; port] →
     resolve api = Ok ("http://host.docker.internal:" +:+ port))
  ∧ (Py.count ":" (settings api "base_url") = 2
     ↔ ∃ a b port, Py.split ":" (settings api "base_url") = [a; b; port])
  ∧ (Py.count ":" (settings api "base_url") ≠ 2 →
     build project uri base_image api w
     = (Raise (ValueError
                 (unpack3_message (S (Py.count ":" (settings api "base_url"))))),
        w)).
Proof.
  intros Hlocal. split_and!.
  - intros a b port Hsplit. unfold resolve_base_url.
    by rewrite Hlocal, Hsplit.
  - pose proof (PyFacts.split_length ":" (settings api "base_url")) as Hlen.
    split.
    + intros Hc. rewrite Hc in Hlen.
      destruct (Py.split ":" (settings api "base_url"))
        as [|a [|b [|port [|? ?]]]]; simpl in Hlen; try done. eauto.
    + intros (a & b & port & Hsplit). rewrite Hsplit in Hlen. simpl in Hlen.
      lia.
  - intros Hc. apply build_resolve_fails. unfold resolve_base_url.
    rewrite Hlocal. rewrite unpack3_last_length.
    + by rewrite PyFacts.split_length.
    + rewrite PyFacts.split_length. lia.
Qed.

End Build.

(** ** The output of repo2docker *)

Module ReFacts.

Import PyFacts.

Lemma startswith_app p s : Py.startswith p (p +:+ s) = true.
Proof. unfold Py.startswith. by rewrite strip_prefix_app. Qed.

Lemma startswith_true p s : Py.startswith p s = true → ∃ r, s = p +:+ r.
Proof.
  unfold Py.startswith. destruct (Py.strip_prefix p s) as [r|] eqn:E; [|done].
  intros _. exists r. by apply strip_prefix_Some.
Qed.

(** What the group has taken is a name, and [after] follows it. *)
Lemma group_sound after r g :
  Re.group after r = Some g →
  ∃ rest, r = g +:+ after +:+ rest ∧ g ≠ "" ∧ Py.count "010" g = 0.
Proof.
  revert g. induction r as [|c r IH]; intros g; simpl; [done|].
  destruct (Ascii.eqb c "010") eqn:Hc; [done|].
  destruct (Re.group after r) as [g'|].
  - intros [= <-]. destruct (IH g' eq_refl) as (rest & -> & _ & Hn).
    exists rest. rewrite app_cons. split_and!; [done|done|].
    simpl. by rewrite Hc, Hn.
  - destruct (Py.startswith after r) eqn:Hs; [|done]. intros [= <-].
    apply startswith_true in Hs as [rest ->]. exists rest.
    rewrite app_cons, app_nil_l. split_and!; [done|done|].
    simpl. by rewrite Hc.
Qed.

(** Where a name and [after] stand, the group takes something. *)
Lemma group_complete after g rest :
  g ≠ "" → Py.count "010" g = 0 →
  is_Some (Re.group after (g +:+ after +:+ rest)).
Proof.
  induction g as [|c g IH]; [done|]. intros _. simpl.
  destruct (Ascii.eqb c "010") eqn:Hc; [done|]. simpl. intros Hn.
  rewrite ?app_cons. simpl. rewrite ?Hc.
  destruct g as [|c' g].
  - rewrite ?app_nil_l. destruct (Re.group after (after +:+ rest)); [done|].
    by rewrite startswith_app.
  - destruct IH as [g' ->]; done.
Qed.

Lemma match_at_sound p s g len :
  Re.match_at p s = Some (g, len) →
  ∃ rest, s = Re.before p +:+ g +:+ Re.after p +:+ rest
          ∧ g ≠ "" ∧ Py.count "010" g = 0.
Proof.
  unfold Re.match_at.
  destruct (Py.strip_prefix (Re.before p) s) as [r|] eqn:E; [|done].
  apply strip_prefix_Some in E as ->.
  destruct (Re.group (Re.after p) r) as [g'|] eqn:Hg; [|done].
  intros [= <- _]. apply group_sound in Hg as (rest & -> & ? & ?). eauto.
Qed.

Lemma match_at_complete p g rest :
  g ≠ "" → Py.count "010" g = 0 →
  is_Some (Re.match_at p (Re.before p +:+ g +:+ Re.after p +:+ rest)).
Proof.
  intros Hg Hn. unfold Re.match_at. rewrite strip_prefix_app.
  by destruct (group_complete (Re.after p) g rest Hg Hn) as [g' ->].
Qed.

(** [findall] finds nothing exactly when there is no marker. *)
Lemma findall_nil p s : Re.findall p s = [] ↔ ¬ marker p s.
Proof.
  unfold Re.findall. split.
  - intros Hnil (a & g & b & -> & Hg & Hn). revert Hnil.
    induction a as [|c a IH]; rewrite ?app_cons, ?app_nil_l.
    + destruct (match_at_complete p g b Hg Hn) as [[g' len] Hm].
      destruct (Re.before p +:+ g +:+ Re.after p +:+ b);
        simpl; by rewrite Hm.
    + simpl. by destruct (Re.match_at p _) as [[g' len]|].
  - intros Hno. induction s as [|c s IH]; simpl.
    + by destruct (Re.match_at p "") as [[g len]|] eqn:Hm;
        [destruct Hno; apply match_at_sound in Hm as (rest & ? & ? & ?);
         exists "", g, rest|].
    + destruct (Re.match_at p (String c s)) as [[g len]|] eqn:Hm.
      * destruct Hno. apply match_at_sound in Hm as (rest & ? & ? & ?).
        by exists "", g, rest.
      * apply IH. intros (a & g & b & -> & Hg & Hn). apply Hno.
        exists (String c a), g, b. by rewrite app_cons.
Qed.

(** Each group that [findall] returns first is the name of a marker. *)
Lemma findall_head p s g gs :
  Re.findall p s = g :: gs →
  ∃ a b, s = a +:+ Re.before p +:+ g +:+ Re.after p +:+ b
         ∧ g ≠ "" ∧ Py.count "010" g = 0.
Proof.
  unfold Re.findall. induction s as [|c s IH]; simpl.
  - destruct (Re.match_at p "") as [[g' len]|] eqn:Hm; [|done].
    intros [= <- _]. apply match_at_sound in Hm as (rest & ? & ? & ?).
    by exists "", rest.
  - destruct (Re.match_at p (String c s)) as [[g' len]|] eqn:Hm.
    + intros [= <- _]. apply match_at_sound in Hm as (rest & ? & ? & ?).
      by exists "", rest.
    + intros H. destruct (IH H) as (a & b & -> & ? & ?).
      exists (String c a), b. by rewrite app_cons.
Qed.

End ReFacts.

Section Repo2docker.

Context (φ : oracle).

(** C9: given the output of the tool, the call fails, with the exception
    of the module for it, exactly when the output has neither a marker
    [Successfully tagged <name>:latest] nor a marker
    [Reusing existing image (<name>)]; otherwise it returns the first group
    that [findall] has for the success pattern when the output has a success
    marker, and the first group it has for the reuse pattern when it has
    none; that group is the name of a marker. *)
Theorem generate_docker_image_outcome project entry_cmd stderr w :
  subprocess_stderr φ (repo2docker_cmd project entry_cmd) = Ok stderr →
  (is_ok (fst (generate_docker_image φ project entry_cmd w)) = false
   ↔ ¬ marker tagged_pattern stderr ∧ ¬ marker reusing_pattern stderr)
  ∧ (¬ marker tagged_pattern stderr → ¬ marker reusing_pattern stderr →
     generate_docker_image φ project entry_cmd w
     = (Raise (Exception "error running repo2docker"), w))
  ∧ (marker tagged_pattern stderr →
     ∃ g gs, Re.findall tagged_pattern stderr = g :: gs
             ∧ generate_docker_image φ project entry_cmd w = (Ok g, w))
  ∧ (¬ marker tagged_pattern stderr → marker reusing_pattern stderr →
     ∃ g gs, Re.findall reusing_pattern stderr = g :: gs
             ∧ generate_docker_image φ project entry_cmd w = (Ok g, w))
  ∧ (∀ g, generate_docker_image φ project entry_cmd w = (Ok g, w) →
       g ≠ "" ∧ Py.count "010" g = 0
       ∧ ∃ a b, stderr = a +:+ "Successfully tagged " +:+ g +:+ ":latest" +:+ b
                ∨ stderr = a +:+ "Reusing existing image (" +:+ g +:+ ")" +:+ b).
Proof.
  intros Hrun.
  assert (generate_docker_image φ project entry_cmd w
          = match Re.findall tagged_pattern stderr with
            | g :: _ => (Ok g, w)
            | [] => match Re.findall reusing_pattern stderr with
                    | g :: _ => (Ok g, w)
                    | [] => (Raise (Exception "error running repo2docker"), w)
                    end
            end) as Heq.
  { unfold generate_docker_image. rewrite run_bind.
    unfold run_stderr, lift. rewrite Hrun. simpl.
    destruct (Re.findall tagged_pattern stderr) as [|g gs]; simpl; [|done].
    by destruct (Re.findall reusing_pattern stderr). }
  rewrite Heq. clear Heq.
  pose proof (ReFacts.findall_nil tagged_pattern stderr) as Ht.
  pose proof (ReFacts.findall_nil reusing_pattern stderr) as Hr.
  pose proof (ReFacts.findall_head tagged_pattern stderr) as Hht.
  pose proof (ReFacts.findall_head reusing_pattern stderr) as Hhr.
  destruct (Re.findall tagged_pattern stderr) as [|g gs].
  - destruct (Re.findall reusing_pattern stderr) as [|g' gs'].
    + split_and!; simpl; try tauto.
      intros g Hg. discriminate Hg.
    + assert (marker reusing_pattern stderr) as Hm.
      { destruct (Hhr g' gs' eq_refl) as (a & b & ? & ? & ?).
        by exists a, g', b. }
      split_and!; simpl; try tauto; try (intros; by eauto).
      * split; [done|tauto].
      * intros g0 Hg0. injection Hg0 as Hg0. subst g0.
        destruct (Hhr g' gs' eq_refl) as (a & b & -> & ? & ?).
        split_and!; [done|done|]. exists a, b. by right.
  - assert (marker tagged_pattern stderr) as Hm.
    { destruct (Hht g gs eq_refl) as (a & b & ? & ? & ?). by exists a, g, b. }
    split_and!; simpl; try tauto; try (intros; by eauto).
    + split; [done|tauto].
    + intros g0 Hg0. injection Hg0 as Hg0. subst g0.
      destruct (Hht g gs eq_refl) as (a & b & -> & ? & ?).
      split_and!; [done|done|]. exists a, b. by left.
Qed.

End Repo2docker.

(** ** The properties on sample inputs *)

(** The tag of [my repo] at commit [abc1234567], and without commit. *)
Lemma tag_version_suffix_witness :
  _get_docker_image_uri (Some "my repo") ["home"; "proj"] sample_world
  = (Ok "my-repo:abc1234", sample_world)
  ∧ _get_docker_image_uri (Some "my repo") ["home"; "proj"]
      (world_of sample_fs None)
    = (Ok "my-repo", world_of sample_fs None).
Proof.
  split.
  - destruct (tag_version_suffix (Some "my repo") ["home"; "proj"] sample_world)
      as [_ H].
    destruct (H "abc1234567" eq_refl) as [E _]; [discriminate|]. exact E.
  - destruct (tag_version_suffix (Some "my repo") ["home"; "proj"]
                (world_of sample_fs None)) as [H _].
    exact (H eq_refl).
Defined.

(** The Dockerfile of the sample project. *)
Lemma recipe_is_line_sequence_witness :
  render_dockerfile sample_workdir sample_project "python:3.9"
    (api_at "https://api.example.com") "https://api.example.com"
  = Ok (unlines
          [ "FROM python:3.9";
            "COPY wandb-project-docker-build-context/ /wandb/projects/code/";
            "WORKDIR /wandb/projects/code/";
            "ENV WANDB_BASE_URL=https://api.example.com";
            "ENV WANDB_API_KEY=local-key";
            "ENV WANDB_PROJECT=demo";
            "ENV WANDB_ENTITY=team";
            "ENV WANDB_NAME=run-1";
            "ENV WANDB_LAUNCH=True";
            "USER root" ]).
Proof.
  exact (proj1 (recipe_is_line_sequence sample_workdir sample_project
                  "python:3.9" (api_at "https://api.example.com")
                  "https://api.example.com" "demo" "team"
                  ltac:(vm_compute; reflexivity)
                  ltac:(vm_compute; reflexivity))).
Defined.

(** A local URL without port: the unpacking fails before anything is done. *)
Lemma local_port_unpacking_witness :
  build_docker_image local_uri_pattern dev_uri_pattern sample_workdir calm
    sample_project (Some "my repo") "python:3.9" (api_at "http://localhost")
    sample_world
  = (Raise (ValueError "not enough values to unpack (expected 3, got 2)"),
     sample_world).
Proof.
  exact (proj2 (proj2 (local_port_unpacking local_uri_pattern dev_uri_pattern
                         sample_workdir calm sample_project (Some "my repo")
                         "python:3.9" (api_at "http://localhost") sample_world
                         eq_refl))
           ltac:(intros H; vm_compute in H; discriminate H)).
Defined.

(** A descriptor without [WANDB_PROJECT], the base URL being an ordinary
    one: the lookup fails and the world is as it was. *)
Lemma missing_configuration_gate_witness :
  build_docker_image local_uri_pattern dev_uri_pattern sample_workdir calm
    unconfigured_project (Some "my repo") "python:3.9"
    (api_at "https://api.example.com") sample_world
  = (Raise (KeyError "WANDB_PROJECT"), sample_world).
Proof.
  refine (proj2 (missing_configuration_gate local_uri_pattern dev_uri_pattern
                   sample_workdir calm unconfigured_project (Some "my repo")
                   "python:3.9" (api_at "https://api.example.com") sample_world
                   _)
            "https://api.example.com" eq_refl).
  left. reflexivity.
Defined.

(** The same descriptor, the base URL being local and without port: the
    call fails on the unpacking of line 77, before the lookup of line 87,
    and the error is not the one of a missing key. *)
Lemma missing_key_behind_unpacking_error :
  docker_env unconfigured_project !! "WANDB_PROJECT" = None
  ∧ local_uri_pattern "http://localhost" = true
  ∧ fst (build_docker_image local_uri_pattern dev_uri_pattern sample_workdir
           calm unconfigured_project (Some "my repo") "python:3.9"
           (api_at "http://localhost") sample_world)
    = Raise (ValueError "not enough values to unpack (expected 3, got 2)")
  ∧ ∀ key,
      fst (build_docker_image local_uri_pattern dev_uri_pattern sample_workdir
             calm unconfigured_project (Some "my repo") "python:3.9"
             (api_at "http://localhost") sample_world)
      ≠ Raise (KeyError key).
Proof.
  split_and!; [vm_compute; reflexivity ..|].
  intros key. vm_compute. discriminate.
Qed.



(** An output with a success marker, and an empty output. *)
Lemma generate_docker_image_outcome_witness :
  generate_docker_image calm sample_project "python train.py" sample_world
  = (Ok "r2d-demo", sample_world)
  ∧ generate_docker_image tar_breaks sample_project "python train.py"
      sample_world
    = (Raise (Exception "error running repo2docker"), sample_world).
Proof.
  split.
  - destruct (generate_docker_image_outcome calm sample_project
                "python train.py" "Successfully tagged r2d-demo:latest"
                sample_world eq_refl) as (_ & _ & H & _).
    destruct H as (g & gs & Hf & Hg).
    + exists "", "r2d-demo", "". split_and!; [reflexivity|discriminate|reflexivity].
    + vm_compute in Hf. injection Hf as <- _. exact Hg.
  - destruct (generate_docker_image_outcome tar_breaks sample_project
                "python train.py" "" sample_world eq_refl) as (Hfail & H & _).
    apply H; apply Hfail; reflexivity.
Defined.

(** The archiving step fails: the truncated output file stays, the scratch
    directory does not. *)
Example scratch_removed_when_archiving_fails :
  let r := _create_docker_build_ctx tar_breaks ["home"; "proj"]
             "FROM python:3.9" sample_world in
  fst r = Raise (OSError "No space left on device")
  ∧ lookup_at ["tmp"; "tmp"] (fs (snd r)) = None
  ∧ lookup_at ["tmp"; "tmp0"] (fs (snd r)) = Some (File "truncated").
Proof. vm_compute. split_and!; reflexivity. Qed.



(** * Further properties *)

(** ** More on the image tag *)

Lemma replace_idempotent old new s :
  old ≠ new →
  Py.replace old new (Py.replace old new s) = Py.replace old new s.
Proof.
  intros Hne. induction s as [|c s IH]; simpl; [done|]. rewrite IH. f_equal.
  destruct (Ascii.eqb_spec c old) as [->|Hc].
  - by destruct (Ascii.eqb_spec new old).
  - by destruct (Ascii.eqb_spec c old).
Qed.

Lemma image_uri_run repository_uri work_dir w :
  _get_docker_image_uri repository_uri work_dir w
  = (Ok (spec_repository repository_uri
         +:+ version_string_of (git_head w work_dir)), w).
Proof.
  unfold _get_docker_image_uri. rewrite run_bind. simpl.
  by rewrite repository_part_spec.
Qed.


Lemma spec_repository_nonempty repository_uri :
  spec_repository repository_uri ≠ "".
Proof.
  unfold spec_repository. destruct repository_uri as [[|c s]|]; done.
Qed.


(** X2: a repository part is left as it is when it is given as the URI of
    another derivation: deriving the tag from it gives the tag again. *)
Theorem tag_repository_stable (repository_uri : option string)
    (work_dir : path) (w : world) :
  _get_docker_image_uri (Some (spec_repository repository_uri)) work_dir w
  = _get_docker_image_uri repository_uri work_dir w.
Proof.
  rewrite !image_uri_run. do 3 f_equal.
  unfold spec_repository at 1. simpl.
  rewrite bool_decide_eq_false_2 by apply spec_repository_nonempty.
  unfold spec_repository. by rewrite replace_idempotent.
Qed.

(** ** More on the Dockerfile *)

Lemma unlines_count ls :
  Py.count "010" (unlines ls) = length ls + carried_line_feeds ls.
Proof.
  induction ls as [|l ls IH]; simpl; [done|].
  rewrite !PyFacts.count_app, IH. simpl. lia.
Qed.

(** X3: the Dockerfile of a descriptor that has its project and its entity
    has nine line feeds, one more when the name is set, and those that the
    values bring with them: without a line feed in a value it has nine or
    ten lines, and a value with line feeds adds lines of its own. *)
Theorem dockerfile_line_count (WANDB_DOCKER_WORKDIR_PATH : string) project
    base_image api base_url p e :
  docker_env project !! "WANDB_PROJECT" = Some p →
  docker_env project !! "WANDB_ENTITY" = Some e →
  ∃ text,
    render_dockerfile WANDB_DOCKER_WORKDIR_PATH project base_image api base_url
    = Ok text
    ∧ Py.count "010" text
      = 9 + length (option_list (name_if_set project))
        + carried_line_feeds
            ([ base_image; WANDB_DOCKER_WORKDIR_PATH; WANDB_DOCKER_WORKDIR_PATH;
               base_url; api_key api; p; e ]
             ++ option_list (name_if_set project)).
Proof.
  intros Hp He. eexists. split; [by apply render_dockerfile_lines|].
  rewrite unlines_count. unfold recipe_lines.
  destruct (name_if_set project) as [n|]; simpl;
    rewrite ?PyFacts.count_app; simpl; lia.
Qed.

(** ** What the build context touches *)

Section Frame.

Context (φ : oracle).

Implicit Types (p q d t : path) (w : world) (P : world → Prop).

Lemma keeps_try_finally {A} P (body : M A) cleanup :
  keeps P body → keeps P cleanup → keeps P (try_finally body cleanup).
Proof.
  intros Hb Hc w r w' HP. unfold try_finally.
  destruct (body w) as [r1 w1] eqn:E1.
  destruct (cleanup w1) as [[[]|e] w2] eqn:E2; intros [= <- <-];
    (eapply Hc; [|exact E2]); by eapply Hb.
Qed.

Lemma keeps_lift {A} P (r : result A) : keeps P (lift r).
Proof. intros w r' w' HP [= <- <-]. done. Qed.

Lemma triple_weaken {A} P (m : M A) (Q Q' : result A → world → Prop) :
  triple P m Q → (∀ r w, Q r w → Q' r w) → triple P m Q'.
Proof. intros H HQ w r w' HP Hrun. apply HQ. by eapply H. Qed.

Section Local.

Context (t : path) (P : world → Prop) (HP : local_inv t P).

Lemma local_leave p debris : t `prefix_of` p → keeps P (leave p debris).
Proof using HP.
  intros Hp. destruct debris as [v|]; simpl; [|apply keeps_ret].
  apply keeps_try_except; [by apply HP|intros; apply keeps_ret].
Qed.

Lemma local_copytree src dst :
  t `prefix_of` dst → keeps P (copytree φ src dst).
Proof using HP.
  intros Hp. unfold copytree. destruct (copytree_error φ).
  { apply keeps_bind; [by apply local_leave|intros; apply keeps_raise]. }
  apply keeps_bind; [apply keeps_fs_get|]. intros [[| |m]|];
    try apply keeps_raise.
  apply keeps_bind; [apply keeps_fs_get|]. intros [v|]; [apply keeps_raise|].
  case_bool_decide.
  - apply keeps_bind; [by apply local_leave|intros; apply keeps_raise].
  - by apply HP.
Qed.

Lemma local_write_text p contents :
  t `prefix_of` p → keeps P (write_text φ p contents).
Proof using HP.
  intros Hp. unfold write_text.
  apply keeps_bind; [apply keeps_fs_get|]. intros old.
  destruct (is_dir old); [apply keeps_raise|].
  destruct (write_error φ).
  - apply keeps_bind; [by apply local_leave|intros; apply keeps_raise].
  - by apply HP.
Qed.

Lemma local_make_tarfile out src archive_name :
  t `prefix_of` out → keeps P (make_tarfile φ out src archive_name).
Proof using HP.
  intros Hp. unfold make_tarfile.
  apply keeps_bind; [apply keeps_fs_get|]. intros s.
  apply keeps_bind; [apply keeps_fs_get|]. intros old.
  destruct s as [v|]; [|apply keeps_raise].
  destruct (is_dir old); [apply keeps_raise|].
  destruct (make_tarfile_error φ).
  - apply keeps_bind; [by apply local_leave|intros; apply keeps_raise].
  - by apply HP.
Qed.

Lemma local_rmtree p : t `prefix_of` p → keeps P (rmtree φ p).
Proof using HP.
  intros Hp. unfold rmtree. apply keeps_bind; [apply keeps_fs_get|].
  intros [[| |m]|]; try apply keeps_raise.
  destruct (rmtree_error φ); [|by apply HP].
  apply keeps_bind; [by apply local_leave|intros; apply keeps_raise].
Qed.

Lemma local_os_remove p : t `prefix_of` p → keeps P (os_remove φ p).
Proof using HP.
  intros Hp. unfold os_remove. destruct (remove_error φ); [apply keeps_raise|].
  apply keeps_bind; [apply keeps_fs_get|].
  intros [[| |m]|]; try apply keeps_raise; by apply HP.
Qed.

Lemma local_open_rb p : keeps P (open_rb φ p).
Proof.
  unfold open_rb. destruct (open_error φ); [apply keeps_raise|].
  apply keeps_bind; [apply keeps_fs_get|].
  intros [[| |m]|]; try apply keeps_raise; apply keeps_ret.
Qed.

(** A new entry of the temporary directory: the invariant holds on, and
    the path is in that directory. *)
Lemma local_new_entry (make : M path) v :
  make = (x ← fresh_tmp_name; t' ← gettempdir;
          fs_put (t' ++ [x]) v;; mret (t' ++ [x])) →
  triple P make (λ r w, P w ∧ ∀ p, r = Ok p → t `prefix_of` p).
Proof using HP.
  intros -> w r w' Hw. rewrite run_bind.
  destruct (fresh_tmp_name w) as [[x|e] w1] eqn:E;
    apply fresh_tmp_name_run in E as [-> _]; [|by intros [= <- <-]].
  rewrite run_bind. simpl. rewrite run_bind.
  assert (tmpdir w = t) as Ht by by apply HP.
  destruct (fs_put (tmpdir w ++ [x]) v w) as [[[]|e] w1] eqn:E;
    intros [= <- <-].
  - split.
    + eapply (proj1 (proj2 HP)); [|exact Hw|exact E].
      rewrite Ht. by apply prefix_app_r.
    + intros p [= <-]. rewrite Ht. by apply prefix_app_r.
  - split; [|done].
    eapply (proj1 (proj2 HP)); [|exact Hw|exact E].
    rewrite Ht. by apply prefix_app_r.
Qed.

Lemma local_mkdtemp :
  triple P (mkdtemp φ) (λ r w, P w ∧ ∀ p, r = Ok p → t `prefix_of` p).
Proof using HP.
  unfold mkdtemp. destruct (mkdtemp_error φ).
  - intros w r w' Hw [= <- <-]. done.
  - by apply (local_new_entry _ (Dir ∅)).
Qed.

Lemma local_mkstemp :
  triple P (mkstemp φ) (λ r w, P w ∧ ∀ p, r = Ok p → t `prefix_of` p).
Proof using HP.
  unfold mkstemp. destruct (mkstemp_error φ).
  - intros w r w' Hw [= <- <-]. done.
  - by apply (local_new_entry _ (File "")).
Qed.

(** The packager keeps every invariant of that kind, and its archive is in
    the temporary directory. *)
Lemma local_build_ctx work_dir contents :
  triple P (_create_docker_build_ctx φ work_dir contents)
    (λ r w, P w ∧ ∀ p, r = Ok p → t `prefix_of` p).
Proof using HP.
  unfold _create_docker_build_ctx.
  eapply triple_bind; [apply local_mkdtemp| |by intros e w [H _]].
  intros scratch w r w' [Hw Hs] Hrun.
  specialize (Hs _ eq_refl).
  assert (t `prefix_of` scratch ++ ["wandb-project-contents"]) as Hdst
    by by apply prefix_app_r.
  unfold try_finally in Hrun.
  match type of Hrun with context [?body w] =>
    destruct (body w) as [r1 w1] eqn:Hbody end.
  assert (P w1 ∧ ∀ p, r1 = Ok p → t `prefix_of` p) as [Hw1 Hr1].
  { revert Hbody. simpl. rewrite run_bind.
    destruct (copytree _ _ _ w) as [[[]|e] wa] eqn:Ea;
      [|intros [= <- <-]; split; [by eapply local_copytree|done]].
    apply local_copytree in Ea; [|done..]. rewrite run_bind.
    destruct (write_text _ _ _ wa) as [[[]|e] wb] eqn:Eb;
      [|intros [= <- <-]; split; [eapply local_write_text; [| |exact Eb]|];
        try done; by apply prefix_app_r].
    apply local_write_text in Eb; [|by apply prefix_app_r|done].
    rewrite run_bind.
    destruct (mkstemp φ wb) as [[rp|e] wc] eqn:Ec;
      apply local_mkstemp in Ec as [Hwc Hrp]; try done;
      [|by intros [= <- <-]].
    specialize (Hrp _ eq_refl). rewrite run_bind.
    destruct (make_tarfile _ _ _ _ wc) as [[[]|e] wd] eqn:Ed;
      apply local_make_tarfile in Ed; try done; intros [= <- <-]; [|done].
    split; [done|]. by intros p [= <-]. }
  destruct (rmtree φ scratch w1) as [[[]|e] w2] eqn:Erm;
    apply local_rmtree in Erm; try done; injection Hrun as <- <-; done.
Qed.

End Local.

Lemma local_inv_outside t q v : apart t q → local_inv t (outside_kept t q v).
Proof.
  intros [H1 H2]. split_and!.
  - by intros w [? ?].
  - intros p u Hp w r w' [Ht Hq]. unfold fs_put.
    destruct (parent_and_name p) as [[d y]|] eqn:E; [|by intros [= <- <-]].
    apply parent_and_name_Some in E as ->.
    destruct (put d y u (fs w)) as [n|] eqn:Hput; [|by intros [= <- <-]].
    intros [= <- <-]. split; [done|]. simpl. rewrite <- Hq.
    apply (put_lookup_other _ _ _ _ _ _ Hput).
    + intros H. apply H1. by etrans.
    + intros H. destruct (prefix_weak_total _ _ _ Hp H); done.
  - intros p Hp w r w' [Ht Hq]. unfold fs_del.
    destruct (parent_and_name p) as [[d y]|] eqn:E; [|by intros [= <- <-]].
    apply parent_and_name_Some in E as ->.
    destruct (del d y (fs w)) as [n|] eqn:Hdel; [|by intros [= <- <-]].
    intros [= <- <-]. split; [done|]. simpl. rewrite <- Hq.
    eapply update_dir_other; [|exact Hdel| |].
    + intros m m' [= <-] z Hz. by rewrite lookup_delete_ne.
    + intros H. apply H1. by etrans.
    + intros H. destruct (prefix_weak_total _ _ _ Hp H); done.
Qed.

Lemma local_inv_quiet t b g : local_inv t (quiet t b g).
Proof.
  split_and!.
  - by intros w (? & ? & ?).
  - intros p u _ w r w' Hw. unfold fs_put.
    destruct (parent_and_name p) as [[d y]|]; [|by intros [= <- <-]].
    destruct (put d y u (fs w)) as [n|]; by intros [= <- <-].
  - intros p _ w r w' Hw. unfold fs_del.
    destruct (parent_and_name p) as [[d y]|]; [|by intros [= <- <-]].
    destruct (del d y (fs w)) as [n|]; by intros [= <- <-].
Qed.

(** X4: whatever the outcome of the packager and whatever fails on the
    way, a path that is neither in the temporary directory nor above it
    leads to what it led to before; the project directory, when it is such a
    path, is left as it was, and so is every file in it. *)
Theorem build_ctx_leaves_outside (work_dir : path) (contents : string)
    (w : world) (q : path) :
  apart (tmpdir w) q →
  lookup_at q (fs (snd (_create_docker_build_ctx φ work_dir contents w)))
  = lookup_at q (fs w)
  ∧ (∀ rel, lookup_at (q ++ rel)
              (fs (snd (_create_docker_build_ctx φ work_dir contents w)))
            = lookup_at (q ++ rel) (fs w)).
Proof.
  intros Hq.
  destruct (_create_docker_build_ctx φ work_dir contents w) as [r w'] eqn:E.
  pose proof (local_build_ctx _ _ (local_inv_outside _ q (lookup_at q (fs w)) Hq)
                work_dir contents w r w' (conj eq_refl eq_refl) E)
    as [[_ H] _].
  simpl. split; [done|]. intros rel. by rewrite !lookup_at_app, H.
Qed.

End Frame.

(** ** What the build context leaves in the temporary directory *)

Section Litter.

Context (φ : oracle).

Implicit Types (p q d t r : path) (w : world) (m : gmap string node).

Lemma update_dir_app p q f n n' :
  update_dir (p ++ q) f n = Some n' →
  ∃ c c', lookup_at p n = Some c ∧ update_dir q f c = Some c'
          ∧ lookup_at p n' = Some c'.
Proof.
  revert n n'. induction p as [|a p IH]; intros n n'; simpl; [eauto|].
  destruct n as [| |m]; try done.
  destruct (m !! a) as [c0|] eqn:Ha; simpl; [|done].
  destruct (update_dir (p ++ q) f c0) as [c0'|] eqn:Hc; simpl; [|done].
  intros [= <-]. destruct (IH _ _ Hc) as (c & c' & H1 & H2 & H3).
  exists c, c'. simpl. by rewrite lookup_insert_eq.
Qed.

Lemma update_dir_Dir q f n n' : update_dir q f n = Some n' → ∃ m, n' = Dir m.
Proof.
  destruct n as [| |m0]; destruct q as [|a q]; simpl; try done.
  - destruct (f m0); simpl; [|done]. intros [= <-]. eauto.
  - destruct (m0 !! a); simpl; [|done].
    destruct (update_dir q f n); simpl; [|done]. intros [= <-]. eauto.
Qed.

(** A change below the entry [x] of the directory [t] changes that entry
    of [t] and no other. *)
Lemma put_below t x r y v n n' m0 :
  put (t ++ x :: r) y v n = Some n' →
  lookup_at t n = Some (Dir m0) →
  ∃ c', lookup_at t n' = Some (Dir (<[x := Dir c']> m0)).
Proof.
  unfold put. intros H Ht.
  apply update_dir_app in H as (c & c' & H1 & H2 & H3).
  rewrite Ht in H1. injection H1 as <-. simpl in H2.
  destruct (m0 !! x) as [cx|]; simpl in H2; [|done].
  destruct (update_dir r _ cx) as [cx'|] eqn:Hcx; simpl in H2; [|done].
  injection H2 as <-. apply update_dir_Dir in Hcx as [m' ->]. eauto.
Qed.

Lemma scratch_only_put t m x r y v :
  keeps (scratch_only t m x) (fs_put (t ++ x :: r ++ [y]) v).
Proof.
  intros w res w' [c [Ht Hd]]. unfold fs_put.
  change (t ++ x :: r ++ [y]) with (t ++ (x :: r) ++ [y]).
  rewrite app_assoc, parent_and_name_snoc.
  destruct (put _ y v (fs w)) as [n|] eqn:Hput;
    intros [= <- <-]; [|by exists c].
  destruct (put_below _ _ _ _ _ _ _ _ Hput Hd) as [c' Hc'].
  exists c'. split; [done|]. simpl. by rewrite Hc', insert_insert_eq.
Qed.

Lemma scratch_only_leave t m x r y debris :
  keeps (scratch_only t m x) (leave (t ++ x :: r ++ [y]) debris).
Proof.
  destruct debris as [v|]; simpl; [|apply keeps_ret].
  apply keeps_try_except; [apply scratch_only_put|intros; apply keeps_ret].
Qed.

Lemma scratch_only_copytree t m x src c :
  keeps (scratch_only t m x) (copytree φ src ((t ++ [x]) ++ [c])).
Proof.
  replace ((t ++ [x]) ++ [c]) with (t ++ x :: [] ++ [c])
    by by rewrite <- app_assoc.
  unfold copytree. destruct (copytree_error φ).
  { apply keeps_bind; [apply scratch_only_leave|intros; apply keeps_raise]. }
  apply keeps_bind; [apply keeps_fs_get|]. intros [[| |m']|];
    try apply keeps_raise.
  apply keeps_bind; [apply keeps_fs_get|]. intros [v|]; [apply keeps_raise|].
  case_bool_decide.
  - apply keeps_bind; [apply scratch_only_leave|intros; apply keeps_raise].
  - apply scratch_only_put.
Qed.

Lemma scratch_only_write_text t m x c f contents :
  keeps (scratch_only t m x)
    (write_text φ (((t ++ [x]) ++ [c]) ++ [f]) contents).
Proof.
  replace (((t ++ [x]) ++ [c]) ++ [f]) with (t ++ x :: [c] ++ [f])
    by by rewrite <- !app_assoc.
  unfold write_text. apply keeps_bind; [apply keeps_fs_get|]. intros old.
  destruct (is_dir old); [apply keeps_raise|].
  destruct (write_error φ).
  - apply keeps_bind; [apply scratch_only_leave|intros; apply keeps_raise].
  - apply scratch_only_put.
Qed.

Lemma output_put t m x z v :
  is_regular (Some v) = true →
  keeps (scratch_and_output t m x z) (fs_put (t ++ [z]) v).
Proof.
  intros Hv w res w' (c & v0 & Hv0 & Ht & Hd). unfold fs_put.
  rewrite parent_and_name_snoc.
  destruct (put t z v (fs w)) as [n|] eqn:Hput;
    intros [= <- <-]; [|by exists c, v0].
  apply put_spec in Hput as (m0 & H0 & H1).
  rewrite Hd in H0. injection H0 as <-.
  exists c, v. split; [done|]. split; [done|]. simpl.
  by rewrite H1, insert_insert_eq.
Qed.

Lemma output_make_tarfile t m x z src archive_name :
  keeps (scratch_and_output t m x z)
    (make_tarfile φ (t ++ [z]) src archive_name).
Proof.
  unfold make_tarfile. apply keeps_bind; [apply keeps_fs_get|]. intros s.
  apply keeps_bind; [apply keeps_fs_get|]. intros old.
  destruct s as [v|]; [|apply keeps_raise].
  destruct (is_dir old); [apply keeps_raise|].
  destruct (make_tarfile_error φ).
  - apply keeps_bind; [|intros; apply keeps_raise].
    destruct (make_tarfile_debris φ) as [s|]; simpl; [|apply keeps_ret].
    apply keeps_try_except; [by apply output_put|intros; apply keeps_ret].
  - by apply output_put.
Qed.

(** The output file is a new entry of the temporary directory. *)
Lemma scratch_only_mkstemp t m x :
  m !! x = None →
  triple (scratch_only t m x) (mkstemp φ)
    (λ res w,
       match res with
       | Ok p => ∃ z, p = t ++ [z] ∧ z ≠ x ∧ m !! z = None
                      ∧ scratch_and_output t m x z w
       | Raise _ => scratch_only t m x w
       end).
Proof.
  intros Hx w res w' Hw. pose proof Hw as [c [Ht Hd]]. unfold mkstemp.
  destruct (mkstemp_error φ); [by intros [= <- <-]|].
  rewrite run_bind.
  destruct (fresh_tmp_name w) as [[z|e] w1] eqn:E;
    apply fresh_tmp_name_run in E as [-> Hz]; [|by intros [= <- <-]].
  destruct (Hz z eq_refl) as (m0 & Hm0 & Hfree).
  rewrite Ht, Hd in Hm0. injection Hm0 as <-.
  apply lookup_insert_None in Hfree as [Hfree Hzx].
  rewrite run_bind. simpl. rewrite run_bind. rewrite Ht. unfold fs_put.
  rewrite parent_and_name_snoc.
  destruct (put_is_Some t z (File "") _ _ Hd) as [n Hn]. rewrite Hn.
  intros [= <- <-]. exists z. split_and!; try done.
  apply put_spec in Hn as (m0 & H0 & H1).
  rewrite Hd in H0. injection H0 as <-.
  exists c, (File ""). by split_and!.
Qed.

(** The body of the [try]: the scratch directory alone, or the scratch
    directory and the output file; an archive path is that of the output
    file. *)
Lemma body_litter t m x work_dir contents :
  m !! x = None →
  triple (scratch_only t m x)
    (let dst_path := (t ++ [x]) ++ ["wandb-project-contents"] in
     copytree φ work_dir dst_path;;
     write_text φ (dst_path ++ [_GENERATED_DOCKERFILE_NAME]) contents;;
     result_path ← mkstemp φ;
     make_tarfile φ result_path dst_path _PROJECT_TAR_ARCHIVE_NAME;;
     mret result_path)
    (λ res w,
       (is_ok res = false ∧ scratch_only t m x w)
       ∨ ∃ z, z ≠ x ∧ m !! z = None ∧ scratch_and_output t m x z w
              ∧ ∀ p, res = Ok p → p = t ++ [z]).
Proof.
  intros Hx w res w' Hw. simpl. rewrite run_bind.
  destruct (copytree _ _ _ w) as [[[]|e] wa] eqn:Ea;
    apply (scratch_only_copytree t m x) in Ea; try done;
    [|intros [= <- <-]; by left].
  rewrite run_bind.
  destruct (write_text _ _ _ wa) as [[[]|e] wb] eqn:Eb;
    apply (scratch_only_write_text t m x) in Eb; try done;
    [|intros [= <- <-]; by left].
  rewrite run_bind.
  destruct (mkstemp φ wb) as [[rp|e] wc] eqn:Ec;
    apply (scratch_only_mkstemp t m x Hx) in Ec; try done;
    [|intros [= <- <-]; by left].
  destruct Ec as (z & -> & Hzx & Hz & Hwc). rewrite run_bind.
  destruct (make_tarfile _ _ _ _ wc) as [[[]|e] wd] eqn:Ed;
    apply (output_make_tarfile t m x z) in Ed; try done; intros [= <- <-];
    right; exists z; split_and!; try done.
  by intros p [= <-].
Qed.

Lemma rmtree_scratch_only t m x w :
  rmtree_error φ = None →
  m !! x = None → scratch_only t m x w →
  ∃ n, rmtree φ (t ++ [x]) w = (Ok (), set_fs n w)
       ∧ lookup_at t n = Some (Dir m).
Proof.
  intros Hrm Hx [c [Ht Hd]]. unfold rmtree. rewrite run_bind. simpl.
  rewrite lookup_at_app, Hd. simpl. rewrite lookup_insert_eq. simpl.
  rewrite Hrm. unfold fs_del. rewrite parent_and_name_snoc.
  destruct (del_is_Some t x _ _ Hd) as [n Hn]. rewrite Hn.
  exists n. split; [done|]. apply del_spec in Hn as (m0 & H0 & H1).
  rewrite Hd in H0. injection H0 as <-.
  by rewrite H1, delete_insert_id.
Qed.

Lemma rmtree_scratch_and_output t m x z w :
  rmtree_error φ = None →
  m !! x = None → z ≠ x → scratch_and_output t m x z w →
  ∃ n v, rmtree φ (t ++ [x]) w = (Ok (), set_fs n w)
         ∧ is_regular (Some v) = true
         ∧ lookup_at t n = Some (Dir (<[z := v]> m)).
Proof.
  intros Hrm Hx Hzx (c & v & Hv & Ht & Hd). unfold rmtree. rewrite run_bind.
  simpl. rewrite lookup_at_app, Hd. simpl.
  rewrite lookup_insert_ne, lookup_insert_eq by done. simpl.
  rewrite Hrm. unfold fs_del. rewrite parent_and_name_snoc.
  destruct (del_is_Some t x _ _ Hd) as [n Hn]. rewrite Hn.
  exists n, v. split; [done|]. split; [done|].
  apply del_spec in Hn as (m0 & H0 & H1).
  rewrite Hd in H0. injection H0 as <-.
  by rewrite H1, delete_insert_ne, delete_insert_id.
Qed.

(** The temporary directory after the packager, when the removal of the
    scratch directory does not fail. *)
Lemma build_ctx_litter work_dir contents w m res w' :
  rmtree_error φ = None →
  lookup_at (tmpdir w) (fs w) = Some (Dir m) →
  _create_docker_build_ctx φ work_dir contents w = (res, w') →
  (is_ok res = false ∧ lookup_at (tmpdir w) (fs w') = Some (Dir m))
  ∨ ∃ z v, m !! z = None ∧ is_regular (Some v) = true
           ∧ lookup_at (tmpdir w) (fs w') = Some (Dir (<[z := v]> m))
           ∧ ∀ p, res = Ok p → p = tmpdir w ++ [z].
Proof.
  intros Hrm Hm. unfold _create_docker_build_ctx. rewrite run_bind.
  destruct (mkdtemp φ w) as [[scratch|e] w1] eqn:E;
    apply mkdtemp_run in E; [|subst; intros [= <- <-]; by left].
  destruct E as (x & -> & Hfresh & _ & _ & n1 & Hn1 & ->).
  rewrite lookup_at_app, Hm in Hfresh. simpl in Hfresh.
  assert (m !! x = None) as Hx by by destruct (m !! x).
  assert (scratch_only (tmpdir w) m x (set_fs n1 w)) as Hw1.
  { exists ∅. split; [done|]. simpl.
    apply put_spec in Hn1 as (m0 & H0 & H1). congruence. }
  unfold try_finally.
  match goal with |- context [?body (set_fs n1 w)] =>
    destruct (body (set_fs n1 w)) as [r1 w2] eqn:Hbody end.
  apply (body_litter _ _ _ _ _ Hx) in Hbody; [|done].
  destruct Hbody as [[Hfail Hw2]|(z & Hzx & Hz & Hw2 & Hp)].
  - destruct (rmtree_scratch_only _ _ _ _ Hrm Hx Hw2) as (n & -> & Hn).
    intros [= <- <-]. by left.
  - destruct (rmtree_scratch_and_output _ _ _ _ _ Hrm Hx Hzx Hw2)
      as (n & v & -> & Hv & Hn).
    intros [= <- <-]. right. by exists z, v.
Qed.

(** X5: when the removal of the scratch directory does not fail, the
    packager leaves at most one new entry in the temporary directory, a
    regular file; the entries that were there are as they were, whatever
    else fails on the way; the path it returns is that of the new file, and
    when it adds no entry it has failed. *)
Theorem build_ctx_footprint (work_dir : path) (contents : string) (w : world)
    (m : gmap string node) :
  rmtree_error φ = None →
  lookup_at (tmpdir w) (fs w) = Some (Dir m) →
  (is_ok (fst (_create_docker_build_ctx φ work_dir contents w)) = false
   ∧ lookup_at (tmpdir w)
       (fs (snd (_create_docker_build_ctx φ work_dir contents w)))
     = Some (Dir m))
  ∨ ∃ z v,
      m !! z = None ∧ is_regular (Some v) = true
      ∧ lookup_at (tmpdir w)
          (fs (snd (_create_docker_build_ctx φ work_dir contents w)))
        = Some (Dir (<[z := v]> m))
      ∧ ∀ p, fst (_create_docker_build_ctx φ work_dir contents w) = Ok p →
             p = tmpdir w ++ [z].
Proof.
  intros Hrm Hm.
  destruct (_create_docker_build_ctx φ work_dir contents w) as [res w'] eqn:E.
  exact (build_ctx_litter _ _ _ _ _ _ Hrm Hm E).
Qed.

End Litter.

(** ** When the build context is made *)

Section Forward.

Context (φ : oracle).

Implicit Types (p q d t r : path) (w : world) (m : gmap string node).

Lemma fs_put_forward d x v w n :
  put d x v (fs w) = Some n → fs_put (d ++ [x]) v w = (Ok (), set_fs n w).
Proof. intros H. unfold fs_put. by rewrite parent_and_name_snoc, H. Qed.

Lemma copytree_forward src dst w m :
  copytree_error φ = None →
  lookup_at src (fs w) = Some (Dir m) → lookup_at dst (fs w) = None →
  ¬ src `prefix_of` dst →
  copytree φ src dst w = fs_put dst (Dir m) w.
Proof.
  intros He Hs Hd Hp. unfold copytree. rewrite He, run_bind. simpl.
  rewrite Hs, run_bind. simpl. rewrite Hd.
  by rewrite bool_decide_eq_false_2.
Qed.

Lemma write_text_forward p contents w :
  write_error φ = None → is_dir (lookup_at p (fs w)) = false →
  write_text φ p contents w = fs_put p (File contents) w.
Proof.
  intros He Hd. unfold write_text. rewrite run_bind. simpl.
  by rewrite Hd, He.
Qed.

Lemma write_text_is_directory p contents w :
  is_dir (lookup_at p (fs w)) = true →
  write_text φ p contents w = (Raise (OSError "IsADirectoryError"), w).
Proof.
  intros Hd. unfold write_text. rewrite run_bind. simpl. by rewrite Hd.
Qed.

Lemma new_entry_forward v w mt :
  lookup_at (tmpdir w) (fs w) = Some (Dir mt) →
  ∃ z n, mt !! z = None ∧ put (tmpdir w) z v (fs w) = Some n
         ∧ (x ← fresh_tmp_name; t' ← gettempdir;
            fs_put (t' ++ [x]) v;; mret (t' ++ [x])) w
           = (Ok (tmpdir w ++ [z]), set_fs n w).
Proof.
  intros Ht. destruct (put_is_Some (tmpdir w)
    (fresh_string_of_set "tmp" (dom mt)) v _ _ Ht) as [n Hn].
  exists (fresh_string_of_set "tmp" (dom mt)), n. split_and!; [|done|].
  - apply not_elem_of_dom, fresh_string_of_set_fresh.
  - rewrite run_bind. unfold fresh_tmp_name at 1. rewrite run_bind. simpl.
    rewrite run_bind. simpl. rewrite Ht. simpl. rewrite run_bind. simpl.
    rewrite run_bind. by rewrite (fs_put_forward _ _ _ _ _ Hn).
Qed.

Lemma mkdtemp_forward w mt :
  mkdtemp_error φ = None → lookup_at (tmpdir w) (fs w) = Some (Dir mt) →
  ∃ x n, mt !! x = None ∧ put (tmpdir w) x (Dir ∅) (fs w) = Some n
         ∧ mkdtemp φ w = (Ok (tmpdir w ++ [x]), set_fs n w).
Proof.
  intros He Ht. unfold mkdtemp. rewrite He. by apply new_entry_forward.
Qed.

Lemma mkstemp_forward w mt :
  mkstemp_error φ = None → lookup_at (tmpdir w) (fs w) = Some (Dir mt) →
  ∃ z n, mt !! z = None ∧ put (tmpdir w) z (File "") (fs w) = Some n
         ∧ mkstemp φ w = (Ok (tmpdir w ++ [z]), set_fs n w).
Proof.
  intros He Ht. unfold mkstemp. rewrite He. by apply new_entry_forward.
Qed.

Lemma apart_scratch t x q :
  apart t q → ¬ (t ++ [x]) `prefix_of` q ∧ ¬ q `prefix_of` (t ++ [x]).
Proof.
  intros [H1 H2]. split.
  - intros H. apply H1. etrans; [|exact H]. by apply prefix_app_r.
  - intros H.
    destruct (prefix_weak_total q t (t ++ [x])); [done|by apply prefix_app_r|..];
      done.
Qed.

Lemma apart_below t r q : apart t q → ¬ q `prefix_of` (t ++ r).
Proof.
  intros [H1 H2] H.
  destruct (prefix_weak_total q t (t ++ r)); [done|by apply prefix_app_r|..];
    done.
Qed.

(** With a project directory outside the temporary directory and no
    failure from outside in the allocation and the copy, the packager comes
    to the writing of the Dockerfile, the copy being in place. *)
Lemma packaging_reaches_write work_dir contents w mt m :
  mkdtemp_error φ = None → copytree_error φ = None →
  lookup_at (tmpdir w) (fs w) = Some (Dir mt) →
  lookup_at work_dir (fs w) = Some (Dir m) →
  apart (tmpdir w) work_dir →
  ∃ x n2,
    mt !! x = None
    ∧ lookup_at (tmpdir w) n2
      = Some (Dir (<[x := Dir {["wandb-project-contents" := Dir m]}]> mt))
    ∧ _create_docker_build_ctx φ work_dir contents w
      = try_finally
          (let dst_path := (tmpdir w ++ [x]) ++ ["wandb-project-contents"] in
           write_text φ (dst_path ++ [_GENERATED_DOCKERFILE_NAME]) contents;;
           result_path ← mkstemp φ;
           make_tarfile φ result_path dst_path _PROJECT_TAR_ARCHIVE_NAME;;
           mret result_path)
          (rmtree φ (tmpdir w ++ [x])) (set_fs n2 w).
Proof.
  intros Hmk Hcp Ht Hsrc Hapart.
  destruct (mkdtemp_forward w mt Hmk Ht) as (x & n1 & Hx & Hn1 & Hrun).
  pose proof (put_spec _ _ _ _ _ Hn1) as (m0 & H0 & Ht1).
  rewrite Ht in H0. injection H0 as <-.
  assert (lookup_at (tmpdir w ++ [x]) n1 = Some (Dir ∅)) as Hs1
    by apply (put_lookup _ _ _ _ _ [] Hn1).
  destruct (put_is_Some (tmpdir w ++ [x]) "wandb-project-contents" (Dir m)
              _ _ Hs1) as [n2 Hn2].
  exists x, n2. split; [done|]. split.
  - destruct (put_below (tmpdir w) x [] _ _ _ _ _ Hn2 Ht1) as [c' Hc'].
    pose proof (put_spec _ _ _ _ _ Hn2) as (m1 & H1 & H2).
    rewrite Hs1 in H1. injection H1 as <-.
    rewrite lookup_at_app, Hc' in H2. simpl in H2.
    rewrite lookup_insert_eq in H2. simpl in H2. injection H2 as ->.
    by rewrite Hc', insert_insert_eq, insert_empty.
  - unfold _create_docker_build_ctx. rewrite run_bind, Hrun.
    unfold try_finally. simpl. rewrite run_bind.
    destruct (apart_scratch _ x _ Hapart) as [Ha1 Ha2].
    rewrite (copytree_forward _ _ _ m); simpl; [|done| | |].
    + by rewrite (fs_put_forward _ _ _ (set_fs n1 w) _ Hn2).
    + by rewrite (put_lookup_other _ _ _ _ _ _ Hn1).
    + rewrite <- app_assoc. simpl. by rewrite (put_lookup _ _ _ _ _ _ Hn1).
    + rewrite <- app_assoc. by apply apart_below.
Qed.

(** X7: with a temporary directory in place, a project directory outside
    it, and no failure from outside in the allocation of the scratch
    directory, in the copy and in the removal of the scratch directory: a
    project directory that holds a directory called
    [Dockerfile.wandb-autogenerated] cannot be packaged: the Dockerfile
    cannot be written over a directory, the call fails with that error of
    the file system, and the temporary directory is afterwards as it was
    before the call. *)
Theorem build_ctx_dockerfile_is_directory (work_dir : path)
    (contents : string) (w : world) (mt m : gmap string node) :
  mkdtemp_error φ = None → copytree_error φ = None →
  rmtree_error φ = None →
  lookup_at (tmpdir w) (fs w) = Some (Dir mt) →
  lookup_at work_dir (fs w) = Some (Dir m) →
  apart (tmpdir w) work_dir →
  is_dir (m !! _GENERATED_DOCKERFILE_NAME) = true →
  fst (_create_docker_build_ctx φ work_dir contents w)
  = Raise (OSError "IsADirectoryError")
  ∧ lookup_at (tmpdir w)
      (fs (snd (_create_docker_build_ctx φ work_dir contents w)))
    = Some (Dir mt).
Proof.
  intros Hmk Hcp Hrm Ht Hsrc Hapart Hdir.
  destruct (packaging_reaches_write work_dir contents w mt m)
    as (x & n2 & Hx & Ht2 & ->); try done.
  assert (scratch_only (tmpdir w) mt x (set_fs n2 w)) as Hso
    by by eexists.
  unfold try_finally. cbv zeta. rewrite run_bind.
  rewrite write_text_is_directory.
  - destruct (rmtree_scratch_only φ _ _ _ _ Hrm Hx Hso) as (n & -> & Hn).
    done.
  - change (fs (set_fs n2 w)) with n2. rewrite <- !app_assoc.
    rewrite lookup_at_app, Ht2. simpl. rewrite lookup_insert_eq. simpl.
    rewrite lookup_singleton_eq. simpl.
    by destruct (m !! _GENERATED_DOCKERFILE_NAME) as [[| |?]|].
Qed.

(** With no failure from outside in the writing and the allocation of the
    output file either, and no directory in the way of the Dockerfile, the
    packager comes to the archiving step, the copy with its Dockerfile being
    in place and the output file empty. *)
Lemma packaging_reaches_archiving work_dir contents w mt m :
  mkdtemp_error φ = None → copytree_error φ = None →
  write_error φ = None → mkstemp_error φ = None →
  lookup_at (tmpdir w) (fs w) = Some (Dir mt) →
  lookup_at work_dir (fs w) = Some (Dir m) →
  apart (tmpdir w) work_dir →
  is_dir (m !! _GENERATED_DOCKERFILE_NAME) = false →
  ∃ x z n4,
    mt !! x = None ∧ mt !! z = None ∧ z ≠ x
    ∧ lookup_at (tmpdir w) n4
      = Some (Dir (<[z := File ""]>
           (<[x := Dir {["wandb-project-contents" :=
                 Dir (<[_GENERATED_DOCKERFILE_NAME := File contents]> m)]}]>
              mt)))
    ∧ _create_docker_build_ctx φ work_dir contents w
      = try_finally
          (make_tarfile φ (tmpdir w ++ [z])
             ((tmpdir w ++ [x]) ++ ["wandb-project-contents"])
             _PROJECT_TAR_ARCHIVE_NAME;;
           mret (tmpdir w ++ [z]))
          (rmtree φ (tmpdir w ++ [x])) (set_fs n4 w).
Proof.
  intros Hmk Hcp Hwr Hst Ht Hsrc Hapart Hnodir.
  destruct (packaging_reaches_write work_dir contents w mt m)
    as (x & n2 & Hx & Ht2 & ->); try done.
  set (dst := (tmpdir w ++ [x]) ++ ["wandb-project-contents"]).
  assert (lookup_at dst n2 = Some (Dir m)) as Hdst2.
  { unfold dst. rewrite <- app_assoc. simpl.
    rewrite lookup_at_app, Ht2. simpl. rewrite lookup_insert_eq. simpl.
    by rewrite lookup_singleton_eq. }
  destruct (put_is_Some dst _GENERATED_DOCKERFILE_NAME (File contents)
              _ _ Hdst2) as [n3 Hn3].
  assert (lookup_at (tmpdir w) n3
          = Some (Dir (<[x := Dir {["wandb-project-contents" :=
               Dir (<[_GENERATED_DOCKERFILE_NAME := File contents]> m)]}]>
                         mt))) as Ht3.
  { assert (dst = tmpdir w ++ x :: ["wandb-project-contents"]) as Hd
      by (unfold dst; by rewrite <- app_assoc).
    pose proof Hn3 as Hn3'. rewrite Hd in Hn3'.
    destruct (put_below _ _ _ _ _ _ _ _ Hn3' Ht2) as [c' Hc'].
    pose proof (put_spec _ _ _ _ _ Hn3) as (m1 & H1 & H2).
    rewrite Hdst2 in H1. injection H1 as <-.
    rewrite Hd, lookup_at_app, Hc' in H2. simpl in H2.
    rewrite lookup_insert_eq in H2. simpl in H2.
    rewrite Hc', insert_insert_eq. do 3 f_equal.
    destruct (c' !! "wandb-project-contents") as [v|] eqn:Hv; [|done].
    simpl in H2. injection H2 as ->.
    (* the scratch directory has that one entry *)
    f_equal. apply map_eq. intros k.
    destruct (decide (k = "wandb-project-contents")) as [->|Hk];
      [by rewrite lookup_singleton_eq|].
    rewrite lookup_singleton_ne by done.
    pose proof (put_lookup_sibling _ _ _ _ _ k [] Hn3') as Hsib.
    assert (lookup_at (tmpdir w ++ [x; k]) n3 = None) as Hk3.
    { pose proof (update_dir_other dst
        (λ m0, Some (<[_GENERATED_DOCKERFILE_NAME := File contents]> m0))
        _GENERATED_DOCKERFILE_NAME n2 n3 (tmpdir w ++ [x; k])) as Ho.
      rewrite Ho; [| |exact Hn3| |].
      - rewrite lookup_at_app, Ht2. simpl. rewrite lookup_insert_eq. simpl.
        by rewrite lookup_singleton_ne.
      - intros m0 m0' [= <-] y Hy. by rewrite lookup_insert_ne.
      - rewrite Hd. rewrite <- app_assoc. simpl.
        intros H. apply prefix_app_inv in H.
        apply prefix_cons_inv_2 in H.
        apply prefix_cons_inv_1 in H. done.
      - rewrite Hd. rewrite <- app_assoc. simpl.
        intros H. apply prefix_app_inv in H.
        apply prefix_cons_inv_2 in H.
        apply prefix_cons_inv_1 in H. done. }
    rewrite lookup_at_app, Hc' in Hk3. simpl in Hk3.
    rewrite lookup_insert_eq in Hk3. simpl in Hk3.
    by destruct (c' !! k). }
  destruct (mkstemp_forward (set_fs n3 (set_fs n2 w)) _ Hst Ht3)
    as (z & n4 & Hz & Hn4 & Hrun).
  simpl in Hn4, Hrun.
  apply lookup_insert_None in Hz as [Hz Hzx].
  exists x, z, n4. split_and!; try done.
  - apply put_spec in Hn4 as (m1 & H1 & H2). congruence.
  - unfold try_finally. simpl. rewrite run_bind.
    rewrite write_text_forward; [|done|].
    2:{ simpl. fold dst. rewrite lookup_at_app, Hdst2. simpl.
        by destruct (m !! _GENERATED_DOCKERFILE_NAME) as [[| |?]|]. }
    fold dst. rewrite (fs_put_forward _ _ _ (set_fs n2 w) _ Hn3).
    rewrite run_bind, Hrun. done.
Qed.

End Forward.

(** ** The outcomes of the packager *)

Section Outcomes.

Context (φ : oracle).

Implicit Types (p q d t r : path) (w : world) (m : gmap string node).

Lemma rmtree_beside_output t m x z c v w :
  rmtree_error φ = None →
  m !! x = None → z ≠ x →
  tmp_holds t (<[z := v]> (<[x := Dir c]> m)) w →
  ∃ n, rmtree φ (t ++ [x]) w = (Ok (), set_fs n w)
       ∧ lookup_at t n = Some (Dir (<[z := v]> m)).
Proof.
  intros Hrm Hx Hzx [Ht Hd]. unfold rmtree. rewrite run_bind.
  simpl. rewrite lookup_at_app, Hd. simpl.
  rewrite lookup_insert_ne, lookup_insert_eq by done. simpl.
  rewrite Hrm. unfold fs_del. rewrite parent_and_name_snoc.
  destruct (del_is_Some t x _ _ Hd) as [n Hn]. rewrite Hn.
  exists n. split; [done|].
  apply del_spec in Hn as (m0 & H0 & H1).
  rewrite Hd in H0. injection H0 as <-.
  by rewrite H1, delete_insert_ne, delete_insert_id.
Qed.

Lemma make_tarfile_forward out src archive_name w v :
  make_tarfile_error φ = None →
  lookup_at src (fs w) = Some v → is_dir (lookup_at out (fs w)) = false →
  make_tarfile φ out src archive_name w
  = fs_put out (Tarball (Dir {[archive_name := v]})) w.
Proof.
  intros He Hs Hd. unfold make_tarfile. rewrite run_bind. simpl.
  rewrite run_bind. simpl. by rewrite Hs, Hd, He.
Qed.

Lemma make_tarfile_fails out src archive_name w v e :
  make_tarfile_error φ = Some e →
  lookup_at src (fs w) = Some v → is_dir (lookup_at out (fs w)) = false →
  make_tarfile φ out src archive_name w
  = (leave out (File <$> make_tarfile_debris φ);; raise e) w.
Proof.
  intros He Hs Hd. unfold make_tarfile. rewrite run_bind. simpl.
  rewrite run_bind. simpl. by rewrite Hs, Hd, He.
Qed.

(** The state in which the archiving step starts. *)
Lemma archiving_start (t : path) x z contents m mt n4 :
  z ≠ x →
  lookup_at t n4
  = Some (Dir (<[z := File ""]>
       (<[x := Dir {["wandb-project-contents" :=
             Dir (<[_GENERATED_DOCKERFILE_NAME := File contents]> m)]}]>
          mt))) →
  lookup_at ((t ++ [x]) ++ ["wandb-project-contents"]) n4
  = Some (Dir (<[_GENERATED_DOCKERFILE_NAME := File contents]> m))
  ∧ lookup_at (t ++ [z]) n4 = Some (File "").
Proof.
  intros Hzx Ht. split.
  - rewrite <- app_assoc. simpl. rewrite lookup_at_app, Ht. simpl.
    rewrite lookup_insert_ne, lookup_insert_eq by done. simpl.
    by rewrite lookup_singleton_eq.
  - rewrite lookup_at_app, Ht. simpl. by rewrite lookup_insert_eq.
Qed.

Lemma build_ctx_succeeds_run work_dir contents w mt m :
  mkdtemp_error φ = None → copytree_error φ = None →
  write_error φ = None → mkstemp_error φ = None →
  make_tarfile_error φ = None → rmtree_error φ = None →
  lookup_at (tmpdir w) (fs w) = Some (Dir mt) →
  lookup_at work_dir (fs w) = Some (Dir m) →
  apart (tmpdir w) work_dir →
  is_dir (m !! _GENERATED_DOCKERFILE_NAME) = false →
  ∃ z w1,
    mt !! z = None
    ∧ _create_docker_build_ctx φ work_dir contents w
      = (Ok (tmpdir w ++ [z]), w1)
    ∧ lookup_at (tmpdir w) (fs w1)
      = Some (Dir (<[z := Tarball (Dir {[ _PROJECT_TAR_ARCHIVE_NAME :=
            Dir (<[ _GENERATED_DOCKERFILE_NAME := File contents ]> m) ]})]>
                     mt)).
Proof.
  intros Hmk Hcp Hwr Hst Htar Hrmt Ht Hsrc Hapart Hnodir.
  destruct (packaging_reaches_archiving φ work_dir contents w mt m)
    as (x & z & n4 & Hx & Hz & Hzx & Ht4 & ->); try done.
  destruct (archiving_start _ _ _ _ _ _ _ Hzx Ht4) as [Hdst Hout].
  exists z.
  unfold try_finally. rewrite run_bind.
  rewrite (make_tarfile_forward _ _ _ (set_fs n4 w) _ Htar Hdst)
    by (change (fs (set_fs n4 w)) with n4; by rewrite Hout).
  destruct (put_is_Some (tmpdir w) z
    (Tarball (Dir {[ _PROJECT_TAR_ARCHIVE_NAME :=
        Dir (<[ _GENERATED_DOCKERFILE_NAME := File contents ]> m) ]}))
    _ _ Ht4) as [n5 Hn5].
  rewrite (fs_put_forward _ _ _ (set_fs n4 w) _ Hn5).
  apply put_spec in Hn5 as (m0 & H0 & Ht5).
  rewrite Ht4 in H0. injection H0 as <-. rewrite insert_insert_eq in Ht5.
  destruct (rmtree_beside_output (tmpdir w) mt x z _ _
              (set_fs n5 (set_fs n4 w)) Hrmt Hx Hzx (conj eq_refl Ht5))
    as (n & Hrm & Hn).
  simpl. rewrite Hrm. eexists. split_and!; [done|reflexivity|done].
Qed.

(** X6: with a temporary directory in place, a project directory outside
    it that has no directory called [Dockerfile.wandb-autogenerated], and no
    failure from outside (the removal of the scratch directory included),
    the packager succeeds: it returns the path of a
    new entry of the temporary directory, which holds the archive of the
    project with the Dockerfile, and that entry is the only change in the
    temporary directory. *)
Theorem build_ctx_succeeds (work_dir : path) (contents : string) (w : world)
    (mt m : gmap string node) :
  mkdtemp_error φ = None → copytree_error φ = None →
  write_error φ = None → mkstemp_error φ = None →
  make_tarfile_error φ = None → rmtree_error φ = None →
  lookup_at (tmpdir w) (fs w) = Some (Dir mt) →
  lookup_at work_dir (fs w) = Some (Dir m) →
  apart (tmpdir w) work_dir →
  is_dir (m !! _GENERATED_DOCKERFILE_NAME) = false →
  ∃ z,
    mt !! z = None
    ∧ fst (_create_docker_build_ctx φ work_dir contents w)
      = Ok (tmpdir w ++ [z])
    ∧ lookup_at (tmpdir w)
        (fs (snd (_create_docker_build_ctx φ work_dir contents w)))
      = Some (Dir (<[z := Tarball (Dir {[ _PROJECT_TAR_ARCHIVE_NAME :=
            Dir (<[ _GENERATED_DOCKERFILE_NAME := File contents ]> m) ]})]>
                     mt)).
Proof.
  intros Hmk Hcp Hwr Hst Htar Hrmt Ht Hsrc Hapart Hnodir.
  destruct (build_ctx_succeeds_run work_dir contents w mt m)
    as (z & w1 & Hz & -> & Hl); try done.
  by exists z.
Qed.

(** X8: with a temporary directory in place, a project directory outside
    it that has no directory called [Dockerfile.wandb-autogenerated], and no
    failure from outside before the archiving step nor in the removal of the
    scratch directory: when the archiving step fails, the call fails with
    the error of that step, and the output file that had been allocated for
    the archive stays in the temporary directory, empty or with what the
    failed step has written: the scratch directory is removed, the output
    file is not. *)
Theorem build_ctx_archiving_fails (work_dir : path) (contents : string)
    (w : world) (mt m : gmap string node) (e : exn) :
  mkdtemp_error φ = None → copytree_error φ = None →
  write_error φ = None → mkstemp_error φ = None →
  make_tarfile_error φ = Some e → rmtree_error φ = None →
  lookup_at (tmpdir w) (fs w) = Some (Dir mt) →
  lookup_at work_dir (fs w) = Some (Dir m) →
  apart (tmpdir w) work_dir →
  is_dir (m !! _GENERATED_DOCKERFILE_NAME) = false →
  ∃ z,
    mt !! z = None
    ∧ fst (_create_docker_build_ctx φ work_dir contents w) = Raise e
    ∧ lookup_at (tmpdir w)
        (fs (snd (_create_docker_build_ctx φ work_dir contents w)))
      = Some (Dir (<[z := File (default "" (make_tarfile_debris φ))]> mt)).
Proof.
  intros Hmk Hcp Hwr Hst Htar Hrmt Ht Hsrc Hapart Hnodir.
  destruct (packaging_reaches_archiving φ work_dir contents w mt m)
    as (x & z & n4 & Hx & Hz & Hzx & Ht4 & ->); try done.
  destruct (archiving_start _ _ _ _ _ _ _ Hzx Ht4) as [Hdst Hout].
  exists z. split; [done|].
  unfold try_finally. rewrite run_bind.
  rewrite (make_tarfile_fails _ _ _ (set_fs n4 w) _ _ Htar Hdst)
    by (change (fs (set_fs n4 w)) with n4; by rewrite Hout).
  rewrite run_bind.
  destruct (make_tarfile_debris φ) as [s|]; simpl.
  - unfold try_except.
    destruct (put_is_Some (tmpdir w) z (File s) _ _ Ht4) as [n5 Hn5].
    rewrite (fs_put_forward _ _ _ (set_fs n4 w) _ Hn5).
    apply put_spec in Hn5 as (m0 & H0 & Ht5).
    rewrite Ht4 in H0. injection H0 as <-. rewrite insert_insert_eq in Ht5.
    destruct (rmtree_beside_output (tmpdir w) mt x z _ _
                (set_fs n5 (set_fs n4 w)) Hrmt Hx Hzx (conj eq_refl Ht5))
      as (n & Hrm & Hn).
    simpl. rewrite Hrm. done.
  - destruct (rmtree_beside_output (tmpdir w) mt x z _ _
                (set_fs n4 w) Hrmt Hx Hzx (conj eq_refl Ht4))
      as (n & Hrm & Hn).
    unfold raise. rewrite Hrm. done.
Qed.

Lemma copytree_no_directory src dst w :
  copytree_error φ = None → is_dir (lookup_at src (fs w)) = false →
  copytree φ src dst w
  = (Raise (OSError (match lookup_at src (fs w) with
                     | None => "FileNotFoundError"
                     | Some _ => "NotADirectoryError"
                     end)), w).
Proof.
  intros He Hd. unfold copytree. rewrite He, run_bind. simpl.
  by destruct (lookup_at src (fs w)) as [[| |m]|].
Qed.

Lemma build_ctx_without_project_run work_dir contents w mt res w' :
  lookup_at (tmpdir w) (fs w) = Some (Dir mt) →
  is_dir (lookup_at work_dir (fs w)) = false →
  apart (tmpdir w) work_dir →
  _create_docker_build_ctx φ work_dir contents w = (res, w') →
  is_ok res = false
  ∧ (rmtree_error φ = None →
     lookup_at (tmpdir w) (fs w') = Some (Dir mt)
     ∧ (mkdtemp_error φ = None → copytree_error φ = None →
        res = Raise (OSError (match lookup_at work_dir (fs w) with
                              | None => "FileNotFoundError"
                              | Some _ => "NotADirectoryError"
                              end)))).
Proof.
  intros Ht Hnd Hapart. unfold _create_docker_build_ctx. rewrite run_bind.
  destruct (mkdtemp φ w) as [[scratch|e] w1] eqn:E.
  - apply mkdtemp_run in E as (x & -> & Hfresh & _ & _ & n1 & Hn1 & ->).
    rewrite lookup_at_app, Ht in Hfresh. simpl in Hfresh.
    assert (mt !! x = None) as Hx by by destruct (mt !! x).
    assert (lookup_at work_dir n1 = lookup_at work_dir (fs w)) as Hsame.
    { destruct (apart_scratch _ x _ Hapart).
      by apply (put_lookup_other _ _ _ _ _ _ Hn1). }
    assert (scratch_only (tmpdir w) mt x (set_fs n1 w)) as Hw1.
    { exists ∅. split; [done|]. simpl.
      apply put_spec in Hn1 as (m0 & H0 & H1). congruence. }
    unfold try_finally. cbv zeta. rewrite run_bind.
    destruct (copytree _ _ _ (set_fs n1 w)) as [[[]|e] wa] eqn:Ea.
    { apply copytree_Ok in Ea as (m & Hsrc & _). simpl in Hsrc.
      rewrite Hsame in Hsrc. by rewrite Hsrc in Hnd. }
    pose proof (scratch_only_copytree φ _ _ _ _ _ _ _ _ Hw1 Ea) as Hwa.
    intros H. split.
    + destruct (rmtree φ (tmpdir w ++ [x]) wa) as [[[]|e'] wb];
        by injection H as <- <-.
    + intros Hrm.
      destruct (rmtree_scratch_only φ _ _ _ _ Hrm Hx Hwa) as (n & Hn' & Hn).
      rewrite Hn' in H. injection H as <- <-. split; [done|].
      intros _ Hcp. rewrite copytree_no_directory in Ea; simpl; try done.
      * change (fs (set_fs n1 w)) with n1 in Ea. rewrite Hsame in Ea.
        by injection Ea as <- _.
      * by rewrite Hsame.
  - pose proof E as E'. apply mkdtemp_run in E' as ->.
    intros [= <- <-]. split; [done|]. intros _. split; [done|].
    intros Hmk _.
    destruct (mkdtemp_forward φ w mt Hmk Ht) as (x & n & _ & _ & H).
    rewrite H in E. done.
Qed.

(** X9: with a temporary directory in place and a project path outside it:
    when the project directory is not there, or is a regular file, the
    packager fails; when the removal of the scratch directory does not fail,
    the temporary directory is afterwards as it was before the call, and
    without a failure from outside in the allocation and the copy either
    the error is the one of the file system for a missing file in the first
    case, for a file that is not a directory in the second. *)
Theorem build_ctx_without_project (work_dir : path) (contents : string)
    (w : world) (mt : gmap string node) :
  lookup_at (tmpdir w) (fs w) = Some (Dir mt) →
  is_dir (lookup_at work_dir (fs w)) = false →
  apart (tmpdir w) work_dir →
  is_ok (fst (_create_docker_build_ctx φ work_dir contents w)) = false
  ∧ (rmtree_error φ = None →
     lookup_at (tmpdir w)
       (fs (snd (_create_docker_build_ctx φ work_dir contents w)))
     = Some (Dir mt)
     ∧ (mkdtemp_error φ = None → copytree_error φ = None →
        fst (_create_docker_build_ctx φ work_dir contents w)
        = Raise (OSError (match lookup_at work_dir (fs w) with
                          | None => "FileNotFoundError"
                          | Some _ => "NotADirectoryError"
                          end)))).
Proof.
  intros Ht Hnd Hapart.
  destruct (_create_docker_build_ctx φ work_dir contents w)
    as [res w'] eqn:E.
  exact (build_ctx_without_project_run _ _ _ _ _ _ Ht Hnd Hapart E).
Qed.

End Outcomes.

(** ** The build from the archive *)

Section Builder.

Context (_is_wandb_local_uri _is_wandb_dev_uri : string → bool).
Context (WANDB_DOCKER_WORKDIR_PATH : string).
Context (φ : oracle).

Local Abbreviation build :=
  (build_docker_image _is_wandb_local_uri _is_wandb_dev_uri
     WANDB_DOCKER_WORKDIR_PATH φ).
Local Abbreviation generated :=
  (generated_dockerfile _is_wandb_local_uri _is_wandb_dev_uri
     WANDB_DOCKER_WORKDIR_PATH).

Implicit Types (p q d t : path) (w : world) (m : gmap string node).

(** The call, once the tag is derived and the Dockerfile rendered. *)
Lemma build_unfold project uri base_image api w :
  build project uri base_image api w
  = match generated project base_image api with
    | Ok text =>
        (build_ctx_path ← _create_docker_build_ctx φ (dir project) text;
         build_from_context φ
           (spec_repository uri
            +:+ version_string_of (git_head w (dir project)))
           build_ctx_path) w
    | Raise e => (Raise e, w)
    end.
Proof.
  unfold build_docker_image, generated_dockerfile.
  rewrite run_bind, image_uri_run, run_bind. unfold lift at 1.
  destruct (resolve_base_url _ _ api) as [base_url|e]; [|done].
  rewrite run_bind, image_uri_run, run_bind. unfold lift at 1.
  by destruct (render_dockerfile _ project base_image api base_url).
Qed.

Lemma open_rb_run p a w :
  lookup_at p (fs w) = Some (Tarball a) →
  open_rb φ p w = match open_error φ with
                  | Some e => (Raise e, w)
                  | None => (Ok (Tarball a), w)
                  end.
Proof.
  intros Hp. unfold open_rb. destruct (open_error φ); [done|].
  rewrite run_bind. simpl. by rewrite Hp.
Qed.

Lemma docker_from_env_run w :
  docker_from_env φ w = match from_env_error φ with
                        | Some e => (Raise e, w)
                        | None => (Ok (), w)
                        end.
Proof. unfold docker_from_env. by destruct (from_env_error φ). Qed.

Lemma os_remove_run t z a w :
  lookup_at (t ++ [z]) (fs w) = Some (Tarball a) →
  os_remove φ (t ++ [z]) w
  = match remove_error φ with
    | Some e => (Raise e, w)
    | None =>
        match del t z (fs w) with
        | Some n => (Ok (), set_fs n w)
        | None => (Raise (OSError "FileNotFoundError"), w)
        end
    end.
Proof.
  intros Hp. unfold os_remove. destruct (remove_error φ); [done|].
  rewrite run_bind. simpl. rewrite Hp. unfold fs_del.
  by rewrite parent_and_name_snoc.
Qed.

(** What the build from an archive does, case by case. *)
Lemma build_from_context_run image_uri t z a w res w' :
  lookup_at (t ++ [z]) (fs w) = Some (Tarball a) →
  build_from_context φ image_uri (t ++ [z]) w = (res, w') →
  tmpdir w' = tmpdir w ∧ git_head w' = git_head w
  ∧ ((is_ok res = false ∧ builds w' = builds w ∧ fs w' = fs w)
     ∨ (builds w' = builds w ++ [request_for image_uri (Tarball a)]
        ∧ res = engine φ (request_for image_uri (Tarball a))
        ∧ match res with
          | Raise _ => fs w' = fs w
          | Ok _ =>
              match remove_error φ with
              | Some _ => fs w' = fs w
              | None => del t z (fs w) = Some (fs w')
              end
          end)).
Proof.
  intros Hp. unfold build_from_context. rewrite run_bind, (open_rb_run _ _ _ Hp).
  destruct (open_error φ); [intros [= <- <-]; split_and!; try done; by left|].
  rewrite run_bind, docker_from_env_run.
  destruct (from_env_error φ);
    [intros [= <- <-]; split_and!; try done; by left|].
  rewrite run_bind. unfold images_build at 1.
  destruct (engine φ (request_for image_uri (Tarball a))) as [image|e] eqn:He;
    [|intros [= <- <-]; split_and!; try done; right; by rewrite ?He].
  rewrite run_bind. unfold try_except.
  rewrite (os_remove_run _ _ a (log_build _ w)) by done.
  destruct (remove_error φ) eqn:Hrm.
  { intros [= <- <-]. split_and!; try done. right. by rewrite ?He, ?Hrm. }
  destruct (lookup_at_through t [z] _ _ Hp) as [m0 Hm0]; [done|].
  destruct (del_is_Some t z _ _ Hm0) as [n Hn]. simpl fs. rewrite Hn.
  intros [= <- <-]. split_and!; try done. right. by rewrite ?He, ?Hrm.
Qed.

(** The call, as far as the packager and then from the archive. *)
Lemma build_run project uri base_image api w res w' :
  build project uri base_image api w = (res, w') →
  (is_ok (generated project base_image api) = false
   ∧ is_ok res = false ∧ w' = w)
  ∨ ∃ text resp w1,
      generated project base_image api = Ok text
      ∧ _create_docker_build_ctx φ (dir project) text w = (resp, w1)
      ∧ match resp with
        | Raise e => res = Raise e ∧ w' = w1
        | Ok p =>
            build_from_context φ
              (spec_repository uri
               +:+ version_string_of (git_head w (dir project))) p w1
            = (res, w')
        end.
Proof.
  rewrite build_unfold.
  destruct (generated project base_image api) as [text|e];
    [|intros [= <- <-]; by left].
  rewrite run_bind.
  destruct (_create_docker_build_ctx φ (dir project) text w)
    as [[p|e] w1] eqn:E; intros H; right; exists text.
  - exists (Ok p), w1. by split_and!.
  - injection H as <- <-. exists (Raise e), w1. by split_and!.
Qed.

(** A packaging that has succeeded has removed its scratch directory. *)
Lemma build_ctx_Ok_removal work_dir contents w p w1 :
  _create_docker_build_ctx φ work_dir contents w = (Ok p, w1) →
  rmtree_error φ = None.
Proof.
  unfold _create_docker_build_ctx. intros H.
  apply bind_Ok in H as (scratch & w0 & _ & H).
  apply try_finally_Ok in H as (w5 & _ & Hrm).
  by apply rmtree_Ok in Hrm as [? _].
Qed.

(** A successful packaging, with all that is known of it. *)
Lemma build_ctx_Ok_full work_dir contents w p w1 :
  _create_docker_build_ctx φ work_dir contents w = (Ok p, w1) →
  ∃ mt m z,
    lookup_at (tmpdir w) (fs w) = Some (Dir mt)
    ∧ lookup_at work_dir (fs w) = Some (Dir m)
    ∧ mt !! z = None ∧ p = tmpdir w ++ [z]
    ∧ tmpdir w1 = tmpdir w ∧ builds w1 = builds w
    ∧ git_head w1 = git_head w
    ∧ lookup_at (tmpdir w) (fs w1)
      = Some (Dir (<[z := Tarball (Dir {[ _PROJECT_TAR_ARCHIVE_NAME :=
            Dir (<[ _GENERATED_DOCKERFILE_NAME := File contents ]> m) ]})]>
                     mt)).
Proof.
  intros H.
  assert (∃ mt, lookup_at (tmpdir w) (fs w) = Some (Dir mt)) as [mt Hmt].
  { pose proof H as H'. unfold _create_docker_build_ctx in H'.
    apply bind_Ok in H' as (scratch & w0 & Hmk & _).
    apply mkdtemp_run in Hmk as (x & _ & _ & _ & _ & n & Hn & _).
    apply put_spec in Hn as (m0 & H0 & _). eauto. }
  pose proof (local_build_ctx φ _ _
                (local_inv_quiet (tmpdir w) (builds w) (git_head w))
                work_dir contents w _ _ (conj eq_refl (conj eq_refl eq_refl)) H)
    as [(Ht1 & Hb1 & Hg1) _].
  destruct (build_ctx_litter φ _ _ _ _ _ _ (build_ctx_Ok_removal _ _ _ _ _ H)
              Hmt H)
    as [[Hfail _]|(z & v & Hz & Hv & Hl & Hp)]; [done|].
  specialize (Hp _ eq_refl). subst p.
  apply build_ctx_Ok in H as (m & Hm & _ & Harch).
  rewrite lookup_at_app, Hl in Harch. simpl in Harch.
  rewrite lookup_insert_eq in Harch. simpl in Harch. injection Harch as ->.
  exists mt, m, z. by split_and!.
Qed.

(** X10: a successful build has sent one request to the engine, after
    those it had received: the tag is the derived one, intermediate
    containers are removed, the context is the gzip archive of the project
    directory with the generated Dockerfile, and the [dockerfile] argument,
    split at its slash, is the path of that Dockerfile in the archive; the
    image returned is the one the engine has built for that request. *)
Theorem build_success_request project uri base_image api w image w' :
  build project uri base_image api w = (Ok image, w') →
  ∃ text m req,
    generated project base_image api = Ok text
    ∧ lookup_at (dir project) (fs w) = Some (Dir m)
    ∧ builds w' = builds w ++ [req]
    ∧ engine φ req = Ok image
    ∧ _get_docker_image_uri uri (dir project) w = (Ok (tag req), w)
    ∧ forcerm req = true ∧ custom_context req = true
    ∧ encoding req = "gzip"
    ∧ fileobj req
      = Tarball (Dir {[ _PROJECT_TAR_ARCHIVE_NAME :=
          Dir (<[ _GENERATED_DOCKERFILE_NAME := File text ]> m) ]})
    ∧ ∀ root, fileobj req = Tarball root →
        lookup_at (Py.split "/" (dockerfile req)) root = Some (File text).
Proof.
  intros H. apply build_run in H as [(_ & ? & _)|H]; [done|].
  destruct H as (text & resp & w1 & Hgen & Hctx & H).
  destruct resp as [p|e]; [|by destruct H].
  apply build_ctx_Ok_full in Hctx
    as (mt & m & z & Hmt & Hm & Hz & -> & Ht1 & Hb1 & Hg1 & Hl).
  assert (lookup_at (tmpdir w ++ [z]) (fs w1)
          = Some (Tarball (Dir {[ _PROJECT_TAR_ARCHIVE_NAME :=
              Dir (<[ _GENERATED_DOCKERFILE_NAME := File text ]> m) ]})))
    as Hp.
  { rewrite lookup_at_app, Hl. simpl. by rewrite lookup_insert_eq. }
  apply (build_from_context_run _ _ _ _ _ _ _ Hp) in H
    as (_ & _ & [(? & _)|(Hb & He & _)]); [done|].
  eexists text, m, _. split_and!; try done.
  - by rewrite Hb, Hb1.
  - by rewrite image_uri_run.
  - intros root [= <-]. simpl.
    rewrite lookup_singleton_eq. simpl. by rewrite lookup_insert_eq.
Qed.

(** X11: in every case the engine is called once at most; when it is
    not called the build has failed, and when it is called the outcome of
    the build is the outcome of that call: an image, or the error of the
    engine as the engine raised it. *)
Theorem build_engine_calls project uri base_image api w :
  (is_ok (fst (build project uri base_image api w)) = false
   ∧ builds (snd (build project uri base_image api w)) = builds w)
  ∨ ∃ req,
      builds (snd (build project uri base_image api w)) = builds w ++ [req]
      ∧ fst (build project uri base_image api w) = engine φ req.
Proof.
  destruct (build project uri base_image api w) as [res w'] eqn:H. simpl.
  apply build_run in H as [(_ & ? & ->)|H]; [by left|].
  destruct H as (text & resp & w1 & Hgen & Hctx & H).
  destruct resp as [p|e].
  - apply build_ctx_Ok_full in Hctx
      as (mt & m & z & Hmt & Hm & Hz & -> & Ht1 & Hb1 & Hg1 & Hl).
    eapply build_from_context_run in H
      as (_ & _ & [(? & Hb & _)|(Hb & He & _)]).
    + left. by rewrite Hb, Hb1.
    + right. eexists. by rewrite Hb, Hb1.
    + rewrite lookup_at_app, Hl. simpl. by rewrite lookup_insert_eq.
  - destruct H as [-> ->]. left. split; [done|].
    by pose proof (local_build_ctx φ _ _
         (local_inv_quiet (tmpdir w) (builds w) (git_head w))
         (dir project) text w _ _ (conj eq_refl (conj eq_refl eq_refl)) Hctx)
      as [(_ & ? & _) _].
Qed.

(** X12: when the engine has been called and the build fails, the error is
    the one of the engine, and the archive that was sent to it stays in the
    temporary directory, as the one entry added to it. *)
Theorem build_engine_error_leaves_archive project uri base_image api w mt
    e w' :
  lookup_at (tmpdir w) (fs w) = Some (Dir mt) →
  build project uri base_image api w = (Raise e, w') →
  builds w' ≠ builds w →
  ∃ z req,
    mt !! z = None
    ∧ builds w' = builds w ++ [req]
    ∧ engine φ req = Raise e
    ∧ lookup_at (tmpdir w) (fs w') = Some (Dir (<[z := fileobj req]> mt)).
Proof.
  intros Hmt H Hcalled. apply build_run in H as [(_ & _ & ->)|H]; [done|].
  destruct H as (text & resp & w1 & Hgen & Hctx & H).
  destruct resp as [p|e0].
  - apply build_ctx_Ok_full in Hctx
      as (mt' & m & z & Hmt' & Hm & Hz & -> & Ht1 & Hb1 & Hg1 & Hl).
    rewrite Hmt in Hmt'. injection Hmt' as <-.
    eapply build_from_context_run in H
      as (_ & _ & [(_ & Hb & _)|(Hb & He & Hfs)]).
    + destruct Hcalled. by rewrite Hb, Hb1.
    + exists z. eexists. split_and!; [done|by rewrite Hb, Hb1|done|].
      simpl in Hfs. by rewrite Hfs, Hl.
    + rewrite lookup_at_app, Hl. simpl. by rewrite lookup_insert_eq.
  - destruct H as [_ ->]. destruct Hcalled.
    by pose proof (local_build_ctx φ _ _
         (local_inv_quiet (tmpdir w) (builds w) (git_head w))
         (dir project) text w _ _ (conj eq_refl (conj eq_refl eq_refl)) Hctx)
      as [(_ & ? & _) _].
Qed.

(** X13: after a successful build whose removal of the archive is not
    hindered from outside, the temporary directory holds what it held
    before the call, neither scratch directory nor archive; when the removal
    fails the build succeeds all the same and the archive stays. *)
Theorem build_success_cleanup project uri base_image api w mt image w' :
  lookup_at (tmpdir w) (fs w) = Some (Dir mt) →
  build project uri base_image api w = (Ok image, w') →
  tmpdir w' = tmpdir w
  ∧ match remove_error φ with
    | None => lookup_at (tmpdir w) (fs w') = Some (Dir mt)
    | Some _ =>
        ∃ z req,
          mt !! z = None ∧ builds w' = builds w ++ [req]
          ∧ lookup_at (tmpdir w) (fs w') = Some (Dir (<[z := fileobj req]> mt))
    end.
Proof.
  intros Hmt H. apply build_run in H as [(_ & ? & _)|H]; [done|].
  destruct H as (text & resp & w1 & Hgen & Hctx & H).
  destruct resp as [p|e0]; [|by destruct H].
  apply build_ctx_Ok_full in Hctx
    as (mt' & m & z & Hmt' & Hm & Hz & -> & Ht1 & Hb1 & Hg1 & Hl).
  rewrite Hmt in Hmt'. injection Hmt' as <-.
  eapply build_from_context_run in H
    as (Ht & _ & [(? & _)|(Hb & He & Hfs)]); [done| |].
  2:{ rewrite lookup_at_app, Hl. simpl. by rewrite lookup_insert_eq. }
  split; [by rewrite Ht|]. simpl in Hfs.
  destruct (remove_error φ).
  - exists z. eexists. split_and!; [done|by rewrite Hb, Hb1|].
    by rewrite Hfs, Hl.
  - apply del_spec in Hfs as (m0 & H0 & H1).
    rewrite Hl in H0. injection H0 as <-.
    by rewrite H1, delete_insert_id.
Qed.

(** X14: whatever the outcome of the build, a path that is neither in the
    temporary directory nor above it leads to what it led to before: the
    project directory, when it is such a path, is not changed. *)
Theorem build_leaves_outside project uri base_image api w q :
  apart (tmpdir w) q →
  lookup_at q (fs (snd (build project uri base_image api w)))
  = lookup_at q (fs w).
Proof.
  intros Hq.
  destruct (build project uri base_image api w) as [res w'] eqn:H. simpl.
  apply build_run in H as [(_ & _ & ->)|H]; [done|].
  destruct H as (text & resp & w1 & Hgen & Hctx & H).
  pose proof (local_build_ctx φ _ _
                (local_inv_outside _ q (lookup_at q (fs w)) Hq)
                (dir project) text w _ _ (conj eq_refl eq_refl) Hctx)
    as [[_ Hq1] _].
  destruct resp as [p|e]; [|by destruct H as [_ ->]].
  apply build_ctx_Ok_full in Hctx
    as (mt & m & z & Hmt & Hm & Hz & -> & Ht1 & Hb1 & Hg1 & Hl).
  eapply build_from_context_run in H
    as (_ & _ & [(_ & _ & Hfs)|(_ & _ & Hfs)]).
  - by rewrite Hfs.
  - destruct res as [image|e]; [|by rewrite Hfs].
    destruct (remove_error φ); [by rewrite Hfs|].
    rewrite <- Hq1. destruct (apart_scratch _ z _ Hq).
    eapply update_dir_other; [|exact Hfs|done|done].
    intros m0 m0' [= <-] y Hy. by rewrite lookup_delete_ne.
  - rewrite lookup_at_app, Hl. simpl. by rewrite lookup_insert_eq.
Qed.

Lemma try_except_pass (m : M unit) w :
  ∃ w', try_except m (λ _, mret ()) w = (Ok (), w').
Proof.
  unfold try_except. destruct (m w) as [[[]|e] w1]; eauto.
Qed.

(** X15: with no failure from outside before the engine is called (the
    removal of the scratch directory included), a
    Dockerfile that can be generated, a temporary directory in place and a
    project directory outside it that has no directory called
    [Dockerfile.wandb-autogenerated], the outcome of the build is the
    outcome of the engine for the request made of the derived tag and of the
    archive of the project with its Dockerfile: the image it builds, or its
    error. *)
Theorem build_outcome_is_engine_outcome project uri base_image api w text
    mt m :
  mkdtemp_error φ = None → copytree_error φ = None →
  write_error φ = None → mkstemp_error φ = None →
  make_tarfile_error φ = None → rmtree_error φ = None →
  open_error φ = None → from_env_error φ = None →
  generated project base_image api = Ok text →
  lookup_at (tmpdir w) (fs w) = Some (Dir mt) →
  lookup_at (dir project) (fs w) = Some (Dir m) →
  apart (tmpdir w) (dir project) →
  is_dir (m !! _GENERATED_DOCKERFILE_NAME) = false →
  fst (build project uri base_image api w)
  = engine φ
      (request_for
         (spec_repository uri +:+ version_string_of (git_head w (dir project)))
         (Tarball (Dir {[ _PROJECT_TAR_ARCHIVE_NAME :=
            Dir (<[ _GENERATED_DOCKERFILE_NAME := File text ]> m) ]}))).
Proof.
  intros Hmk Hcp Hwr Hst Htar Hrmt Hop Henv Hgen Ht Hsrc Hapart Hnodir.
  rewrite build_unfold, Hgen, run_bind.
  destruct (build_ctx_succeeds_run φ (dir project) text w mt m)
    as (z & w1 & Hz & -> & Hl); try done.
  assert (lookup_at (tmpdir w ++ [z]) (fs w1)
          = Some (Tarball (Dir {[ _PROJECT_TAR_ARCHIVE_NAME :=
              Dir (<[ _GENERATED_DOCKERFILE_NAME := File text ]> m) ]})))
    as Hp.
  { rewrite lookup_at_app, Hl. simpl. by rewrite lookup_insert_eq. }
  unfold build_from_context.
  rewrite run_bind, (open_rb_run _ _ _ Hp), Hop.
  rewrite run_bind, docker_from_env_run, Henv.
  rewrite run_bind. unfold images_build at 1.
  destruct (engine φ _) as [image|e]; [|done].
  rewrite run_bind.
  by destruct (try_except_pass (os_remove φ (tmpdir w ++ [z]))
                 (log_build
                    (request_for
                       (spec_repository uri
                        +:+ version_string_of (git_head w (dir project)))
                       (Tarball (Dir {[ _PROJECT_TAR_ARCHIVE_NAME :=
                          Dir (<[ _GENERATED_DOCKERFILE_NAME := File text ]> m)
                          ]}))) w1)) as [w2 ->].
Qed.

End Builder.

(** ** The base URL, from the settings to the engine *)

Section Translation.

Context (_is_wandb_local_uri _is_wandb_dev_uri : string → bool).
Context (WANDB_DOCKER_WORKDIR_PATH : string).
Context (φ : oracle).

Local Abbreviation resolve :=
  (resolve_base_url _is_wandb_local_uri _is_wandb_dev_uri).
Local Abbreviation build :=
  (build_docker_image _is_wandb_local_uri _is_wandb_dev_uri
     WANDB_DOCKER_WORKDIR_PATH φ).
Local Abbreviation generated :=
  (generated_dockerfile _is_wandb_local_uri _is_wandb_dev_uri
     WANDB_DOCKER_WORKDIR_PATH).

(** The Dockerfile of a descriptor that has its two keys, for a base URL
    that resolves. *)
Lemma generated_dockerfile_lines project base_image api base_url p e :
  resolve api = Ok base_url →
  docker_env project !! "WANDB_PROJECT" = Some p →
  docker_env project !! "WANDB_ENTITY" = Some e →
  generated project base_image api
  = Ok (unlines (recipe_lines base_image WANDB_DOCKER_WORKDIR_PATH base_url
                   (api_key api) p e (name_if_set project))).
Proof.
  intros Hr Hp He. unfold generated_dockerfile. rewrite Hr.
  by apply render_dockerfile_lines.
Qed.

(** The request that the engine receives holds the generated Dockerfile. *)
Lemma build_request_dockerfile project uri base_image api w text req :
  generated project base_image api = Ok text →
  builds (snd (build project uri base_image api w)) = builds w ++ [req] →
  ∃ root,
    fileobj req = Tarball root
    ∧ lookup_at (Py.split "/" (dockerfile req)) root = Some (File text).
Proof.
  intros Hgen Hreq.
  destruct (build project uri base_image api w) as [res w'] eqn:H.
  simpl in Hreq.
  assert (∀ l : list build_request, l ≠ l ++ [req]) as Hne.
  { intros l Hl. apply (f_equal length) in Hl.
    rewrite length_app in Hl. simpl in Hl. lia. }
  apply build_run in H as [(Hf & _ & ->)|H]; [by destruct (Hne _ Hreq)|].
  destruct H as (text' & resp & w1 & Hgen' & Hctx & H).
  rewrite Hgen in Hgen'. injection Hgen' as <-.
  destruct resp as [pth|e0].
  - apply build_ctx_Ok_full in Hctx
      as (mt & m & z & Hmt & Hm & Hz & -> & Ht1 & Hb1 & Hg1 & Hl).
    assert (lookup_at (tmpdir w ++ [z]) (fs w1)
            = Some (Tarball (Dir {[ _PROJECT_TAR_ARCHIVE_NAME :=
                Dir (<[ _GENERATED_DOCKERFILE_NAME := File text ]> m) ]})))
      as Hp.
    { rewrite lookup_at_app, Hl. simpl. by rewrite lookup_insert_eq. }
    apply (build_from_context_run φ _ _ _ _ _ _ _ Hp) in H
      as (_ & _ & [(_ & Hb & _)|(Hb & _ & _)]).
    + rewrite Hb, Hb1 in Hreq. by destruct (Hne _ Hreq).
    + rewrite Hb, Hb1 in Hreq. apply app_inj_tail in Hreq as [_ <-].
      eexists. split; [reflexivity|]. simpl.
      rewrite lookup_singleton_eq. simpl. by rewrite lookup_insert_eq.
  - destruct H as [_ ->].
    pose proof (local_build_ctx φ _ _
         (local_inv_quiet (tmpdir w) (builds w) (git_head w))
         (dir project) text w _ _ (conj eq_refl (conj eq_refl eq_refl)) Hctx)
      as [(_ & Hb & _) _].
    rewrite Hb in Hreq. by destruct (Hne _ Hreq).
Qed.

(** C4: the base URL of the image is the address of the host as seen from
    a container, [http://host.docker.internal], with the port of the
    configured URL when that URL is local and made of scheme, host and port;
    the same address with port 9002 when the URL is a development one; the
    configured URL itself otherwise.  It is the value that
    [build_docker_image] writes into the recipe: a Dockerfile that is
    generated has it on its [WANDB_BASE_URL] line, the fourth; for a
    descriptor that has its project and its entity the Dockerfile is
    generated, with that line, it is the text that the call hands to the
    packager, and the archive of every request that the call sends to the
    engine holds it. *)
Theorem base_url_translation (api : Api) :
  let url := settings api "base_url" in
  (∀ scheme host port,
     _is_wandb_local_uri url = true →
     url = scheme +:+ ":" +:+ host +:+ ":" +:+ port →
     Py.count ":" scheme = 0 → Py.count ":" host = 0 → Py.count ":" port = 0 →
     resolve api = Ok ("http://host.docker.internal:" +:+ port))
  ∧ (_is_wandb_local_uri url = false → _is_wandb_dev_uri url = true →
     resolve api = Ok "http://host.docker.internal:9002")
  ∧ (_is_wandb_local_uri url = false → _is_wandb_dev_uri url = false →
     resolve api = Ok url)
  ∧ (∀ project base_image text,
       generated project base_image api = Ok text →
       ∃ base_url lines,
         resolve api = Ok base_url
         ∧ text = unlines lines
         ∧ lines !! 3 = Some ("ENV WANDB_BASE_URL=" +:+ base_url))
  ∧ (∀ project base_image base_url p e,
       resolve api = Ok base_url →
       docker_env project !! "WANDB_PROJECT" = Some p →
       docker_env project !! "WANDB_ENTITY" = Some e →
       let lines :=
         recipe_lines base_image WANDB_DOCKER_WORKDIR_PATH base_url
           (api_key api) p e (name_if_set project) in
       lines !! 3 = Some ("ENV WANDB_BASE_URL=" +:+ base_url)
       ∧ generated project base_image api = Ok (unlines lines)
       ∧ ∀ uri w,
           build project uri base_image api w
           = (build_ctx_path ←
                _create_docker_build_ctx φ (dir project) (unlines lines);
              build_from_context φ
                (spec_repository uri
                 +:+ version_string_of (git_head w (dir project)))
                build_ctx_path) w
           ∧ ∀ req,
               builds (snd (build project uri base_image api w))
               = builds w ++ [req] →
               ∃ root,
                 fileobj req = Tarball root
                 ∧ lookup_at (Py.split "/" (dockerfile req)) root
                   = Some (File (unlines lines))).
Proof.
  intros url. split_and!.
  - intros scheme host port Hl Hu Hs Hh Hp. unfold resolve_base_url.
    fold url. rewrite Hl, Hu, split_three by done. done.
  - intros Hl Hd. unfold resolve_base_url. fold url. by rewrite Hl, Hd.
  - intros Hl Hd. unfold resolve_base_url. fold url. by rewrite Hl, Hd.
  - intros project base_image text. unfold generated_dockerfile.
    destruct (resolve api) as [base_url|err]; [|done].
    intros Hr.
    destruct (docker_env project !! "WANDB_PROJECT") as [p|] eqn:Hp;
      [|by unfold render_dockerfile, getitem in Hr; rewrite Hp in Hr].
    destruct (docker_env project !! "WANDB_ENTITY") as [e|] eqn:He;
      [|by unfold render_dockerfile, getitem in Hr; rewrite Hp, He in Hr].
    rewrite (render_dockerfile_lines _ _ _ _ _ p e) in Hr by done.
    exists base_url,
      (recipe_lines base_image WANDB_DOCKER_WORKDIR_PATH base_url
         (api_key api) p e (name_if_set project)).
    split; [done|]. split; [congruence|done].
  - intros project base_image base_url p e Hr Hp He lines.
    pose proof (generated_dockerfile_lines project base_image api base_url
                  p e Hr Hp He) as Hgen.
    split; [done|]. split; [done|]. intros uri w. split.
    + by rewrite build_unfold, Hgen.
    + intros req. by apply build_request_dockerfile.
Qed.

End Translation.

(** A local URL with port 8080, a development URL and another URL; the
    Dockerfile for the local URL, and the request that the engine receives
    in the build of the sample project. *)
Lemma base_url_translation_witness :
  resolve_base_url local_uri_pattern dev_uri_pattern
    (api_at "http://localhost:8080")
  = Ok "http://host.docker.internal:8080"
  ∧ resolve_base_url local_uri_pattern dev_uri_pattern
      (api_at "https://api.wandb.test")
    = Ok "http://host.docker.internal:9002"
  ∧ resolve_base_url local_uri_pattern dev_uri_pattern
      (api_at "https://api.example.com")
    = Ok "https://api.example.com"
  ∧ generated_dockerfile local_uri_pattern dev_uri_pattern sample_workdir
      sample_project "python:3.9" (api_at "http://localhost:8080")
    = Ok (unlines
            [ "FROM python:3.9";
              "COPY wandb-project-docker-build-context/ /wandb/projects/code/";
              "WORKDIR /wandb/projects/code/";
              "ENV WANDB_BASE_URL=http://host.docker.internal:8080";
              "ENV WANDB_API_KEY=local-key";
              "ENV WANDB_PROJECT=demo";
              "ENV WANDB_ENTITY=team";
              "ENV WANDB_NAME=run-1";
              "ENV WANDB_LAUNCH=True";
              "USER root" ])
  ∧ ∃ req root,
      builds (snd (build_docker_image local_uri_pattern dev_uri_pattern
                     sample_workdir calm sample_project (Some "my repo")
                     "python:3.9" (api_at "http://localhost:8080")
                     sample_world))
      = [req]
      ∧ fileobj req = Tarball root
      ∧ lookup_at [_PROJECT_TAR_ARCHIVE_NAME; _GENERATED_DOCKERFILE_NAME] root
        = Some (File (unlines
            [ "FROM python:3.9";
              "COPY wandb-project-docker-build-context/ /wandb/projects/code/";
              "WORKDIR /wandb/projects/code/";
              "ENV WANDB_BASE_URL=http://host.docker.internal:8080";
              "ENV WANDB_API_KEY=local-key";
              "ENV WANDB_PROJECT=demo";
              "ENV WANDB_ENTITY=team";
              "ENV WANDB_NAME=run-1";
              "ENV WANDB_LAUNCH=True";
              "USER root" ])).
Proof.
  pose proof (base_url_translation local_uri_pattern dev_uri_pattern
                sample_workdir calm (api_at "http://localhost:8080"))
    as (Hlocal & _ & _ & _ & Hbuild).
  pose proof (Hlocal "http" "//localhost" "8080"
                eq_refl eq_refl eq_refl eq_refl eq_refl) as Hurl.
  destruct (Hbuild sample_project "python:3.9" _ "demo" "team" Hurl
              ltac:(vm_compute; reflexivity) ltac:(vm_compute; reflexivity))
    as (_ & Hgen & Hreq).
  destruct (Hreq (Some "my repo") sample_world) as [_ Hsent].
  split_and!.
  - exact Hurl.
  - exact (proj1 (proj2 (base_url_translation local_uri_pattern
                           dev_uri_pattern sample_workdir calm
                           (api_at "https://api.wandb.test")))
             eq_refl eq_refl).
  - exact (proj1 (proj2 (proj2 (base_url_translation local_uri_pattern
                                  dev_uri_pattern sample_workdir calm
                                  (api_at "https://api.example.com"))))
             eq_refl eq_refl).
  - exact Hgen.
  - eexists. destruct (Hsent _ ltac:(vm_compute; reflexivity))
      as (root & Hroot & Hfile).
    exists root. split_and!; [vm_compute; reflexivity|exact Hroot|exact Hfile].
Defined.

(** ** Reading the image name back *)

Module ReMore.

Import PyFacts ReFacts.

Lemma app_inv_length (a b x y : string) :
  a +:+ x = b +:+ y → String.length a = String.length b → a = b.
Proof.
  revert b. induction a as [|c a IH]; intros [|c' b]; simpl; try done.
  rewrite !app_cons. intros [= -> H] [= Hl]. f_equal. by apply IH.
Qed.

(** A text without line feed that starts a text starts its first line. *)
Lemma prefix_within_line (u rest line tail : string) :
  u +:+ rest = line +:+ tail → Py.count "010" u = 0 → line_end tail →
  ∃ rest', line = u +:+ rest'.
Proof.
  revert line. induction u as [|c u IH]; intros line; [by eexists|].
  rewrite app_cons. simpl.
  destruct (Ascii.eqb_spec c "010") as [->|Hc]; [done|]. simpl.
  destruct line as [|c' line].
  - rewrite app_nil_l. intros H _ [->|[tail' ->]]; [done|].
    by injection H as -> _.
  - rewrite app_cons. intros [= <- H] Hu Ht.
    destruct (IH _ H Hu Ht) as [rest' ->]. exists rest'.
    by rewrite app_cons.
Qed.

Lemma first_line_split s :
  Py.count "010" s ≠ 0 →
  ∃ l r, s = l +:+ String "010" r ∧ Py.count "010" l = 0.
Proof.
  induction s as [|c s IH]; simpl; [done|].
  destruct (Ascii.eqb_spec c "010") as [->|Hc].
  - intros _. by exists "", s.
  - simpl. intros H. destruct (IH H) as (l & r & -> & Hl).
    exists (String c l), r. rewrite app_cons. split; [done|]. simpl.
    by destruct (Ascii.eqb_spec c "010").
Qed.

(** The group is the longest name that [after] follows. *)
Lemma group_longest after g rest g' :
  g ≠ "" → Py.count "010" g = 0 →
  Re.group after (g +:+ after +:+ rest) = Some g' →
  (String.length g ≤ String.length g')%nat.
Proof.
  revert g'. induction g as [|c g IH]; [done|]. intros g' _.
  rewrite app_cons. simpl.
  destruct (Ascii.eqb c "010") eqn:Hc; [done|]. simpl. intros Hn.
  destruct g as [|c' g].
  - destruct (Re.group after _) as [g0|].
    + intros [= <-]. simpl. lia.
    + destruct (Py.startswith after _); [|done]. by intros [= <-].
  - destruct (group_complete after (String c' g) rest) as [g0 Hg0];
      [done|done|].
    rewrite Hg0. intros [= <-]. simpl.
    pose proof (IH g0 ltac:(done) Hn Hg0). simpl in *. lia.
Qed.

(** A name at the end of its line, between the two literals, is the
    group. *)
Lemma group_round_trip after g tail :
  g ≠ "" → Py.count "010" g = 0 → Py.count "010" after = 0 →
  line_end tail →
  Re.group after (g +:+ after +:+ tail) = Some g.
Proof.
  intros Hg Hn Ha Ht.
  destruct (group_complete after g tail Hg Hn) as [g' Hg'].
  rewrite Hg'. f_equal.
  pose proof (group_longest _ _ _ _ Hg Hn Hg') as Hle.
  apply group_sound in Hg' as (rest & Heq & _ & Hn').
  rewrite <- !app_assoc in Heq.
  destruct (prefix_within_line (g' +:+ after) rest (g +:+ after) tail)
    as [rest' Hrest']; [done|by rewrite count_app, Hn', Ha|done|].
  assert (String.length g' = String.length g) as Hlen.
  { apply (f_equal String.length) in Hrest'.
    rewrite !app_length in Hrest'. lia. }
  rewrite !app_assoc in Heq. by apply app_inv_length in Heq.
Qed.

Lemma match_at_round_trip p g tail :
  g ≠ "" → Py.count "010" g = 0 → Py.count "010" (Re.after p) = 0 →
  line_end tail →
  ∃ len, Re.match_at p (Re.before p +:+ g +:+ Re.after p +:+ tail)
         = Some (g, len).
Proof.
  intros Hg Hn Ha Ht. unfold Re.match_at.
  rewrite strip_prefix_app, group_round_trip by done. eauto.
Qed.

Lemma complete_lines_tail c s : complete_lines (String c s) → complete_lines s.
Proof.
  intros [|[s' H]]; [done|]. destruct s' as [|c' s'].
  - injection H as _ ->. by left.
  - rewrite app_cons in H. injection H as _ ->. right. eauto.
Qed.

Lemma complete_lines_count s : complete_lines s → s ≠ "" → Py.count "010" s ≠ 0.
Proof.
  intros [|[s' ->]]; [done|]. intros _. rewrite count_app. simpl. lia.
Qed.

(** No match begins in lines that hold no marker. *)
Lemma match_at_in_lines p pre s :
  one_line_pattern p → complete_lines pre → pre ≠ "" → ¬ marker p pre →
  Re.match_at p (pre +:+ s) = None.
Proof.
  intros [Hb Ha] Hpre Hne Hno.
  destruct (Re.match_at p (pre +:+ s)) as [[g len]|] eqn:Hm; [|done].
  destruct Hno. apply match_at_sound in Hm as (rest & Heq & Hg & Hn).
  destruct (first_line_split pre) as (l & r & -> & Hl);
    [by apply complete_lines_count|].
  rewrite app_assoc in Heq.
  assert (Re.before p +:+ g +:+ Re.after p +:+ rest
          = (Re.before p +:+ g +:+ Re.after p) +:+ rest) as Hre
    by by rewrite !app_assoc.
  rewrite Hre in Heq. symmetry in Heq.
  destruct (prefix_within_line _ _ _ _ Heq) as [rest' ->].
  - by rewrite !count_app, Hb, Hn, Ha.
  - right. rewrite app_cons. simpl. eauto.
  - exists "", g, (rest' +:+ String "010" r). rewrite app_nil_l.
    split; [|done]. by rewrite !app_assoc.
Qed.

(** [findall] passes over lines that hold no marker. *)
Lemma findall_after_lines p pre s :
  one_line_pattern p → complete_lines pre → ¬ marker p pre →
  Re.findall p (pre +:+ s) = Re.findall p s.
Proof.
  intros Hp. unfold Re.findall.
  induction pre as [|c pre IH]; intros Hpre Hno; [done|].
  pose proof (match_at_in_lines p (String c pre) s Hp Hpre ltac:(done) Hno)
    as Hm.
  rewrite app_cons in *. simpl. rewrite Hm. apply IH.
  - by eapply complete_lines_tail.
  - intros (a & g & b & -> & ? & ?). apply Hno.
    exists (String c a), g, b. by rewrite app_cons.
Qed.

(** After lines without marker, a line made of a marker gives its name. *)
Lemma findall_round_trip p pre g tail :
  one_line_pattern p → complete_lines pre → ¬ marker p pre →
  g ≠ "" → Py.count "010" g = 0 → line_end tail →
  ∃ gs, Re.findall p (pre +:+ Re.before p +:+ g +:+ Re.after p +:+ tail)
        = g :: gs.
Proof.
  intros Hp Hpre Hno Hg Hn Ht. rewrite findall_after_lines by done.
  destruct (match_at_round_trip p g tail Hg Hn (proj2 Hp) Ht) as [len Hm].
  unfold Re.findall.
  destruct (Re.before p +:+ g +:+ Re.after p +:+ tail) as [|c s] eqn:E;
    simpl; rewrite Hm; eauto.
Qed.

Lemma match_at_group p r g :
  Re.group (Re.after p) r = Some g →
  ∃ len, Re.match_at p (Re.before p +:+ r) = Some (g, len).
Proof.
  intros Hg. unfold Re.match_at. rewrite strip_prefix_app, Hg. eauto.
Qed.

Lemma findall_of_match p s g len :
  Re.match_at p s = Some (g, len) → ∃ gs, Re.findall p s = g :: gs.
Proof.
  intros Hm. unfold Re.findall. destruct s; simpl; rewrite Hm; eauto.
Qed.

End ReMore.

Section Repo2dockerMore.

Context (φ : oracle).

Lemma generate_run project entry_cmd stderr w :
  subprocess_stderr φ (repo2docker_cmd project entry_cmd) = Ok stderr →
  generate_docker_image φ project entry_cmd w
  = match Re.findall tagged_pattern stderr with
    | g :: _ => (Ok g, w)
    | [] => match Re.findall reusing_pattern stderr with
            | g :: _ => (Ok g, w)
            | [] => (Raise (Exception "error running repo2docker"), w)
            end
    end.
Proof.
  intros Hrun. unfold generate_docker_image. rewrite run_bind.
  unfold run_stderr, lift. rewrite Hrun. simpl.
  destruct (Re.findall tagged_pattern stderr) as [|g gs]; simpl; [|done].
  by destruct (Re.findall reusing_pattern stderr).
Qed.

(** X16: when the output of the tool is made of lines without success
    marker followed by a line [Successfully tagged <name>:latest], the name
    being on one line and not empty, the call returns that name, whatever
    follows that line. *)
Theorem generate_reads_tagged_name project entry_cmd w pre name tail :
  subprocess_stderr φ (repo2docker_cmd project entry_cmd)
  = Ok (pre +:+ "Successfully tagged " +:+ name +:+ ":latest" +:+ tail) →
  complete_lines pre → ¬ marker tagged_pattern pre →
  name ≠ "" → Py.count "010" name = 0 → line_end tail →
  generate_docker_image φ project entry_cmd w = (Ok name, w).
Proof.
  intros Hrun Hpre Hno Hname Hn Ht. rewrite (generate_run _ _ _ _ Hrun).
  destruct (ReMore.findall_round_trip tagged_pattern pre name tail)
    as [gs Hgs]; try done.
  simpl in Hgs. by rewrite Hgs.
Qed.

(** X17: when the output has no success marker and is made of lines
    without reuse marker followed by a line
    [Reusing existing image (<name>)], the call returns that name. *)
Theorem generate_reads_reused_name project entry_cmd w pre name tail :
  subprocess_stderr φ (repo2docker_cmd project entry_cmd)
  = Ok (pre +:+ "Reusing existing image (" +:+ name +:+ ")" +:+ tail) →
  ¬ marker tagged_pattern
      (pre +:+ "Reusing existing image (" +:+ name +:+ ")" +:+ tail) →
  complete_lines pre → ¬ marker reusing_pattern pre →
  name ≠ "" → Py.count "010" name = 0 → line_end tail →
  generate_docker_image φ project entry_cmd w = (Ok name, w).
Proof.
  intros Hrun Hnotag Hpre Hno Hname Hn Ht. rewrite (generate_run _ _ _ _ Hrun).
  apply ReFacts.findall_nil in Hnotag. rewrite Hnotag.
  destruct (ReMore.findall_round_trip reusing_pattern pre name tail)
    as [gs Hgs]; try done.
  simpl in Hgs. by rewrite Hgs.
Qed.

(** X18: the name is taken greedily: when the output starts with
    [Successfully tagged ] and the call returns a name, no text on that line
    that [:latest] follows is longer than the name returned; with several
    [:latest] on the line the name runs to the last of them. *)
Theorem generate_name_is_longest project entry_cmd w line name :
  subprocess_stderr φ (repo2docker_cmd project entry_cmd)
  = Ok ("Successfully tagged " +:+ line) →
  generate_docker_image φ project entry_cmd w = (Ok name, w) →
  ∀ shorter rest,
    line = shorter +:+ ":latest" +:+ rest →
    shorter ≠ "" → Py.count "010" shorter = 0 →
    (String.length shorter ≤ String.length name)%nat.
Proof.
  intros Hrun Hres shorter rest -> Hs Hn.
  rewrite (generate_run _ _ _ _ Hrun) in Hres.
  destruct (ReFacts.group_complete ":latest" shorter rest Hs Hn) as [g Hg].
  pose proof (ReMore.group_longest _ _ _ _ Hs Hn Hg) as Hle.
  destruct (ReMore.match_at_group tagged_pattern _ _ Hg) as [len Hm].
  destruct (ReMore.findall_of_match _ _ _ _ Hm) as [gs Hf].
  simpl in Hf. rewrite Hf in Hres. by injection Hres as <-.
Qed.

End Repo2dockerMore.

(** ** The further properties on sample inputs *)

Lemma sample_apart : apart ["tmp"] ["home"; "proj"].
Proof. split; intros H; by apply prefix_cons_inv_1 in H. Qed.

Lemma sample_apart_missing : apart ["tmp"] ["home"; "nowhere"].
Proof. split; intros H; by apply prefix_cons_inv_1 in H. Qed.

(** The Dockerfile of the sample project has ten lines. *)
Lemma dockerfile_line_count_witness :
  ∃ text,
    render_dockerfile sample_workdir sample_project "python:3.9"
      (api_at "https://api.example.com") "https://api.example.com" = Ok text
    ∧ Py.count "010" text = 10.
Proof.
  destruct (dockerfile_line_count sample_workdir sample_project "python:3.9"
              (api_at "https://api.example.com") "https://api.example.com"
              "demo" "team" ltac:(vm_compute; reflexivity)
              ltac:(vm_compute; reflexivity)) as (text & H1 & H2).
  exists text. split; [exact H1|]. rewrite H2. reflexivity.
Defined.

(** The project directory after a packaging whose archiving step fails. *)
Lemma build_ctx_leaves_outside_witness :
  lookup_at ["home"; "proj"]
    (fs (snd (_create_docker_build_ctx tar_breaks ["home"; "proj"]
                "FROM python:3.9" sample_world)))
  = lookup_at ["home"; "proj"] (fs sample_world).
Proof.
  exact (proj1 (build_ctx_leaves_outside tar_breaks ["home"; "proj"]
                  "FROM python:3.9" sample_world ["home"; "proj"]
                  sample_apart)).
Defined.

(** The temporary directory of the sample world, which was empty. *)
Lemma build_ctx_footprint_witness :
  let r := _create_docker_build_ctx tar_breaks ["home"; "proj"]
             "FROM python:3.9" sample_world in
  (is_ok (fst r) = false ∧ lookup_at ["tmp"] (fs (snd r)) = Some (Dir ∅))
  ∨ ∃ z v,
      (∅ : gmap string node) !! z = None ∧ is_regular (Some v) = true
      ∧ lookup_at ["tmp"] (fs (snd r)) = Some (Dir (<[z := v]> ∅))
      ∧ ∀ p, fst r = Ok p → p = ["tmp"] ++ [z].
Proof.
  exact (build_ctx_footprint tar_breaks ["home"; "proj"] "FROM python:3.9"
           sample_world ∅ eq_refl ltac:(vm_compute; reflexivity)).
Defined.

(** The packaging of the sample project. *)
Lemma build_ctx_succeeds_witness :
  ∃ z,
    (∅ : gmap string node) !! z = None
    ∧ fst (_create_docker_build_ctx calm ["home"; "proj"] "FROM python:3.9"
             sample_world) = Ok (["tmp"] ++ [z])
    ∧ lookup_at ["tmp"]
        (fs (snd (_create_docker_build_ctx calm ["home"; "proj"]
                    "FROM python:3.9" sample_world)))
      = Some (Dir (<[z := Tarball (Dir {[ _PROJECT_TAR_ARCHIVE_NAME :=
            Dir (<[ _GENERATED_DOCKERFILE_NAME := File "FROM python:3.9" ]>
                   {[ "train.py" := File "print(1)" ]}) ]})]> ∅)).
Proof.
  exact (build_ctx_succeeds calm ["home"; "proj"] "FROM python:3.9"
           sample_world ∅ {[ "train.py" := File "print(1)" ]}
           eq_refl eq_refl eq_refl eq_refl eq_refl eq_refl
           ltac:(vm_compute; reflexivity) ltac:(vm_compute; reflexivity)
           sample_apart ltac:(vm_compute; reflexivity)).
Defined.

(** The packaging of a project whose Dockerfile name is a directory. *)
Lemma build_ctx_dockerfile_is_directory_witness :
  fst (_create_docker_build_ctx calm ["home"; "proj"] "FROM python:3.9"
         (world_of dir_clash_fs None))
  = Raise (OSError "IsADirectoryError")
  ∧ lookup_at ["tmp"]
      (fs (snd (_create_docker_build_ctx calm ["home"; "proj"]
                  "FROM python:3.9" (world_of dir_clash_fs None))))
    = Some (Dir ∅).
Proof.
  exact (build_ctx_dockerfile_is_directory calm ["home"; "proj"]
           "FROM python:3.9" (world_of dir_clash_fs None) ∅
           {[ "train.py" := File "print(1)";
              _GENERATED_DOCKERFILE_NAME := Dir ∅ ]}
           eq_refl eq_refl eq_refl
           ltac:(vm_compute; reflexivity) ltac:(vm_compute; reflexivity)
           sample_apart ltac:(vm_compute; reflexivity)).
Defined.

(** The packaging of the sample project when the disk is full. *)
Lemma build_ctx_archiving_fails_witness :
  ∃ z,
    (∅ : gmap string node) !! z = None
    ∧ fst (_create_docker_build_ctx tar_breaks ["home"; "proj"]
             "FROM python:3.9" sample_world)
      = Raise (OSError "No space left on device")
    ∧ lookup_at ["tmp"]
        (fs (snd (_create_docker_build_ctx tar_breaks ["home"; "proj"]
                    "FROM python:3.9" sample_world)))
      = Some (Dir (<[z := File "truncated"]> ∅)).
Proof.
  exact (build_ctx_archiving_fails tar_breaks ["home"; "proj"]
           "FROM python:3.9" sample_world ∅ {[ "train.py" := File "print(1)" ]}
           (OSError "No space left on device")
           eq_refl eq_refl eq_refl eq_refl eq_refl eq_refl
           ltac:(vm_compute; reflexivity) ltac:(vm_compute; reflexivity)
           sample_apart ltac:(vm_compute; reflexivity)).
Defined.

(** The packaging of a directory that is not there. *)
Lemma build_ctx_without_project_witness :
  fst (_create_docker_build_ctx calm ["home"; "nowhere"] "FROM python:3.9"
         sample_world)
  = Raise (OSError "FileNotFoundError")
  ∧ lookup_at ["tmp"]
      (fs (snd (_create_docker_build_ctx calm ["home"; "nowhere"]
                  "FROM python:3.9" sample_world)))
    = Some (Dir ∅).
Proof.
  destruct (build_ctx_without_project calm ["home"; "nowhere"]
              "FROM python:3.9" sample_world ∅
              ltac:(vm_compute; reflexivity) ltac:(vm_compute; reflexivity)
              sample_apart_missing) as (_ & H).
  destruct (H eq_refl) as [H2 H3].
  split; [exact (H3 eq_refl eq_refl)|exact H2].
Defined.

(** The build of the sample project. *)
Lemma build_success_request_witness :
  let w' := snd (build_docker_image local_uri_pattern dev_uri_pattern
                   sample_workdir calm sample_project (Some "my repo")
                   "python:3.9" (api_at "https://api.example.com")
                   sample_world) in
  ∃ text m req,
    generated_dockerfile local_uri_pattern dev_uri_pattern sample_workdir
      sample_project "python:3.9" (api_at "https://api.example.com") = Ok text
    ∧ lookup_at (dir sample_project) (fs sample_world) = Some (Dir m)
    ∧ builds w' = builds sample_world ++ [req]
    ∧ engine calm req = Ok "image of my-repo:abc1234"
    ∧ _get_docker_image_uri (Some "my repo") (dir sample_project) sample_world
      = (Ok (tag req), sample_world)
    ∧ forcerm req = true ∧ custom_context req = true
    ∧ encoding req = "gzip"
    ∧ fileobj req
      = Tarball (Dir {[ _PROJECT_TAR_ARCHIVE_NAME :=
          Dir (<[ _GENERATED_DOCKERFILE_NAME := File text ]> m) ]})
    ∧ ∀ root, fileobj req = Tarball root →
        lookup_at (Py.split "/" (dockerfile req)) root = Some (File text).
Proof.
  exact (build_success_request local_uri_pattern dev_uri_pattern
           sample_workdir calm sample_project (Some "my repo")
           "python:3.9" (api_at "https://api.example.com") sample_world
           "image of my-repo:abc1234"
           (snd (build_docker_image local_uri_pattern dev_uri_pattern
                   sample_workdir calm sample_project (Some "my repo")
                   "python:3.9" (api_at "https://api.example.com")
                   sample_world))
           ltac:(vm_compute; reflexivity)).
Defined.

(** The build of the sample project by an engine that refuses it. *)
Lemma build_engine_error_leaves_archive_witness :
  let w' := snd (build_docker_image local_uri_pattern dev_uri_pattern
                   sample_workdir engine_breaks sample_project
                   (Some "my repo") "python:3.9"
                   (api_at "https://api.example.com") sample_world) in
  ∃ z req,
    (∅ : gmap string node) !! z = None
    ∧ builds w' = builds sample_world ++ [req]
    ∧ engine engine_breaks req = Raise (DockerError "build failed")
    ∧ lookup_at (tmpdir sample_world) (fs w')
      = Some (Dir (<[z := fileobj req]> ∅)).
Proof.
  refine (build_engine_error_leaves_archive local_uri_pattern dev_uri_pattern
            sample_workdir engine_breaks sample_project (Some "my repo")
            "python:3.9" (api_at "https://api.example.com") sample_world ∅
            (DockerError "build failed")
            (snd (build_docker_image local_uri_pattern dev_uri_pattern
                    sample_workdir engine_breaks sample_project
                    (Some "my repo") "python:3.9"
                    (api_at "https://api.example.com") sample_world))
            ltac:(vm_compute; reflexivity) ltac:(vm_compute; reflexivity) _).
  vm_compute. discriminate.
Defined.

(** The temporary directory after the build of the sample project. *)
Lemma build_success_cleanup_witness :
  let w' := snd (build_docker_image local_uri_pattern dev_uri_pattern
                   sample_workdir calm sample_project (Some "my repo")
                   "python:3.9" (api_at "https://api.example.com")
                   sample_world) in
  tmpdir w' = tmpdir sample_world
  ∧ lookup_at (tmpdir sample_world) (fs w') = Some (Dir ∅).
Proof.
  exact (build_success_cleanup local_uri_pattern dev_uri_pattern
           sample_workdir calm sample_project (Some "my repo")
           "python:3.9" (api_at "https://api.example.com") sample_world ∅
           "image of my-repo:abc1234"
           (snd (build_docker_image local_uri_pattern dev_uri_pattern
                   sample_workdir calm sample_project (Some "my repo")
                   "python:3.9" (api_at "https://api.example.com")
                   sample_world))
           ltac:(vm_compute; reflexivity) ltac:(vm_compute; reflexivity)).
Defined.

(** The project directory after a build that the engine refuses. *)
Lemma build_leaves_outside_witness :
  lookup_at ["home"; "proj"]
    (fs (snd (build_docker_image local_uri_pattern dev_uri_pattern
                sample_workdir engine_breaks sample_project (Some "my repo")
                "python:3.9" (api_at "https://api.example.com")
                sample_world)))
  = lookup_at ["home"; "proj"] (fs sample_world).
Proof.
  exact (build_leaves_outside local_uri_pattern dev_uri_pattern
           sample_workdir engine_breaks sample_project (Some "my repo")
           "python:3.9" (api_at "https://api.example.com") sample_world
           ["home"; "proj"] sample_apart).
Defined.

Lemma build_log_lines :
  complete_lines
    ("Step 1/2 : FROM buildpack-deps" +:+ Py.nl
     +:+ "Successfully built 0123abcd" +:+ Py.nl)
  ∧ ¬ marker tagged_pattern
        ("Step 1/2 : FROM buildpack-deps" +:+ Py.nl
         +:+ "Successfully built 0123abcd" +:+ Py.nl).
Proof.
  split.
  - right. by exists ("Step 1/2 : FROM buildpack-deps" +:+ Py.nl
                      +:+ "Successfully built 0123abcd").
  - by apply ReFacts.findall_nil.
Qed.

Lemma reuse_log_lines :
  complete_lines ("Picked Git content provider." +:+ Py.nl)
  ∧ ¬ marker reusing_pattern ("Picked Git content provider." +:+ Py.nl)
  ∧ ¬ marker tagged_pattern reuse_log.
Proof.
  split_and!.
  - right. by exists "Picked Git content provider.".
  - by apply ReFacts.findall_nil.
  - by apply ReFacts.findall_nil.
Qed.

(** The name read from the output of a build. *)
Lemma generate_reads_tagged_name_witness :
  generate_docker_image (with_stderr build_log) sample_project
    "python train.py" sample_world
  = (Ok "r2d-demo", sample_world).
Proof.
  exact (generate_reads_tagged_name (with_stderr build_log) sample_project
           "python train.py" sample_world
           ("Step 1/2 : FROM buildpack-deps" +:+ Py.nl
            +:+ "Successfully built 0123abcd" +:+ Py.nl)
           "r2d-demo" Py.nl
           eq_refl (proj1 build_log_lines) (proj2 build_log_lines)
           ltac:(discriminate) eq_refl
           (or_intror (ex_intro _ "" eq_refl))).
Defined.

(** The name read from the output of a run that finds its image again. *)
Lemma generate_reads_reused_name_witness :
  generate_docker_image (with_stderr reuse_log) sample_project
    "python train.py" sample_world
  = (Ok "r2d-demo", sample_world).
Proof.
  exact (generate_reads_reused_name (with_stderr reuse_log) sample_project
           "python train.py" sample_world
           ("Picked Git content provider." +:+ Py.nl)
           "r2d-demo" Py.nl
           eq_refl (proj2 (proj2 reuse_log_lines)) (proj1 reuse_log_lines)
           (proj1 (proj2 reuse_log_lines))
           ltac:(discriminate) eq_refl
           (or_intror (ex_intro _ "" eq_refl))).
Defined.

(** Two [:latest] on the line: the name runs to the second. *)
Lemma generate_name_is_longest_witness :
  generate_docker_image
    (with_stderr "Successfully tagged demo:latest and more:latest")
    sample_project "python train.py" sample_world
  = (Ok "demo:latest and more", sample_world)
  ∧ (String.length "demo" ≤ String.length "demo:latest and more")%nat.
Proof.
  split; [vm_compute; reflexivity|].
  exact (generate_name_is_longest
           (with_stderr "Successfully tagged demo:latest and more:latest")
           sample_project "python train.py" sample_world
           "demo:latest and more:latest" "demo:latest and more"
           eq_refl ltac:(vm_compute; reflexivity)
           "demo" " and more:latest" eq_refl ltac:(discriminate) eq_refl).
Defined.

(** The build of the sample project gives what the engine gives. *)
Lemma build_outcome_is_engine_outcome_witness :
  fst (build_docker_image local_uri_pattern dev_uri_pattern sample_workdir
         engine_breaks sample_project (Some "my repo") "python:3.9"
         (api_at "https://api.example.com") sample_world)
  = Raise (DockerError "build failed").
Proof.
  destruct (generated_dockerfile local_uri_pattern dev_uri_pattern
              sample_workdir sample_project "python:3.9"
              (api_at "https://api.example.com")) as [text|e] eqn:Hgen;
    [|vm_compute in Hgen; discriminate Hgen].
  exact (build_outcome_is_engine_outcome local_uri_pattern dev_uri_pattern
           sample_workdir engine_breaks sample_project (Some "my repo")
           "python:3.9" (api_at "https://api.example.com") sample_world
           text ∅ {[ "train.py" := File "print(1)" ]}
           eq_refl eq_refl eq_refl eq_refl eq_refl eq_refl eq_refl eq_refl
           Hgen ltac:(vm_compute; reflexivity) ltac:(vm_compute; reflexivity)
           sample_apart ltac:(vm_compute; reflexivity)).
Defined.
